(** * Order execution and risk state of the drift / elliottwave strategies

    A shallow embedding of
      - [pkg/strategy/drift/strategy.go] (module [Drift]),
      - the elliottwave strategy (module [Elliottwave]),
      - [GeneralOrderExecutor] of package bbgo (module [Bbgo], and module
        [Executor] for its position operations),
      - the callbacks [Run] and [initTickerFunctions] register and the
        limits [Subscribe] sets (modules [DriftRun], [ElliottwaveRun]),
    and the properties of their order life cycle.

    Conventions.
      - [fixedpoint.Value] and [float64] quantities are exact rationals
        ([Q]): rounding is idealised.  The one place where IEEE-754
        arithmetic differs structurally, a division by zero followed by a
        comparison, is written out in [div_gt].
      - The exchange is an external collaborator: its answers are a script
        held in the executor's state, and every request is logged in a
        trace.
      - Indicators, balances and the last price are collaborators too:
        the handlers take their current values as arguments.
      - The bar-close domain is modelled on its own, one event at a time;
        mutexes, logging, notifications and the profit series kept for
        the graphs are left out.
      - A Go [panic] is the result [None]. *)

From Stdlib Require Import QArith Qabs Qround Qpower Lqa ZArith Lia List Bool.
From stdpp Require Import gmap.
Import ListNotations.

Local Open Scope Q_scope.

(** ** Numbers *)

Module Num.

Definition Qltb (x y : Q) : bool := negb (Qle_bool y x).

(** Go's [a / b > r] on float64 operands with a finite [r]: a division by
    zero yields +Inf for a positive dividend (greater than every finite
    [r]), and -Inf or NaN otherwise (greater than nothing). *)
Definition div_gt (a b r : Q) : bool :=
  if Qeq_bool b 0 then Qltb 0 a else Qltb r (a / b).

(** [math.Min] and [math.Max]. *)
Definition fmin (x y : Q) : Q := if Qle_bool x y then x else y.
Definition fmax (x y : Q) : Q := if Qle_bool x y then y else x.

End Num.
Import Num.

(** ** Order and market data ([pkg/types], as far as the strategies use it) *)

Inductive SideType := SideTypeBuy | SideTypeSell | SideTypeSelf.
Inductive OrderType := OrderTypeLimit | OrderTypeMarket.
Inductive OrderStatus :=
  | OrderStatusNew | OrderStatusPartiallyFilled | OrderStatusFilled
  | OrderStatusCanceled | OrderStatusRejected.

(** The order tags the strategies attach; the empty tag belongs to orders
    of the configured exit methods. *)
Inductive Tag := TagNone | TagClose | TagLong | TagShort | TagOther.

Record SubmitOrder := {
  so_Side : SideType;
  so_Type : OrderType;
  so_Price : Q;
  so_Quantity : Q;
  so_Tag : Tag
}.

Record Order := {
  OrderID : N;
  Side : SideType;
  Type_ : OrderType;
  Price : Q;
  Quantity : Q;
  Status : OrderStatus;
  OrderTag : Tag
}.

Record Trade := {
  tr_OrderID : N;
  tr_Side : SideType;
  tr_Price : Q;
  tr_Quantity : Q
}.

Record Market := {
  MinNotional : Q
}.

(** Modelled from the spec: [Market.IsDustQuantity] is not part of the
    sources at hand.  "Dust: a position or order quantity whose notional
    value is below the exchange's minimum tradeable amount". *)
Definition IsDustQuantity (m : Market) (quantity price : Q) : bool :=
  Qltb (quantity * price) (MinNotional m).

Record Position := {
  Base : Q;
  Quote : Q;
  AverageCost : Q
}.

(** Modelled from the spec: the classification of [types.Position] is not
    part of the sources at hand.  "Classified as Long (base > 0), Short
    (base < 0), or Dust (value below a market-defined minimum notional at
    current price)". *)
Definition IsLong (p : Position) : bool := Qltb 0 (Base p).
Definition IsShort (p : Position) : bool := Qltb (Base p) 0.
Definition IsDust (m : Market) (p : Position) (price : Q) : bool :=
  IsDustQuantity m (Qabs (Base p)) price.

(** ** A state monad with failure

    [None] is a Go panic (or, for the one unbounded loop, exhausted fuel). *)

Definition M (S A : Type) : Type := S -> option (A * S).

Definition ret {S A} (a : A) : M S A := fun s => Some (a, s).
Definition bind {S A B} (c : M S A) (k : A -> M S B) : M S B :=
  fun s => match c s with
           | Some (a, s') => k a s'
           | None => None
           end.
Definition panic {S A} : M S A := fun _ => None.
Definition get {S} : M S S := fun s => Some (s, s).
Definition gets {S A} (f : S -> A) : M S A := fun s => Some (f s, s).
Definition modify {S} (f : S -> S) : M S unit := fun s => Some (tt, f s).

Notation "'let*' x ':=' c 'in' k" := (bind c (fun x => k))
  (at level 10, x pattern, c at level 100, k at level 200).

(** [for _, x := range xs { body x }] *)
Fixpoint forEach {S A} (xs : list A) (body : A -> M S unit) : M S unit :=
  match xs with
  | [] => ret tt
  | x :: xs' => bind (body x) (fun _ => forEach xs' body)
  end.

(** Go's [error]: [nil] is [None]. *)
Inductive err :=
  | ErrFormat | ErrPlace | ErrCancel
  | ErrMulti (e1 e2 : err)
  | ErrWrap (e : err).
Definition error := option err.

(** [multierr.Append]: nil only when both are. *)
Definition multierr_Append (e1 e2 : error) : error :=
  match e1, e2 with
  | None, e | e, None => e
  | Some a, Some b => Some (ErrMulti a b)
  end.

(** ** The order executor ([GeneralOrderExecutor], package bbgo) *)

Module Bbgo.

(** What leaves the executor: one [ExPlace] per order sent to
    [Exchange.SubmitOrders], one [ExCancel] per [Exchange.CancelOrders]
    call, one [Pump] per [TradeCollector.Process].  Newest first. *)
Inductive Event :=
  | ExPlace (o : SubmitOrder) (accepted : bool)
  | ExCancel (os : list Order) (accepted : bool)
  | Pump.

(** [ExchangeSession]: the collaborator's answers.  The answer to a
    request may depend on the request and on everything that happened
    before it (the length of the trace is the clock). *)
Record ExchangeSession := {
  format_fails : list SubmitOrder -> bool;
  place_fails : nat -> SubmitOrder -> bool;
  cancel_fails : nat -> list Order -> bool
}.

Record GeneralOrderExecutor := {
  session : ExchangeSession;
  trace : list Event;
  nextID : N;
  activeMakerOrders : list Order;
  orderStore : list Order
}.

Definition set_trace (t : list Event) (e : GeneralOrderExecutor) :=
  {| session := session e; trace := t; nextID := nextID e;
     activeMakerOrders := activeMakerOrders e; orderStore := orderStore e |}.
Definition set_nextID (n : N) (e : GeneralOrderExecutor) :=
  {| session := session e; trace := trace e; nextID := n;
     activeMakerOrders := activeMakerOrders e; orderStore := orderStore e |}.
Definition set_activeMakerOrders (b : list Order) (e : GeneralOrderExecutor) :=
  {| session := session e; trace := trace e; nextID := nextID e;
     activeMakerOrders := b; orderStore := orderStore e |}.
Definition set_orderStore (st : list Order) (e : GeneralOrderExecutor) :=
  {| session := session e; trace := trace e; nextID := nextID e;
     activeMakerOrders := activeMakerOrders e; orderStore := st |}.

Definition Exec := M GeneralOrderExecutor.

Definition emit (ev : Event) : Exec unit :=
  modify (fun e => set_trace (ev :: trace e) e).

(** *** The exchange *)

Definition newOrder (id : N) (o : SubmitOrder) : Order :=
  {| OrderID := id; Side := so_Side o; Type_ := so_Type o;
     Price := so_Price o; Quantity := so_Quantity o;
     Status := OrderStatusNew; OrderTag := so_Tag o |}.

(** [Exchange.SubmitOrders(ctx, order)] for one order. *)
Definition Exchange_SubmitOrder (o : SubmitOrder) : Exec (option Order) :=
  let* e := get in
  if place_fails (session e) (length (trace e)) o then
    let* _ := emit (ExPlace o false) in ret None
  else
    let* _ := emit (ExPlace o true) in
    let* _ := modify (set_nextID (N.succ (nextID e))) in
    ret (Some (newOrder (nextID e) o)).

(** [Exchange.CancelOrders(ctx, orders...)]. *)
Definition Exchange_CancelOrders (os : list Order) : Exec error :=
  let* e := get in
  if cancel_fails (session e) (length (trace e)) os then
    let* _ := emit (ExCancel os false) in ret (Some ErrCancel)
  else
    let* _ := emit (ExCancel os true) in ret None.

(** Modelled from the spec: [ExchangeSession.FormatOrders] is not part of
    the sources at hand.  "formats orders against market precision/lot-size
    rules"; the numeric fields are exact here, so a formatted order is the
    order itself, and the session decides whether formatting fails. *)
Definition FormatOrders (os : list SubmitOrder) : Exec (list SubmitOrder * error) :=
  let* e := get in
  if format_fails (session e) os then ret ([], Some ErrFormat)
  else ret (os, None).

(** Modelled from the spec: [BatchPlaceOrder] is not part of the sources at
    hand.  "PlaceOrders(orders) -> (accepted, failedIndices, err)": every
    order of the batch is sent once; the accepted orders, the indices of
    the refused ones and the combined error come back. *)
Fixpoint BatchPlaceOrder_from (i : nat) (os : list SubmitOrder)
  : Exec (list Order * list nat * error) :=
  match os with
  | [] => ret ([], [], None)
  | o :: rest =>
      let* r := Exchange_SubmitOrder o in
      let* (created, errIdx, e) := BatchPlaceOrder_from (S i) rest in
      match r with
      | Some c => ret (c :: created, errIdx, e)
      | None => ret (created, i :: errIdx, multierr_Append (Some ErrPlace) e)
      end
  end.
Definition BatchPlaceOrder := BatchPlaceOrder_from 0.

(** Modelled from the spec: [BatchRetryPlaceOrder] is not part of the
    sources at hand.  "on partial batch failure retries exactly once for
    the failed subset": every order at a failed index is sent once more;
    the accepted ones and the combined error come back. *)
Fixpoint BatchRetryPlaceOrder (errIdx : list nat) (os : list SubmitOrder)
  : Exec (list Order * error) :=
  match errIdx with
  | [] => ret ([], None)
  | idx :: rest =>
      match nth_error os idx with
      | None => panic
      | Some o =>
          let* r := Exchange_SubmitOrder o in
          let* (created, e) := BatchRetryPlaceOrder rest os in
          match r with
          | Some c => ret (c :: created, e)
          | None => ret (created, multierr_Append (Some ErrPlace) e)
          end
      end
  end.

(** *** Order ledger and order store *)

Definition hasID (id : N) (os : list Order) : bool :=
  existsb (fun o => N.eqb (OrderID o) id) os.

(** Modelled from the spec: [ActiveOrderBook] and [OrderStore] are not part
    of the sources at hand.  "Add(orders...) (idempotent by order id),
    Remove(id), Orders() -> snapshot sequence, NumOfOrders()". *)
Fixpoint addOrders (new : list Order) (os : list Order) : list Order :=
  match new with
  | [] => os
  | o :: rest =>
      addOrders rest (if hasID (OrderID o) os then os else os ++ [o])
  end.
Definition removeOrder (id : N) (os : list Order) : list Order :=
  List.filter (fun o => negb (N.eqb (OrderID o) id)) os.

Definition activeMakerOrders_Add (os : list Order) : Exec unit :=
  modify (fun e => set_activeMakerOrders (addOrders os (activeMakerOrders e)) e).
Definition orderStore_Add (os : list Order) : Exec unit :=
  modify (fun e => set_orderStore (addOrders os (orderStore e)) e).
Definition NumOfOrders (e : GeneralOrderExecutor) : nat :=
  length (activeMakerOrders e).
Definition orderStore_Get (id : N) (e : GeneralOrderExecutor) : option Order :=
  find (fun o => N.eqb (OrderID o) id) (orderStore e).

(** Modelled from the spec: [TradeCollector.Process] is not part of the
    sources at hand.  "the Reconciler is pumped once"; the fills it hands
    to the strategy are events of their own (see [OnTrade]), the pump
    itself is only recorded. *)
Definition tradeCollector_Process : Exec unit := emit Pump.

(** Modelled from the spec: [ActiveOrderBook.GracefulCancel] is not part of
    the sources at hand.  "requests cancellation of all ... ledger orders;
    ... on success removes the corresponding Ledger ... entries". *)
Definition ActiveOrderBook_GracefulCancel : Exec error :=
  let* os := gets activeMakerOrders in
  let* r := Exchange_CancelOrders os in
  match r with
  | Some x => ret (Some x)
  | None => let* _ := modify (set_activeMakerOrders []) in ret None
  end.

(** Modelled from the spec: [ActiveOrderBook.Cancel] is not part of the
    sources at hand; the same for one order. *)
Definition ActiveOrderBook_Cancel (o : Order) : Exec error :=
  let* r := Exchange_CancelOrders [o] in
  match r with
  | Some x => ret (Some x)
  | None =>
      let* _ := modify (fun e =>
        set_activeMakerOrders (removeOrder (OrderID o) (activeMakerOrders e)) e) in
      ret None
  end.

(** *** The executor's operations, from the source *)

Definition CancelOrders (orders : list Order) : Exec error :=
  let* r := Exchange_CancelOrders orders in
  match r with
  | Some _ => Exchange_CancelOrders orders (* Retry once *)
  | None => ret r
  end.

Definition SubmitOrders (submitOrders : list SubmitOrder)
  : Exec (list Order * error) :=
  let* (formattedOrders, ferr) := FormatOrders submitOrders in
  match ferr with
  | Some _ => ret ([], ferr)
  | None =>
      let* (createdOrders, errIdx, e) := BatchPlaceOrder formattedOrders in
      let* (createdOrders, e) :=
        (if (0 <? length errIdx)%nat then
           let* (createdOrders2, err2) :=
             BatchRetryPlaceOrder errIdx formattedOrders in
           match err2 with
           | Some _ => ret (createdOrders, multierr_Append e err2)
           | None => ret (createdOrders ++ createdOrders2, e)
           end
         else ret (createdOrders, e)) in
      let* _ := orderStore_Add createdOrders in
      let* _ := activeMakerOrders_Add createdOrders in
      let* _ := tradeCollector_Process in
      ret (createdOrders, e)
  end.

(** The only book the strategies pass is the executor's own
    [activeMakerOrders]. *)
Definition GracefulCancelActiveOrderBook : Exec error :=
  let* n := gets NumOfOrders in
  if (n =? 0)%nat then ret None
  else
    let* r := ActiveOrderBook_GracefulCancel in
    let* r :=
      match r with
      | Some _ => ActiveOrderBook_GracefulCancel (* Retry once *)
      | None => ret None
      end in
    match r with
    | Some x => ret (Some (ErrWrap x))
    | None => let* _ := tradeCollector_Process in ret None
    end.

Definition GracefulCancelOrder (order : Order) : Exec error :=
  let* n := gets NumOfOrders in
  if (n =? 0)%nat then ret None
  else
    let* r := ActiveOrderBook_Cancel order in
    let* r :=
      match r with
      | Some _ => ActiveOrderBook_Cancel order (* Retry once *)
      | None => ret None
      end in
    match r with
    | Some x => ret (Some (ErrWrap x))
    | None => let* _ := tradeCollector_Process in ret None
    end.

Definition GracefulCancel : Exec error := GracefulCancelActiveOrderBook.

End Bbgo.

Import Bbgo.

(** ** Strategy state (the fields the two strategies share) *)

(** What the strategy reads from the session at a decision point:
    [getLastPrice()] and the account's balances of the two currencies. *)
Record MarketView := {
  lastPrice : Q;
  baseAvailable : Q;
  quoteAvailable : Q;
  baseTotal : Q;
  quoteTotal : Q;
  hasBase : bool;   (* the account lists the base currency *)
  hasQuote : bool   (* the account lists the quote currency *)
}.

Record Config := {
  market : Market;
  StopLoss : Q;
  PendingMinutes : Z;
  TrailingCallbackRate : list Q;
  TrailingActivationRatio : list Q;
  (* drift only *)
  NoTrailingStopLoss : bool;
  TrailingStopLossRealtime : bool;  (* TrailingStopLossType == "realtime" *)
  NoRebalance : bool;
  RebalanceFilter : Q;
  PredictOffset : nat;
  HighLowVarianceMultiplier : Q;
  DriftFilterNeg : Q;
  DriftFilterPos : Q;
  DDriftFilterNeg : Q;
  DDriftFilterPos : Q
}.

Record Strategy := {
  cfg : Config;
  running : bool;                    (* Status == StrategyStatusRunning *)
  minutesCounter : Z;
  orderPendingCounter : gmap N Z;
  buyPrice : Q;
  sellPrice : Q;
  highestPrice : Q;
  lowestPrice : Q;
  p : Position;                      (* drift: s.p; elliottwave: s.Position *)
  beta : Q;
  executor : GeneralOrderExecutor
}.

Definition set_orderPendingCounter (c : gmap N Z) (s : Strategy) :=
  {| cfg := cfg s; running := running s; minutesCounter := minutesCounter s;
     orderPendingCounter := c;
     buyPrice := buyPrice s; sellPrice := sellPrice s;
     highestPrice := highestPrice s; lowestPrice := lowestPrice s;
     p := p s; beta := beta s; executor := executor s |}.
Definition set_prices (bp sp hp lp : Q) (s : Strategy) :=
  {| cfg := cfg s; running := running s; minutesCounter := minutesCounter s;
     orderPendingCounter := orderPendingCounter s;
     buyPrice := bp; sellPrice := sp; highestPrice := hp; lowestPrice := lp;
     p := p s; beta := beta s; executor := executor s |}.
Definition set_highestPrice (x : Q) (s : Strategy) :=
  set_prices (buyPrice s) (sellPrice s) x (lowestPrice s) s.
Definition set_lowestPrice (x : Q) (s : Strategy) :=
  set_prices (buyPrice s) (sellPrice s) (highestPrice s) x s.
Definition set_p (x : Position) (s : Strategy) :=
  {| cfg := cfg s; running := running s; minutesCounter := minutesCounter s;
     orderPendingCounter := orderPendingCounter s;
     buyPrice := buyPrice s; sellPrice := sellPrice s;
     highestPrice := highestPrice s; lowestPrice := lowestPrice s;
     p := x; beta := beta s; executor := executor s |}.
Definition set_beta (x : Q) (s : Strategy) :=
  {| cfg := cfg s; running := running s; minutesCounter := minutesCounter s;
     orderPendingCounter := orderPendingCounter s;
     buyPrice := buyPrice s; sellPrice := sellPrice s;
     highestPrice := highestPrice s; lowestPrice := lowestPrice s;
     p := p s; beta := x; executor := executor s |}.
Definition set_executor (x : GeneralOrderExecutor) (s : Strategy) :=
  {| cfg := cfg s; running := running s; minutesCounter := minutesCounter s;
     orderPendingCounter := orderPendingCounter s;
     buyPrice := buyPrice s; sellPrice := sellPrice s;
     highestPrice := highestPrice s; lowestPrice := lowestPrice s;
     p := p s; beta := beta s; executor := x |}.

Definition Strat := M Strategy.

(** Run an executor operation on the strategy's executor. *)
Definition onExecutor {A} (c : Exec A) : Strat A :=
  fun s => match c (executor s) with
           | Some (a, e') => Some (a, set_executor e' s)
           | None => None
           end.

(** ** Code that is the same, word for word, in both strategies *)

(** The watermark update at the head of [trailingCheck] (and in drift's
    book-ticker callback). *)
Definition observe (price : Q) (s : Strategy) : Strategy :=
  let s := if Qltb 0 (highestPrice s) && Qltb (highestPrice s) price
           then set_highestPrice price s else s in
  if Qltb 0 (lowestPrice s) && Qltb price (lowestPrice s)
  then set_lowestPrice price s else s.

(** The watermark update of the bar-close handlers. *)
Definition observeBar (lowf highf : Q) (s : Strategy) : Strategy :=
  let s := if Qltb 0 (lowestPrice s) && Qltb lowf (lowestPrice s)
           then set_lowestPrice lowf s else s in
  if Qltb 0 (highestPrice s) && Qltb (highestPrice s) highf
  then set_highestPrice highf s else s.

Inductive Direction := Long | Short.

(** The test that decides whether a tier is activated, and the test that
    tier then returns. *)
Definition activated (s : Strategy) (isShort : bool) (trailingActivationRatio : Q) : bool :=
  if isShort
  then div_gt (sellPrice s - lowestPrice s) (lowestPrice s) trailingActivationRatio
  else div_gt (highestPrice s - buyPrice s) (buyPrice s) trailingActivationRatio.

Definition retraced (s : Strategy) (isShort : bool) (price trailingCallbackRate : Q) : bool :=
  if isShort
  then div_gt (price - lowestPrice s) (lowestPrice s) trailingCallbackRate
  else div_gt (highestPrice s - price) price trailingCallbackRate.

(** [for i := n - 1; i >= 0; i--]: an index outside
    [TrailingActivationRatio] panics. *)
Fixpoint scanTiers (s : Strategy) (isShort : bool) (price : Q) (n : nat) : option bool :=
  match n with
  | O => Some false
  | S i =>
      match nth_error (TrailingCallbackRate (cfg s)) i,
            nth_error (TrailingActivationRatio (cfg s)) i with
      | Some trailingCallbackRate, Some trailingActivationRatio =>
          if activated s isShort trailingActivationRatio
          then Some (retraced s isShort price trailingCallbackRate)
          else scanTiers s isShort price i
      | _, _ => None
      end
  end.

Definition trailingCheck (price : Q) (direction : Direction) : Strat bool :=
  let* _ := modify (observe price) in
  let* s := get in
  let isShort := match direction with Short => true | Long => false end in
  match scanTiers s isShort price (length (TrailingCallbackRate (cfg s))) with
  | Some b => ret b
  | None => panic
  end.

(** Modelled from the spec: [Position.NewMarketCloseOrder] is not part of
    the sources at hand.  "computes a market order sized to percentage of
    the current position"; there is nothing to close, and no order, when the
    base quantity is zero. *)
Definition NewMarketCloseOrder (pos : Position) (percentage : Q) : option SubmitOrder :=
  if Qeq_bool (Base pos) 0 then None
  else Some {| so_Side := if IsLong pos then SideTypeSell else SideTypeBuy;
               so_Type := OrderTypeMarket;
               so_Price := 0;
               so_Quantity := Qabs (Base pos) * percentage;
               so_Tag := TagNone |}.

Definition withQuantity (q : Q) (o : SubmitOrder) : SubmitOrder :=
  {| so_Side := so_Side o; so_Type := so_Type o; so_Price := so_Price o;
     so_Quantity := q; so_Tag := so_Tag o |}.
Definition withTag (t : Tag) (o : SubmitOrder) : SubmitOrder :=
  {| so_Side := so_Side o; so_Type := so_Type o; so_Price := so_Price o;
     so_Quantity := so_Quantity o; so_Tag := t |}.

(** The [for { ... }] of [ClosePosition]; [Delta] is the strategy's
    constant.  The loop touches the executor only. *)
Fixpoint ClosePosition_loop (fuel : nat) (m : Market) (Delta price : Q)
    (order : SubmitOrder) : Exec error :=
  match fuel with
  | O => panic
  | S fuel' =>
      if IsDustQuantity m (so_Quantity order) price then ret None
      else
        let* (_, e) := SubmitOrders [order] in
        match e with
        | Some _ =>
            ClosePosition_loop fuel' m Delta price
              (withQuantity (so_Quantity order * (1 - Delta)) order)
        | None => ret None
        end
  end.

Definition ClosePosition (fuel : nat) (Delta : Q) (view : MarketView)
    (percentage : Q) : Strat error :=
  let* s := get in
  match NewMarketCloseOrder (p s) percentage with
  | None => ret None
  | Some order =>
      let order := withTag TagClose order in
      let baseBalance := baseAvailable view in
      let price := lastPrice view in
      let order :=
        match so_Side order with
        | SideTypeBuy =>
            let quoteAmount := quoteAvailable view / price in
            if Qltb quoteAmount (so_Quantity order)
            then withQuantity quoteAmount order else order
        | SideTypeSell =>
            if Qltb baseBalance (so_Quantity order)
            then withQuantity baseBalance order else order
        | SideTypeSelf => order
        end in
      onExecutor (ClosePosition_loop fuel (market (cfg s)) Delta price order)
  end.

(** Modelled from the spec: [Position.AddTrade] and [Position.Reset] are
    not part of the sources at hand.  "standard weighted-average-cost
    accounting: ... average cost is re-weighted when quantity is added to
    the same side"; a buy moves quantity into the base and its value out of
    the quote, a sell the other way round. *)
Definition AddTrade (pos : Position) (t : Trade) : Position :=
  let q := tr_Quantity t in
  let px := tr_Price t in
  match tr_Side t with
  | SideTypeBuy =>
      {| Base := Base pos + q;
         Quote := Quote pos - q * px;
         AverageCost :=
           if Qle_bool 0 (Base pos)
           then (AverageCost pos * Base pos + px * q) / (Base pos + q)
           else if Qltb 0 (Base pos + q) then px else AverageCost pos |}
  | SideTypeSell =>
      {| Base := Base pos - q;
         Quote := Quote pos + q * px;
         AverageCost :=
           if Qle_bool (Base pos) 0
           then (AverageCost pos * Qabs (Base pos) + px * q) / (Qabs (Base pos) + q)
           else if Qltb (Base pos - q) 0 then px else AverageCost pos |}
  | SideTypeSelf => pos
  end.
Definition Reset (pos : Position) : Position :=
  {| Base := 0; Quote := 0; AverageCost := 0 |}.

(** One closed bar, and the indicator values the handlers read after the
    indicators have been fed that bar.  Indicators are collaborators:
    their values are inputs. *)
Record KLine := {
  Open : Q;
  Close : Q;
  High : Q;
  Low : Q
}.

Record Indicators := {
  source : Q;            (* GetSource(kline) *)
  atr : Q;               (* atr.Last() *)
  stdevHigh : Q;         (* stdevHigh.Last() *)
  stdevLow : Q;          (* stdevLow.Last() *)
  drift1m : list Q;      (* drift1m.Array(2) *)
  drift : list Q;        (* drift.Array(2) *)
  ddrift : list Q;       (* drift.drift.Array(2) *)
  driftPred : Q;         (* drift.Predict(PredictOffset) *)
  ddriftPred : Q;        (* drift.drift.Predict(PredictOffset) *)
  trendBeta : Q;         (* LinearRegression(trendLine, 3) *)
  ewo : list Q           (* types.Array(ewo, 4) *)
}.

(** [m[k]] on a Go map: the zero value when the key is absent. *)
Definition counterOf (c : gmap N Z) (id : N) : Z := default 0%Z (c !! id).

Definition isOpen (o : Order) : bool :=
  match Status o with
  | OrderStatusNew | OrderStatusPartiallyFilled => true
  | _ => false
  end.

(** [for _, order := range nonTraded { delete(m, order.OrderID) }] *)
Definition deleteAll (os : list Order) (c : gmap N Z) : gmap N Z :=
  fold_left (fun c o => delete (OrderID o) c) os c.

Definition recordPending (created : list Order) : Strat unit :=
  match created with
  | [] => panic    (* createdOrders[0] *)
  | o :: _ =>
      modify (fun s =>
        set_orderPendingCounter
          (<[OrderID o := minutesCounter s]> (orderPendingCounter s)) s)
  end.

(** The three updates of the price fields in the fill callbacks. *)
Definition resetPrices : Strategy -> Strategy := set_prices 0 0 0 0.
Definition enterLong (price : Q) : Strategy -> Strategy :=
  set_prices price 0 price 0.
Definition enterShort (price : Q) : Strategy -> Strategy :=
  set_prices 0 price 0 price.

(** ** The drift strategy *)

Module Drift.

Definition Delta : Q := 1 # 100.

(** The minute counters are small (minutes since start), so Go's [int]
    arithmetic on them never wraps; they are integers here. *)
Fixpoint smartCancel_scan (s : Strategy) (ind : Indicators) (pricef : Q)
    (orders : list Order) (toCancel : bool) : option bool :=
  match orders with
  | [] => Some toCancel
  | order :: rest =>
      if negb (isOpen order) then smartCancel_scan s ind pricef rest toCancel
      else if (PendingMinutes (cfg s) <?
               minutesCounter s - counterOf (orderPendingCounter s) (OrderID order))%Z
      then
        match Side order with
        | SideTypeBuy =>
            match nth_error (drift1m ind) 1, nth_error (drift1m ind) 0 with
            | Some d1, Some d0 =>
                if Qltb d1 d0 then smartCancel_scan s ind pricef rest toCancel
                else smartCancel_scan s ind pricef rest true
            | _, _ => None
            end
        | SideTypeSell =>
            match nth_error (drift1m ind) 1, nth_error (drift1m ind) 0 with
            | Some d1, Some d0 =>
                if Qltb d0 d1 then smartCancel_scan s ind pricef rest toCancel
                else smartCancel_scan s ind pricef rest true
            | _, _ => None
            end
        | SideTypeSelf => smartCancel_scan s ind pricef rest true
        end
      else
        match Side order with
        | SideTypeBuy =>
            smartCancel_scan s ind pricef rest
              (if Qle_bool (Price order + stdevHigh ind * 2) pricef
               then true else toCancel)
        | SideTypeSell =>
            smartCancel_scan s ind pricef rest
              (if Qle_bool pricef (Price order - stdevLow ind * 2)
               then true else toCancel)
        | SideTypeSelf => None    (* panic("not supported side for the order") *)
        end
  end.

Definition smartCancel (ind : Indicators) (pricef atr : Q) : Strat (Z * error) :=
  let* s := get in
  let nonTraded := activeMakerOrders (executor s) in
  if (0 <? length nonTraded)%nat then
    match smartCancel_scan s ind pricef nonTraded false with
    | None => panic
    | Some true =>
        let* e := onExecutor GracefulCancel in
        let* _ :=
          match e with
          | None =>
              modify (fun s =>
                set_orderPendingCounter
                  (deleteAll nonTraded (orderPendingCounter s)) s)
          | Some _ => ret tt
          end in
        ret (0%Z, e)
    | Some false => ret (Z.of_nat (length nonTraded), None)
    end
  else ret (Z.of_nat (length nonTraded), None).

Definition ClosePosition (fuel : nat) := ClosePosition fuel Delta.

Definition Rebalance (view : MarketView) (ind : Indicators) : Strat unit :=
  let* s := get in
  let price := lastPrice view in
  let beta' := trendBeta ind in
  let rf := RebalanceFilter (cfg s) in
  if (Qltb rf (Qabs beta') && Qltb rf (Qabs (beta s)))
     || (Qltb (Qabs (beta s)) rf && Qltb (Qabs beta') rf)
  then ret tt
  else
    let baseBalance := baseTotal view in
    let quoteBalance := quoteTotal view in
    let total := baseBalance + quoteBalance / price in
    let percentage := 1 - Delta in
    let short q := {| Base := - q; Quote := q * price; AverageCost := price |} in
    let long q := {| Base := q; Quote := - (q * price); AverageCost := price |} in
    let* _ :=
      if Qltb rf beta' then
        if Qltb baseBalance (total * percentage)
        then modify (set_p (short (total * percentage - baseBalance)))
        else ret tt
      else if Qle_bool beta' (- rf) then
        if Qltb (quoteBalance / price) (total * percentage)
        then modify (set_p (long (total * percentage - quoteBalance / price)))
        else ret tt
      else
        if Qltb (quoteBalance / price) (total / 2)
        then modify (set_p (long (total / 2 - quoteBalance / price)))
        else if Qltb baseBalance (total / 2)
        then modify (set_p (short (total / 2 - baseBalance)))
        else modify (fun s => set_p (Reset (p s)) s) in
    modify (set_beta beta').

(** The callback registered with [TradeCollector().OnTrade].  The profit
    series it feeds are statistics for the graphs and are left out. *)
Definition OnTrade (trade : Trade) : Strat unit :=
  let* _ := modify (fun s => set_p (AddTrade (p s) trade) s) in
  let* s := get in
  match orderStore_Get (tr_OrderID trade) (executor s) with
  | None => panic     (* cannot find order *)
  | Some order =>
      let tag := OrderTag order in
      let price := tr_Price trade in
      let m := market (cfg s) in
      match tag with
      | TagClose | TagNone =>
          if IsDust m (p s) price then modify resetPrices
          else if IsLong (p s) then modify (enterLong price)
          else modify (enterShort price)
      | TagLong =>
          if IsDust m (p s) price then modify resetPrices
          else if IsLong (p s) then modify (enterLong price)
          else ret tt
      | TagShort =>
          if IsDust m (p s) price then modify resetPrices
          else if IsShort (p s) then modify (enterShort price)
          else ret tt
      | TagOther => panic   (* tag unknown *)
      end
  end.

(** The exit conditions of [klineHandler1m]. *)
Definition exitShortCondition1m (stoploss highf : Q) : Strat bool :=
  let* s := get in
  if Qltb 0 (sellPrice s) then
    if Qle_bool (sellPrice s * (1 + stoploss)) highf then ret true
    else trailingCheck highf Short
  else ret false.

Definition exitLongCondition1m (stoploss lowf : Q) : Strat bool :=
  let* s := get in
  if Qltb 0 (buyPrice s) then
    if Qle_bool lowf (buyPrice s * (1 - stoploss)) then ret true
    else trailingCheck lowf Long
  else ret false.

(** The exit conditions of [klineHandler]. *)
Definition exitShortCondition (shortCondition longCondition : bool)
    (stoploss highf pricef : Q) : Strat bool :=
  let* s := get in
  if Qltb 0 (sellPrice s) && negb shortCondition && negb longCondition then
    if Qle_bool (sellPrice s * (1 + stoploss)) highf then ret true
    else trailingCheck pricef Short
  else ret false.

Definition exitLongCondition (shortCondition longCondition : bool)
    (stoploss lowf pricef : Q) : Strat bool :=
  let* s := get in
  if Qltb 0 (buyPrice s) && negb longCondition && negb shortCondition then
    if Qle_bool lowf (buyPrice s * (1 - stoploss)) then ret true
    else trailingCheck pricef Long
  else ret false.

Definition klineHandler1m (fuel : nat) (view : MarketView) (ind : Indicators)
    (kline : KLine) : Strat unit :=
  let* s := get in
  if negb (running s) then ret tt
  else
    let atr := atr ind in
    let pricef := lastPrice view in
    let stoploss := StopLoss (cfg s) in
    let lowf := fmin (Low kline) pricef in
    let highf := fmax (High kline) pricef in
    let* _ := modify (observeBar lowf highf) in
    if (length (drift1m ind) <? 2)%nat then ret tt
    else
      let* (numPending, e) := smartCancel ind pricef atr in
      match e with
      | Some _ => ret tt
      | None =>
          if (0 <? numPending)%Z then ret tt
          else if NoTrailingStopLoss (cfg s) || TrailingStopLossRealtime (cfg s)
          then ret tt
          else
            let* exitShortCondition := exitShortCondition1m stoploss highf in
            let* exitLongCondition := exitLongCondition1m stoploss lowf in
            if exitShortCondition || exitLongCondition then
              let* _ := ClosePosition fuel view 1 in ret tt
            else ret tt
      end.

Definition submitEntry (side : SideType) (price quantity : Q) (tag : Tag)
  : Strat unit :=
  let* (createdOrders, e) :=
    onExecutor (SubmitOrders
      [{| so_Side := side; so_Type := OrderTypeLimit; so_Price := price;
          so_Quantity := quantity; so_Tag := tag |}]) in
  match e with
  | Some _ => ret tt
  | None => recordPending createdOrders
  end.

Definition klineHandler (fuel : nat) (view : MarketView) (ind : Indicators)
    (kline : KLine) : Strat unit :=
  let* s := get in
  let price := lastPrice view in
  let pricef := price in
  let lowf := fmin (Low kline) pricef in
  let highf := fmax (High kline) pricef in
  match drift ind, ddrift ind with
  | d0 :: d1 :: _, _ :: dd1 :: _ =>
      if (length (drift ind) <? PredictOffset (cfg s))%nat
         || (length (ddrift ind) <? PredictOffset (cfg s))%nat then ret tt
      else if negb (running s) then ret tt
      else
        let stoploss := StopLoss (cfg s) in
        let* _ := modify (observeBar lowf highf) in
        let* _ := if negb (NoRebalance (cfg s)) then Rebalance view ind else ret tt in
        let shortCondition :=
          ((Qle_bool (DriftFilterNeg (cfg s)) d1 || Qle_bool 0 dd1)
           && (Qle_bool (driftPred ind) (DDriftFilterNeg (cfg s))
               || Qle_bool (ddriftPred ind) 0))
          || (Qltb d1 0 && Qltb d0 0) in
        let longCondition :=
          ((Qle_bool d1 (DriftFilterPos (cfg s)) || Qle_bool dd1 0)
           && (Qle_bool (DDriftFilterPos (cfg s)) (driftPred ind)
               || Qle_bool 0 (ddriftPred ind)))
          || (Qltb 0 d1 && Qltb 0 d0) in
        let both := shortCondition && longCondition in
        let longCondition :=
          if both && Qltb d0 d1 then false else longCondition in
        let shortCondition :=
          if both && negb (Qltb d0 d1) then false else shortCondition in
        let* exitShortCondition :=
          exitShortCondition shortCondition longCondition stoploss highf pricef in
        let* exitLongCondition :=
          exitLongCondition shortCondition longCondition stoploss lowf pricef in
        let* cancelFailed :=
          if exitShortCondition || exitLongCondition then
            let* e := onExecutor GracefulCancel in
            match e with
            | Some _ => ret true
            | None => let* _ := ClosePosition fuel view 1 in ret false
            end
          else ret false in
        if cancelFailed then ret tt
        else if longCondition then
          let* e := onExecutor GracefulCancel in
          match e with
          | Some _ => ret tt
          | None =>
              let source :=
                source ind - stdevLow ind * HighLowVarianceMultiplier (cfg s) in
              let source := if Qltb price source then price else source in
              if negb (hasQuote view) then ret tt
              else if IsDustQuantity (market (cfg s))
                        (quoteAvailable view / source) source then ret tt
              else submitEntry SideTypeBuy source
                     (quoteAvailable view / source) TagLong
          end
        else if shortCondition then
          let* e := onExecutor GracefulCancel in
          match e with
          | Some _ => ret tt
          | None =>
              if negb (hasBase view) then ret tt
              else
                let source :=
                  source ind + stdevHigh ind * HighLowVarianceMultiplier (cfg s) in
                let source := if Qltb source price then price else source in
                if IsDustQuantity (market (cfg s)) (baseAvailable view) source
                then ret tt
                else submitEntry SideTypeSell source (baseAvailable view) TagShort
          end
        else ret tt
  | _, _ => ret tt
  end.

End Drift.

(** ** The elliottwave strategy *)

Module Elliottwave.

Definition Delta : Q := 1 # 100000.

Definition ClosePosition (fuel : nat) := ClosePosition fuel Delta.

Fixpoint smartCancel_loop (ind : Indicators) (pricef : Q)
    (orders : list Order) (left : Z) : Strat Z :=
  match orders with
  | [] => ret left
  | order :: rest =>
      if negb (isOpen order) then smartCancel_loop ind pricef rest left
      else
        let* s := get in
        let toCancel :=
          if (PendingMinutes (cfg s) <=?
              minutesCounter s - counterOf (orderPendingCounter s) (OrderID order))%Z
          then Some true
          else
            match Side order with
            | SideTypeBuy =>
                Some (Qle_bool (Price order + atr ind * 2) pricef)
            | SideTypeSell =>
                Some (Qle_bool pricef (Price order - atr ind * 2))
            | SideTypeSelf => None  (* panic("not supported side for the order") *)
            end in
        match toCancel with
        | None => panic
        | Some true =>
            let* e := onExecutor (GracefulCancelOrder order) in
            let* _ :=
              match e with
              | None =>
                  modify (fun s =>
                    set_orderPendingCounter
                      (delete (OrderID order) (orderPendingCounter s)) s)
              | Some _ => ret tt
              end in
            smartCancel_loop ind pricef rest left
        | Some false => smartCancel_loop ind pricef rest (left + 1)%Z
        end
  end.

Definition smartCancel (ind : Indicators) (pricef : Q) : Strat Z :=
  let* s := get in
  let nonTraded := activeMakerOrders (executor s) in
  if (0 <? length nonTraded)%nat
  then smartCancel_loop ind pricef nonTraded 0%Z
  else ret (Z.of_nat (length nonTraded)).

(** The callback registered with [TradeCollector().OnTrade]; the trade
    collector has already applied the trade to [s.Position]. *)
Definition OnTrade (trade : Trade) : Strat unit :=
  let* s := get in
  let price := tr_Price trade in
  if IsDust (market (cfg s)) (p s) price then modify resetPrices
  else if IsLong (p s) then modify (enterLong price)
  else modify (enterShort price).

(** A fill as the strategy sees it: position update, then the callback. *)
Definition fill (trade : Trade) : Strat unit :=
  let* _ := modify (fun s => set_p (AddTrade (p s) trade) s) in
  OnTrade trade.

(** The exit conditions of [klineHandler1m]. *)
Definition exitShortCondition1m (stoploss atr highf : Q) : Strat bool :=
  let* s := get in
  if Qltb 0 (sellPrice s) then
    if Qle_bool (sellPrice s * (1 + stoploss)) highf
       || Qle_bool (sellPrice s + atr) highf then ret true
    else trailingCheck highf Short
  else ret false.

Definition exitLongCondition1m (stoploss atr lowf : Q) : Strat bool :=
  let* s := get in
  if Qltb 0 (buyPrice s) then
    if Qle_bool lowf (buyPrice s * (1 - stoploss))
       || Qle_bool lowf (buyPrice s - atr) then ret true
    else trailingCheck lowf Long
  else ret false.

Definition klineHandler1m (fuel : nat) (view : MarketView) (ind : Indicators)
    (kline : KLine) : Strat unit :=
  let* s := get in
  if negb (running s) then ret tt
  else
    let stoploss := StopLoss (cfg s) in
    let pricef := lastPrice view in
    let atr := atr ind in
    let* numPending := smartCancel ind pricef in
    if (0 <? numPending)%Z then ret tt
    else
      let lowf := fmin (Low kline) pricef in
      let highf := fmax (High kline) pricef in
      let* _ := modify (observeBar lowf highf) in
      let* exitShortCondition := exitShortCondition1m stoploss atr highf in
      let* exitLongCondition := exitLongCondition1m stoploss atr lowf in
      if exitShortCondition || exitLongCondition then
        let* _ := ClosePosition fuel view 1 in ret tt
      else ret tt.

(** The two exit conditions of [klineHandler].  Go's [&&] binds tighter
    than [||]: the guard on the reference price covers the stop-loss
    disjunct only. *)
Definition exitShortCondition (shortCondition : bool) (stoploss atr highf : Q)
  : Strat bool :=
  let* s := get in
  if (Qltb 0 (sellPrice s) && negb shortCondition
        && Qle_bool (sellPrice s * (1 + stoploss)) highf)
     || Qle_bool (sellPrice s + atr) highf
  then ret true
  else trailingCheck highf Short.

Definition exitLongCondition (longCondition : bool) (stoploss atr lowf : Q)
  : Strat bool :=
  let* s := get in
  if (Qltb 0 (buyPrice s) && negb longCondition
        && Qle_bool lowf (buyPrice s * (1 - stoploss)))
     || Qle_bool lowf (buyPrice s - atr)
  then ret true
  else trailingCheck lowf Long.

Definition submitEntry (side : SideType) (price quantity : Q) (tag : Tag)
  : Strat unit :=
  let* (createdOrders, e) :=
    onExecutor (SubmitOrders
      [{| so_Side := side; so_Type := OrderTypeLimit; so_Price := price;
          so_Quantity := quantity; so_Tag := tag |}]) in
  match e with
  | Some _ => ret tt
  | None => recordPending createdOrders
  end.

Definition klineHandler (fuel : nat) (view : MarketView) (ind : Indicators)
    (kline : KLine) : Strat unit :=
  let* s := get in
  if negb (running s) then ret tt
  else
    let stoploss := StopLoss (cfg s) in
    let price := lastPrice view in
    let pricef := price in
    let lowf := fmin (Low kline) pricef in
    let highf := fmin (High kline) pricef in
    let* _ := smartCancel ind pricef in
    let atr := atr ind in
    match ewo ind with
    | e0 :: e1 :: e2 :: e3 :: _ =>
        let bull := Qltb (Open kline) (Close kline) in
        let* s := get in
        let shortCondition :=
          (Qltb e0 e1 && Qle_bool e2 e1 && (Qle_bool e1 e2 || Qle_bool e3 e2))
          || (Qeq_bool (sellPrice s) 0 && Qltb e0 e1 && Qltb e1 e2) in
        let longCondition :=
          (Qltb e1 e0 && Qle_bool e1 e2 && (Qle_bool e2 e1 || Qle_bool e2 e3))
          || (Qeq_bool (buyPrice s) 0 && Qltb e1 e0 && Qltb e2 e1) in
        let* exitShort := exitShortCondition shortCondition stoploss atr highf in
        let* exitLong := exitLongCondition longCondition stoploss atr lowf in
        let* cancelFailed :=
          if exitShort || exitLong then
            let* e := onExecutor GracefulCancel in
            match e with
            | Some _ => ret true
            | None => let* _ := ClosePosition fuel view 1 in ret false
            end
          else ret false in
        if cancelFailed then ret tt
        else if longCondition && bull then
          let* e := onExecutor GracefulCancel in
          match e with
          | Some _ => ret tt
          | None =>
              let source := source ind in
              let source := if Qltb price source then price else source in
              if negb (hasQuote view) then ret tt
              else if IsDustQuantity (market (cfg s))
                        (quoteAvailable view / source) source then ret tt
              else submitEntry SideTypeBuy source
                     (quoteAvailable view / source) TagLong
          end
        else if shortCondition && negb bull then
          let* e := onExecutor GracefulCancel in
          match e with
          | Some _ => ret tt
          | None =>
              let source := source ind in
              let source := if Qltb source price then price else source in
              if negb (hasBase view) then ret tt
              else if IsDustQuantity (market (cfg s)) (baseAvailable view) source
              then ret tt
              else submitEntry SideTypeSell source (baseAvailable view) TagShort
          end
        else ret tt
    | _ => ret tt
    end.

End Elliottwave.

(** ** Worked configurations *)

Module Example.

Definition quiet : ExchangeSession :=
  {| format_fails := fun _ => false;
     place_fails := fun _ _ => false;
     cancel_fails := fun _ _ => false |}.

Definition idle (ex : ExchangeSession) : GeneralOrderExecutor :=
  {| session := ex; trace := []; nextID := 1%N;
     activeMakerOrders := []; orderStore := [] |}.

(** Two trailing tiers: (activation 1%, callback 0.2%), (3%, 1%). *)
Definition twoTiers : Config :=
  {| market := {| MinNotional := 10 |};
     StopLoss := 5 # 100;
     PendingMinutes := 5;
     TrailingCallbackRate := [2 # 1000; 1 # 100];
     TrailingActivationRatio := [1 # 100; 3 # 100];
     NoTrailingStopLoss := false;
     TrailingStopLossRealtime := false;
     NoRebalance := true;
     RebalanceFilter := 0;
     PredictOffset := 2;
     HighLowVarianceMultiplier := 0;
     DriftFilterNeg := 0; DriftFilterPos := 0;
     DDriftFilterNeg := 0; DDriftFilterPos := 0 |}.

Definition flat : Strategy :=
  {| cfg := twoTiers; running := true; minutesCounter := 0;
     orderPendingCounter := ∅;
     buyPrice := 0; sellPrice := 0; highestPrice := 0; lowestPrice := 0;
     p := {| Base := 0; Quote := 0; AverageCost := 0 |};
     beta := 0; executor := idle quiet |}.

(** A long of one unit entered at 100, with the given watermark. *)
Definition longAt100 (watermark : Q) : Strategy :=
  set_p {| Base := 1; Quote := -100; AverageCost := 100 |}
    (set_prices 100 0 watermark 0 flat).

(** An exchange that refuses every placement. *)
Definition refusing : ExchangeSession :=
  {| format_fails := fun _ => false;
     place_fails := fun _ _ => true;
     cancel_fails := fun _ _ => false |}.

Definition closeOne : SubmitOrder :=
  {| so_Side := SideTypeSell; so_Type := OrderTypeMarket; so_Price := 0;
     so_Quantity := 1; so_Tag := TagClose |}.

(** A resting buy order of one unit at [price], tagged "long". *)
Definition buyOrder (id : N) (price : Q) : Order :=
  {| OrderID := id; Side := SideTypeBuy; Type_ := OrderTypeLimit;
     Price := price; Quantity := 1; Status := OrderStatusNew;
     OrderTag := TagLong |}.

(** The executor after order [o] was accepted: known to the store and
    resting in the book. *)
Definition holding (ex : ExchangeSession) (o : Order) : GeneralOrderExecutor :=
  {| session := ex; trace := []; nextID := N.succ (OrderID o);
     activeMakerOrders := [o]; orderStore := [o] |}.

(** Flat, with buy order 1 at 100 resting since bar 0. *)
Definition resting : Strategy :=
  set_orderPendingCounter {[ 1%N := 0%Z ]}
    (set_executor (holding quiet (buyOrder 1 100)) flat).

(** The fill of the whole of order 1 at 100. *)
Definition fullFill : Trade :=
  {| tr_OrderID := 1; tr_Side := SideTypeBuy; tr_Price := 100;
     tr_Quantity := 1 |}.

(** Long since the first partial fill of order 1 at 100; the price has
    been up to 110 since. *)
Definition partlyFilled : Strategy :=
  set_executor (holding quiet (buyOrder 1 100)) (longAt100 110).

(** A further partial fill of order 1, at its limit price. *)
Definition secondFill : Trade :=
  {| tr_OrderID := 1; tr_Side := SideTypeBuy; tr_Price := 100;
     tr_Quantity := 1 |}.

(** A bar that closes up, with the live price at 100 and 1000 of quote
    currency free. *)
Definition bar : KLine := {| Open := 98; Close := 100; High := 101; Low := 97 |}.

Definition view : MarketView :=
  {| lastPrice := 100; baseAvailable := 0; quoteAvailable := 1000;
     baseTotal := 0; quoteTotal := 1000; hasBase := true; hasQuote := true |}.

(** Indicator values on which both strategies signal a long entry at 99:
    the drift is positive and rising, the oscillator turns up. *)
Definition bullish : Indicators :=
  {| source := 99; atr := 1; stdevHigh := 1; stdevLow := 1;
     drift1m := [1; 2]; drift := [1; 2]; ddrift := [1; 1];
     driftPred := 1; ddriftPred := 1; trendBeta := 0;
     ewo := [3; 2; 1; 0] |}.

(** Indicator values on which neither strategy signals an entry. *)
Definition calm : Indicators :=
  {| source := 100; atr := 1; stdevHigh := 1; stdevLow := 1;
     drift1m := [0; 0]; drift := [0; 0]; ddrift := [0; 0];
     driftPred := 1; ddriftPred := 1; trendBeta := 0;
     ewo := [0; 0; 0; 0] |}.

(** A falling one-minute drift. *)
Definition falling : Indicators :=
  {| source := 100; atr := 1; stdevHigh := 1; stdevLow := 1;
     drift1m := [2; 1]; drift := [0; 0]; ddrift := [0; 0];
     driftPred := 1; ddriftPred := 1; trendBeta := 0;
     ewo := [0; 0; 0; 0] |}.

(** [resting], ten bars later: order 1 is older than the five-bar budget. *)
Definition stale : Strategy :=
  {| cfg := cfg resting; running := true; minutesCounter := 10;
     orderPendingCounter := orderPendingCounter resting;
     buyPrice := 0; sellPrice := 0; highestPrice := 0; lowestPrice := 0;
     p := p resting; beta := 0; executor := executor resting |}.

(** An exchange that refuses the first three placements and accepts the
    fourth. *)
Definition flaky : ExchangeSession :=
  {| format_fails := fun _ => false;
     place_fails := fun clock _ => (clock <? 3)%nat;
     cancel_fails := fun _ _ => false |}.

Definition buy99 : SubmitOrder :=
  {| so_Side := SideTypeBuy; so_Type := OrderTypeLimit; so_Price := 99;
     so_Quantity := 1; so_Tag := TagLong |}.
Definition sell101 : SubmitOrder :=
  {| so_Side := SideTypeSell; so_Type := OrderTypeLimit; so_Price := 101;
     so_Quantity := 1; so_Tag := TagShort |}.

(** A bullish setting with a wide ATR band: no exit rule of either
    strategy fires on a flat position. *)
Definition bullishWide : Indicators :=
  {| source := 99; atr := 1000; stdevHigh := 1; stdevLow := 1;
     drift1m := [1; 2]; drift := [1; 2]; ddrift := [1; 1];
     driftPred := 1; ddriftPred := 1; trendBeta := 0;
     ewo := [3; 2; 1; 0] |}.

(** An exchange that accepts the first placement and refuses the rest. *)
Definition firstOnly : ExchangeSession :=
  {| format_fails := fun _ => false;
     place_fails := fun clock _ => (0 <? clock)%nat;
     cancel_fails := fun _ _ => false |}.

End Example.

(** ** Predicates used in the statements *)

(** No trailing tier with an index in [[lo, hi)] is activated. *)
Definition noneActivated (s : Strategy) (isShort : bool) (lo hi : nat) : Prop :=
  forall j a, (lo <= j < hi)%nat ->
    nth_error (TrailingActivationRatio (cfg s)) j = Some a ->
    activated s isShort a = false.

(** Tier [i] is the highest activated tier below [n], and [b] is its
    callback test at [price]. *)
Definition governedBy (s : Strategy) (isShort : bool) (price : Q)
    (n i : nat) (b : bool) : Prop :=
  (i < n)%nat /\
  exists c a,
    nth_error (TrailingCallbackRate (cfg s)) i = Some c /\
    nth_error (TrailingActivationRatio (cfg s)) i = Some a /\
    activated s isShort a = true /\
    noneActivated s isShort (S i) n /\
    b = retraced s isShort price c.

Definition isShortDir (d : Direction) : bool :=
  match d with Short => true | Long => false end.

(** The order quantity after [k] failed submissions of [ClosePosition]. *)
Fixpoint shrink (Delta : Q) (k : nat) (q : Q) : Q :=
  match k with
  | O => q
  | S k' => shrink Delta k' (q * (1 - Delta))
  end.

(** A number of shrinking steps after which the quantity is dust. *)
Definition closeBound (m : Market) (Delta q price : Q) : nat :=
  Z.to_nat (Qceiling (q * price / (MinNotional m * Delta))).

(** The quantities sent to the exchange, as recorded in a trace. *)
Fixpoint placedQuantities (evs : list Event) : list Q :=
  match evs with
  | [] => []
  | ExPlace o _ :: rest => so_Quantity o :: placedQuantities rest
  | _ :: rest => placedQuantities rest
  end.

(** [qs], oldest first, walks down the sequence q, q(1-Delta),
    q(1-Delta)^2, ...: every element is the previous one shrunk some number
    of times (zero times for the executor's own retry). *)
Fixpoint shrinking (Delta q : Q) (qs : list Q) : Prop :=
  match qs with
  | [] => True
  | x :: rest => (exists k, x = shrink Delta k q) /\ shrinking Delta x rest
  end.

(** A placement recorded in the trace is not dust at [price]. *)
Definition notDustPlacement (m : Market) (price : Q) (ev : Event) : Prop :=
  match ev with
  | ExPlace o _ => IsDustQuantity m (so_Quantity o) price = false
  | _ => True
  end.

(** An event of one [SubmitOrders] call for the single order [o]. *)
Definition eventOf (o : SubmitOrder) (ev : Event) : Prop :=
  ev = Pump \/ exists ok, ev = ExPlace o ok.

(** The four price fields. *)
Definition prices (s : Strategy) : Q * Q * Q * Q :=
  (buyPrice s, sellPrice s, highestPrice s, lowestPrice s).

(** A price observation never lowers [highestPrice], never raises
    [lowestPrice], and leaves the reference prices alone. *)
Definition monotoneStep (s s' : Strategy) : Prop :=
  highestPrice s <= highestPrice s'
  /\ lowestPrice s' <= lowestPrice s
  /\ buyPrice s' = buyPrice s
  /\ sellPrice s' = sellPrice s.

(** The age of an order in bars. *)
Definition age (s : Strategy) (o : Order) : Z :=
  (minutesCounter s - counterOf (orderPendingCounter s) (OrderID o))%Z.

Definition supported (o : Order) : Prop := Side o <> SideTypeSelf.

(** Drift's gate on the cancellation of an aged order: a buy is left
    alone while the one-minute drift falls, a sell while it rises. *)
Definition spared (ind : Indicators) (o : Order) : bool :=
  match Side o, drift1m ind with
  | SideTypeBuy, d0 :: d1 :: _ => Qltb d1 d0
  | SideTypeSell, d0 :: d1 :: _ => Qltb d0 d1
  | _, _ => false
  end.

(** The strategy after elliottwave's [smartCancel] has asked for the
    cancellation of [o]: the executor has run [GracefulCancelOrder], and the
    age entry is deleted when that returned nil. *)
Definition afterCancelOrder (o : Order) (s : Strategy) : Strategy :=
  match GracefulCancelOrder o (executor s) with
  | Some (None, e') =>
      set_orderPendingCounter (delete (OrderID o) (orderPendingCounter s))
        (set_executor e' s)
  | Some (Some _, e') => set_executor e' s
  | None => s
  end.

(** *** Entry orders in the bar-close domain *)

Definition entryTag (t : Tag) : bool :=
  match t with
  | TagLong | TagShort => true
  | _ => false
  end.

(** The number of resting entry orders. *)
Definition entryCount (os : list Order) : nat :=
  length (List.filter (fun o => entryTag (OrderTag o)) os).

Definition oneEntry (e : GeneralOrderExecutor) : Prop :=
  (entryCount (activeMakerOrders e) <= 1)%nat.

(** No entry order was sent to the exchange in these events. *)
Definition noEntryPlaced (evs : list Event) : Prop :=
  forall o ok, In (ExPlace o ok) evs -> entryTag (so_Tag o) = false.

(** The entry orders sent to the exchange in these events are all [o]. *)
Definition onlyEntryPlaced (o : SubmitOrder) (evs : list Event) : Prop :=
  forall o' ok, In (ExPlace o' ok) evs -> entryTag (so_Tag o') = true -> o' = o.

(** Since the trace was [t0], no entry order has been sent, and at most
    one rests in the book. *)
Definition beforeEntry (t0 : list Event) (e : GeneralOrderExecutor) : Prop :=
  exists new, trace e = new ++ t0 /\ noEntryPlaced new /\ oneEntry e.

(** Since the trace was [t0], the entry orders sent are all one limit
    order [o], and the book holds nothing but the order created for it. *)
Definition entered (t0 : list Event) (e : GeneralOrderExecutor) : Prop :=
  exists new o,
    trace e = new ++ t0
    /\ so_Type o = OrderTypeLimit
    /\ onlyEntryPlaced o new
    /\ (activeMakerOrders e = []
        \/ exists id, activeMakerOrders e = [newOrder id o]).

(** Partial correctness of a monadic computation. *)
Definition hoare {S A} (P : S -> Prop) (c : M S A) (Q : A -> S -> Prop) : Prop :=
  forall s a s', P s -> c s = Some (a, s') -> Q a s'.

(** An assertion on the executor, as an assertion on the strategy. *)
Definition onExec (P : GeneralOrderExecutor -> Prop) (s : Strategy) : Prop :=
  P (executor s).


(** The three assertions of a bar handler, on the strategy: no entry sent
    yet; the same with an empty book; the bar is done. *)
Definition noEntryYet (t0 : list Event) : Strategy -> Prop :=
  onExec (beforeEntry t0).
Definition emptyBook (t0 : list Event) : Strategy -> Prop :=
  onExec (fun e => beforeEntry t0 e /\ activeMakerOrders e = []).
Definition barDone (t0 : list Event) : Strategy -> Prop :=
  onExec (fun e => beforeEntry t0 e \/ entered t0 e).

(** *** Placements of a batch *)

(** The placement requests recorded in a trace, oldest first, each with
    the exchange's answer. *)
Fixpoint placements (evs : list Event) : list (SubmitOrder * bool) :=
  match evs with
  | [] => []
  | ExPlace o ok :: rest => placements rest ++ [(o, ok)]
  | _ :: rest => placements rest
  end.

Definition isPlacement (ev : Event) : Prop :=
  exists o ok, ev = ExPlace o ok.

(** The positions, counted from [i], of the refused requests. *)
Fixpoint refusedFrom (i : nat) (answers : list bool) : list nat :=
  match answers with
  | [] => []
  | true :: rest => refusedFrom (S i) rest
  | false :: rest => i :: refusedFrom (S i) rest
  end.

(** ** The executor's position operations *)

Module Executor.

(** What [OpenPosition] and [ClosePosition] return besides an error of
    [SubmitOrders]. *)
Inductive positionError :=
  | ErrSizing             (* from CalculateQuoteQuantity / CalculateBaseQuantity *)
  | ErrInsufficientBase   (* insufficient base balance, can not sell *)
  | ErrNoDirection        (* options Long or Short must be set *)
  | ErrSubmit (e : err).





(** [fixedpoint.Min]. *)
Definition Min (a b : Q) : Q := if Qltb a b then a else b.

(** [e.position] is the position the strategy shares with its executor: an
    argument here.  [baseBalance] is the available base balance, when the
    account lists the base currency; [tagStr] the tags joined by commas. *)
Definition ClosePosition (position : Position) (baseBalance : option Q)
    (percentage : Q) (tagStr : Tag) : Exec (option positionError) :=
  match NewMarketCloseOrder position percentage with
  | None => ret None
  | Some submitOrder =>
      let submitOrder :=
        if IsLong position then
          match baseBalance with
          | Some available =>
              withQuantity (Min (so_Quantity submitOrder) available) submitOrder
          | None => submitOrder
          end
        else submitOrder in
      if IsLong position && Qeq_bool (so_Quantity submitOrder) 0
      then ret (Some ErrInsufficientBase)
      else
        let submitOrder := withTag tagStr submitOrder in
        let* (_, e) := SubmitOrders [submitOrder] in
        ret (option_map ErrSubmit e)
  end.

End Executor.

(** ** Events of a running strategy *)

(** Go's [int] is 64 bits wide on the platforms bbgo runs on; an
    arithmetic result wraps around. *)
Definition wrapInt (z : Z) : Z := ((z + 2 ^ 63) mod 2 ^ 64 - 2 ^ 63)%Z.

(** The channels a strategy subscribes to. *)
Inductive Channel := KLineChannel1m | BookTickerChannel.

(** A top-of-book update. *)
Record BookTicker := { Buy : Q; Sell : Q }.

(** A closed bar with its time fields.  Times and durations are in
    nanoseconds; an interval is identified with its duration. *)
Record ClosedKLine := {
  ohlc : KLine;
  StartTime : Z;
  Interval : Z
}.

Definition Minute : Z := (60 * 10 ^ 9)%Z.
Definition Interval1m : Z := Minute.

(** [int(d.Minutes())]: whole minutes, rounded toward zero.  The times of
    bars are whole milliseconds, for which the detour through float64 is
    exact. *)
Definition Minutes (d : Z) : Z := Z.quot d Minute.

Definition set_minutesCounter (n : Z) (s : Strategy) :=
  {| cfg := cfg s; running := running s; minutesCounter := n;
     orderPendingCounter := orderPendingCounter s;
     buyPrice := buyPrice s; sellPrice := sellPrice s;
     highestPrice := highestPrice s; lowestPrice := lowestPrice s;
     p := p s; beta := beta s; executor := executor s |}.

(** The strategy together with the mid price its book-ticker callback
    caches. *)
Record Feed := {
  strategy : Strategy;
  midPrice : Q
}.

Definition set_midPrice (x : Q) (f : Feed) : Feed :=
  {| strategy := strategy f; midPrice := x |}.

Definition Tick := M Feed.

Definition onStrategy {A} (c : Strat A) : Tick A :=
  fun f => match c (strategy f) with
           | Some (a, s') => Some (a, {| strategy := s'; midPrice := midPrice f |})
           | None => None
           end.

Definition withLastPrice (x : Q) (v : MarketView) : MarketView :=
  {| lastPrice := x;
     baseAvailable := baseAvailable v; quoteAvailable := quoteAvailable v;
     baseTotal := baseTotal v; quoteTotal := quoteTotal v;
     hasBase := hasBase v; hasQuote := hasQuote v |}.

(** [CalcAssetValue], the same in both strategies. *)
Definition CalcAssetValue (view : MarketView) (price : Q) : Q :=
  baseTotal view * price + quoteTotal view.

(** The [getLastPrice] closures of [initTickerFunctions], the same in both
    strategies; [sessionLast] is what [Session.LastPrice] returns (zero when
    it knows no price). *)
Definition getLastPrice (IsBackTesting : bool) (sessionLast : Q) (f : Feed) : Q :=
  if IsBackTesting then sessionLast
  else if Qeq_bool (midPrice f) 0 then sessionLast
  else midPrice f.

Module DriftRun.

Record Windows := {
  Window : Z;
  SmootherWindow : Z;
  FisherTransformWindow : Z;
  IntervalMinutes : Z;           (* s.Interval.Minutes() *)
  Window1m : Z;
  SmootherWindow1m : Z;
  FisherTransformWindow1m : Z
}.

(** [Subscribe]: the value it stores in [bbgo.KLinePreloadLimit], and the
    channels it subscribes to.  The subscriptions of the configured exit
    methods are left out. *)
Definition Subscribe (IsBackTesting : bool) (w : Windows) : Z * list Channel :=
  let maxWindow :=
    wrapInt (wrapInt (wrapInt (Window w + SmootherWindow w)
                      + FisherTransformWindow w) * IntervalMinutes w) in
  let maxWindow1m :=
    wrapInt (wrapInt (Window1m w + SmootherWindow1m w)
             + FisherTransformWindow1m w) in
  let maxWindow := if (maxWindow <? maxWindow1m)%Z then maxWindow1m else maxWindow in
  (wrapInt (wrapInt (Z.quot maxWindow 1000 + 1) * 1000),
   KLineChannel1m :: (if IsBackTesting then [] else [BookTickerChannel])).

(** The book-ticker callback of [initTickerFunctions] (live trading only).
    Both locks are free when an event is handled on its own, so neither
    [TryLock] fails.  [typeKline] is [TrailingStopLossType == "kline"];
    [account] holds the balances, [sessionLast] the session's last price. *)
Definition OnBookTickerUpdate (fuel : nat) (typeKline : bool)
    (account : MarketView) (sessionLast : Q) (ticker : BookTicker) : Tick unit :=
  let bestBid := Buy ticker in
  let bestAsk := Sell ticker in
  let* _ :=
    modify (set_midPrice
      (if negb (Qeq_bool bestAsk 0) && negb (Qeq_bool bestBid 0)
       then (bestAsk + bestBid) / 2
       else if negb (Qeq_bool bestAsk 0) then bestAsk
       else bestBid)) in
  let* pricef := gets midPrice in
  let* _ := onStrategy (modify (observe pricef)) in
  let* s := gets strategy in
  if NoTrailingStopLoss (cfg s) || typeKline then ret tt
  else
    let stoploss := StopLoss (cfg s) in
    let* exitShortCondition :=
      onStrategy (Drift.exitShortCondition1m stoploss pricef) in
    let* exitLongCondition :=
      onStrategy (Drift.exitLongCondition1m stoploss pricef) in
    if exitShortCondition || exitLongCondition then
      let* f := get in
      let view := withLastPrice (getLastPrice false sessionLast f) account in
      let* _ := onStrategy (Drift.ClosePosition fuel view 1) in
      ret tt
    else ret tt.

(** The callbacks [Run] registers with [OnSuspend] and [OnEmergencyStop]. *)
Definition OnSuspend : Strat unit :=
  let* _ := onExecutor GracefulCancel in ret tt.

Definition OnEmergencyStop (fuel : nat) (view : MarketView) : Strat unit :=
  let* _ := onExecutor GracefulCancel in
  let* _ := Drift.ClosePosition fuel view 1 in
  ret tt.

(** The callback [Run] registers with [store.OnKLineClosed]; [sInterval]
    is [s.Interval] and [startTime] the time [initIndicators] stored. *)
Definition OnKLineClosed (sInterval startTime : Z) (fuel : nat)
    (view : MarketView) (ind : Indicators) (kline : ClosedKLine) : Strat unit :=
  let* _ :=
    modify (set_minutesCounter
      (Minutes (StartTime kline + Interval kline - startTime))) in
  if (Interval kline =? Interval1m)%Z
  then Drift.klineHandler1m fuel view ind (ohlc kline)
  else if (Interval kline =? sInterval)%Z
  then Drift.klineHandler fuel view ind (ohlc kline)
  else ret tt.

End DriftRun.

Module ElliottwaveRun.

(** [Subscribe]; [minutes] is [s.Interval.Minutes()]. *)
Definition Subscribe (IsBackTesting : bool) (minutes WindowSlow : Z)
  : Z * list Channel :=
  (wrapInt (wrapInt (Z.quot (wrapInt (minutes * WindowSlow)) 1000 + 1) + 1000),
   KLineChannel1m :: (if IsBackTesting then [] else [BookTickerChannel])).

(** The book-ticker callback of [initTickerFunctions]: it caches the mid
    price and does nothing else. *)
Definition OnBookTickerUpdate (ticker : BookTicker) : Tick unit :=
  let bestBid := Buy ticker in
  let bestAsk := Sell ticker in
  if negb (Qeq_bool bestAsk 0) && negb (Qeq_bool bestBid 0)
  then modify (set_midPrice ((bestAsk + bestBid) / 2))
  else if negb (Qeq_bool bestAsk 0) then modify (set_midPrice bestAsk)
  else if negb (Qeq_bool bestBid 0) then modify (set_midPrice bestBid)
  else ret tt.

Definition OnSuspend : Strat unit :=
  let* _ := onExecutor GracefulCancel in ret tt.

Definition OnEmergencyStop (fuel : nat) (view : MarketView) : Strat unit :=
  let* _ := onExecutor GracefulCancel in
  let* _ := Elliottwave.ClosePosition fuel view 1 in
  ret tt.

Definition OnKLineClosed (sInterval startTime : Z) (fuel : nat)
    (view : MarketView) (ind : Indicators) (kline : ClosedKLine) : Strat unit :=
  let* _ :=
    modify (set_minutesCounter
      (Minutes (StartTime kline + Interval kline - startTime))) in
  if (Interval kline =? Interval1m)%Z
  then Elliottwave.klineHandler1m fuel view ind (ohlc kline)
  else if (Interval kline =? sInterval)%Z
  then Elliottwave.klineHandler fuel view ind (ohlc kline)
  else ret tt.

End ElliottwaveRun.

(** ** Statements about the events of a run *)

(** Every order of the batch is accepted when first sent: order [k] is
    sent at clock [length (trace e) + k]. *)
Definition cleanFirstPass (os : list SubmitOrder) (e : GeneralOrderExecutor) : Prop :=
  forall k o, nth_error os k = Some o ->
    place_fails (session e) (length (trace e) + k) o = false.

(** An event of the shrink-retry loop started with [order]: a pump, or a
    placement request for [order] with its quantity shrunk some number of
    times, not dust at [price]. *)
Definition closeEvent (m : Market) (Delta price : Q) (order : SubmitOrder)
    (ev : Event) : Prop :=
  ev = Pump
  \/ exists k ok,
       ev = ExPlace (withQuantity (shrink Delta k (so_Quantity order)) order) ok
       /\ IsDustQuantity m (shrink Delta k (so_Quantity order)) price = false.

(** A placement request of [ClosePosition] stays within the order [order0]
    the position asks for and within the balances of [view]. *)
Definition withinBalance (view : MarketView) (order0 : SubmitOrder)
    (ev : Event) : Prop :=
  match ev with
  | Pump => True
  | ExCancel _ _ => False
  | ExPlace o _ =>
      so_Tag o = TagClose
      /\ so_Side o = so_Side order0
      /\ so_Type o = so_Type order0
      /\ 0 < so_Quantity o <= so_Quantity order0
      /\ match so_Side o with
         | SideTypeSell => so_Quantity o <= baseAvailable view
         | SideTypeBuy => so_Quantity o * lastPrice view <= quoteAvailable view
         | SideTypeSelf => True
         end
  end.

(** The slope estimate and the stored slope are on the same side of the
    filter: both above it in size, or both below. *)
Definition sameSide (rf stored slope : Q) : bool :=
  (Qltb rf (Qabs slope) && Qltb rf (Qabs stored))
  || (Qltb (Qabs stored) rf && Qltb (Qabs slope) rf).

(** The account's holdings in units of the base currency. *)
Definition totalInBase (view : MarketView) : Q :=
  baseTotal view + quoteTotal view / lastPrice view.

(** What the account would hold in base currency once the shadow position
    [pos] is closed: closing a long sells its base, closing a short buys
    it back. *)
Definition baseAfterClose (view : MarketView) (pos : Position) : Q :=
  baseTotal view - Base pos.

(** A side of the ticker is present: its price is not zero. *)
Definition present (x : Q) : bool := negb (Qeq_bool x 0).




(** The number of one-minute bars drift's indicators look back on. *)
Definition driftLookback (w : DriftRun.Windows) : Z :=
  (Z.max ((DriftRun.Window w + DriftRun.SmootherWindow w
          + DriftRun.FisherTransformWindow w) * DriftRun.IntervalMinutes w)
        (DriftRun.Window1m w + DriftRun.SmootherWindow1m w
         + DriftRun.FisherTransformWindow1m w))%Z.

(** An entry placement among the events satisfies [good]. *)
Definition entryEvent (good : SubmitOrder -> Prop) (ev : Event) : Prop :=
  forall o ok, ev = ExPlace o ok -> entryTag (so_Tag o) = true -> good o.

(** Since the trace was [t0], every entry order sent satisfies [good]. *)
Definition entriesSince (good : SubmitOrder -> Prop) (t0 : list Event)
    (e : GeneralOrderExecutor) : Prop :=
  exists new, trace e = new ++ t0 /\ Forall (entryEvent good) new.

(** The same on a strategy whose configuration is [c0]. *)
Definition placing (good : SubmitOrder -> Prop) (c0 : Config)
    (t0 : list Event) (s : Strategy) : Prop :=
  cfg s = c0 /\ entriesSince good t0 (executor s).

(** An entry order as [klineHandler] builds it: a limit order that is not
    dust at its own price; a long entry buys, at or below the last price,
    what the available quote balance pays for at the limit price; a short
    entry sells the available base balance, at or above the last price. *)
Definition entryOK (view : MarketView) (m : Market) (o : SubmitOrder) : Prop :=
  so_Type o = OrderTypeLimit
  /\ IsDustQuantity m (so_Quantity o) (so_Price o) = false
  /\ match so_Tag o with
     | TagLong =>
         so_Side o = SideTypeBuy
         /\ so_Price o <= lastPrice view
         /\ so_Quantity o = quoteAvailable view / so_Price o
         /\ (0 < MinNotional m ->
             so_Quantity o * so_Price o == quoteAvailable view)
     | TagShort =>
         so_Side o = SideTypeSell
         /\ lastPrice view <= so_Price o
         /\ so_Quantity o = baseAvailable view
     | _ => True
     end.

(** Total correctness of a monadic computation: from a state that
    satisfies [P] it returns, in a state that satisfies [Q]. *)
Definition returns {S A} (P : S -> Prop) (c : M S A) (Q : A -> S -> Prop) : Prop :=
  forall s, P s -> exists a s', c s = Some (a, s') /\ Q a s'.

(** A number of shrinking steps after which whatever [ClosePosition] may
    ask for under the balances of [view] is dust. *)
Definition closeFuel (m : Market) (Delta : Q) (view : MarketView) : nat :=
  Z.to_nat (Qceiling
    (fmax (baseAvailable view * lastPrice view) (quoteAvailable view)
     / (MinNotional m * Delta))).

(** The configuration is [c0]. *)
Definition configured (c0 : Config) (s : Strategy) : Prop := cfg s = c0.

(** The configuration is [c0], and the orders in the book are buys and
    sells. *)
Definition configuredBook (c0 : Config) (s : Strategy) : Prop :=
  cfg s = c0 /\ Forall supported (activeMakerOrders (executor s)).

(** Drift's [smartCancel] cancels the book on account of [o]: the order is
    open and either older than [PendingMinutes] and not spared by the drift
    gate, or not older and left behind by the price by twice the standard
    deviation of the bar range. *)
Definition driftTrigger (s : Strategy) (ind : Indicators) (pricef : Q)
    (o : Order) : bool :=
  isOpen o
  && (if (PendingMinutes (cfg s) <? age s o)%Z then negb (spared ind o)
      else match Side o with
           | SideTypeBuy => Qle_bool (Price o + stdevHigh ind * 2) pricef
           | _ => Qle_bool pricef (Price o - stdevLow ind * 2)
           end).

(** Elliottwave's [smartCancel] asks for the cancellation of [o]: the
    order is open and either its age has reached [PendingMinutes] or the
    price has left it behind by twice the ATR. *)
Definition elliottwaveTrigger (s : Strategy) (ind : Indicators) (pricef : Q)
    (o : Order) : bool :=
  isOpen o
  && ((PendingMinutes (cfg s) <=? age s o)%Z
      || match Side o with
         | SideTypeBuy => Qle_bool (Price o + atr ind * 2) pricef
         | _ => Qle_bool pricef (Price o - atr ind * 2)
         end).

(** The open orders elliottwave's [smartCancel] leaves alone. *)
Definition leftAlone (s : Strategy) (ind : Indicators) (pricef : Q)
    (o : Order) : bool :=
  isOpen o && negb (elliottwaveTrigger s ind pricef o).

(** ** More worked configurations *)

Module Scenario.

(** An exchange that refuses the first placement and accepts the rest. *)
Definition firstRefused : ExchangeSession :=
  {| format_fails := fun _ => false;
     place_fails := fun clock _ => (clock =? 0)%nat;
     cancel_fails := fun _ _ => false |}.

(** One unit of the base currency and 1000 of the quote currency free,
    with the last price at 100. *)
Definition funded : MarketView :=
  {| lastPrice := 100; baseAvailable := 1; quoteAvailable := 1000;
     baseTotal := 1; quoteTotal := 1000; hasBase := true; hasQuote := true |}.



(** Drift on 30-minute bars. *)
Definition halfHour : DriftRun.Windows :=
  {| DriftRun.Window := 5; DriftRun.SmootherWindow := 3;
     DriftRun.FisherTransformWindow := 9; DriftRun.IntervalMinutes := 30;
     DriftRun.Window1m := 4; DriftRun.SmootherWindow1m := 4;
     DriftRun.FisherTransformWindow1m := 20 |}.

(** A top of book of 99 to 101, and a strategy that has seen no ticker
    yet. *)
Definition ticker : BookTicker := {| Buy := 99; Sell := 101 |}.

Definition fresh (s : Strategy) : Feed := {| strategy := s; midPrice := 0 |}.

End Scenario.

(** * Properties *)

(** ** Numbers *)

Lemma Qltb_lt x y : Qltb x y = true <-> x < y.
Proof.
  unfold Qltb. rewrite negb_true_iff.
  destruct (Qle_bool y x) eqn:E.
  - apply Qle_bool_iff in E. split; [discriminate | intros H; exfalso; lra].
  - split; [intros _ | reflexivity].
    destruct (Qlt_le_dec x y) as [H | H]; [exact H |].
    apply Qle_bool_iff in H. congruence.
Qed.

Lemma Qltb_ge x y : Qltb x y = false <-> y <= x.
Proof.
  unfold Qltb. rewrite negb_false_iff. apply Qle_bool_iff.
Qed.


Lemma inject_Z_succ (k : nat) :
  inject_Z (Z.of_nat (S k)) == inject_Z (Z.of_nat k) + 1.
Proof. rewrite Nat2Z.inj_succ, <- Z.add_1_r, inject_Z_plus. reflexivity. Qed.

Lemma inject_Z_nat_nonneg (k : nat) : 0 <= inject_Z (Z.of_nat k).
Proof.
  change 0 with (inject_Z 0). rewrite <- Zle_Qle. apply Nat2Z.is_nonneg.
Qed.

(** Bernoulli's inequality, on the notional of the shrunk quantity. *)
Lemma shrink_bernoulli Delta price k : forall q,
  0 < Delta < 1 -> 0 <= q * price ->
  0 <= shrink Delta k q * price /\
  shrink Delta k q * price * (1 + inject_Z (Z.of_nat k) * Delta) <= q * price.
Proof.
  induction k as [| k IH]; intros q HD Hx.
  - cbn [shrink]. split; [exact Hx |].
    change (inject_Z (Z.of_nat 0)) with 0. lra.
  - cbn [shrink].
    assert (Hx' : 0 <= q * (1 - Delta) * price).
    { assert (H : 0 <= q * price * (1 - Delta))
        by (apply Qmult_le_0_compat; lra).
      lra. }
    destruct (IH (q * (1 - Delta)) HD Hx') as [Hy Hb].
    split; [exact Hy |].
    set (y := shrink Delta k (q * (1 - Delta)) * price) in *.
    pose proof (inject_Z_nat_nonneg k) as Hk.
    rewrite inject_Z_succ.
    set (n := inject_Z (Z.of_nat k)) in *.
    assert (Ht : 0 <= y * (n * Delta)).
    { apply Qmult_le_0_compat; [exact Hy |]. apply Qmult_le_0_compat; lra. }
    assert (HxD : 0 <= q * price * Delta).
    { apply Qmult_le_0_compat; lra. }
    assert (Hyx : 0 <= (q * price - y) * Delta).
    { apply Qmult_le_0_compat; lra. }
    lra.
Qed.

Lemma IsDustQuantity_true m q price :
  IsDustQuantity m q price = true <-> q * price < MinNotional m.
Proof. apply Qltb_lt. Qed.

Lemma IsDustQuantity_false m q price :
  IsDustQuantity m q price = false <-> MinNotional m <= q * price.
Proof. apply Qltb_ge. Qed.

(** After [closeBound] shrinking steps the quantity is dust. *)
Lemma dust_at_closeBound m Delta q price :
  0 < MinNotional m -> 0 < Delta < 1 ->
  IsDustQuantity m (shrink Delta (closeBound m Delta q price) q) price = true.
Proof.
  intros Hm HD. apply IsDustQuantity_true. unfold closeBound.
  set (x := q * price). set (mn := MinNotional m) in *.
  assert (HmD : 0 < mn * Delta) by (apply Qmult_lt_0_compat; lra).
  destruct (Qlt_le_dec 0 x) as [Hpos | Hneg].
  - set (N := Z.to_nat (Qceiling (x / (mn * Delta)))).
    destruct (shrink_bernoulli Delta price N q HD) as [Hy Hb];
      [fold x; lra |].
    fold x in Hb. set (y := shrink Delta N q * price) in *.
    assert (HN : x / (mn * Delta) <= inject_Z (Z.of_nat N)).
    { unfold N. rewrite Z2Nat.id.
      - apply Qle_ceiling.
      - assert (H0 : (Qceiling 0 <= Qceiling (x / (mn * Delta)))%Z).
        { apply Qceiling_resp_le. apply Qle_shift_div_l; lra. }
        exact H0. }
    set (n := inject_Z (Z.of_nat N)) in *.
    assert (HxN : x <= n * (mn * Delta)).
    { apply (Qmult_le_compat_r _ _ (mn * Delta)) in HN; [| lra].
      assert (E : x / (mn * Delta) * (mn * Delta) == x).
      { field. split; lra. }
      rewrite E in HN. exact HN. }
    destruct (Qlt_le_dec y mn) as [Hlt | Hge]; [exact Hlt | exfalso].
    assert (Hn0 : 0 <= n) by apply inject_Z_nat_nonneg.
    assert (H1 : 0 <= (y - mn) * (n * Delta)).
    { apply Qmult_le_0_compat; [lra |]. apply Qmult_le_0_compat; lra. }
    lra.
  - assert (HN : Z.to_nat (Qceiling (x / (mn * Delta))) = 0%nat).
    { apply Z2Nat.nonpos.
      assert (H0 : (Qceiling (x / (mn * Delta)) <= Qceiling 0)%Z).
      { apply Qceiling_resp_le. apply Qle_shift_div_r; lra. }
      exact H0. }
    rewrite HN. cbn [shrink]. fold x. lra.
Qed.

(** ** Trailing stop *)

Section TrailingCheck.

Variable s : Strategy.
Variable isShort : bool.
Variable price : Q.

Lemma scanTiers_spec n :
  (n <= length (TrailingCallbackRate (cfg s)))%nat ->
  (n <= length (TrailingActivationRatio (cfg s)))%nat ->
  exists b, scanTiers s isShort price n = Some b /\
    ((exists i, governedBy s isShort price n i b)
     \/ (noneActivated s isShort 0 n /\ b = false)).
Proof.
  unfold governedBy, noneActivated.
  induction n as [| i IH]; intros Hcb Hact.
  - exists false. split; [reflexivity |]. right. split; [| reflexivity].
    intros j a Hj. lia.
  - cbn [scanTiers].
    destruct (nth_error (TrailingCallbackRate (cfg s)) i) as [c |] eqn:Ec;
      [| apply nth_error_None in Ec; lia].
    destruct (nth_error (TrailingActivationRatio (cfg s)) i) as [a |] eqn:Ea;
      [| apply nth_error_None in Ea; lia].
    destruct (activated s isShort a) eqn:Eact.
    + eexists. split; [reflexivity |]. left. exists i. split; [lia |].
      exists c, a. repeat split; auto. intros j a' Hj. lia.
    + destruct IH as (b & Hb & Hres); [lia | lia |].
      exists b. split; [exact Hb |].
      destruct Hres as [(k & Hk & c' & a' & Hc' & Ha' & Hon & Hoff & Hret) | (Hoff & ->)].
      * left. exists k. split; [lia |]. exists c', a'. repeat split; auto.
        intros j a'' Hj Hnth.
        destruct (Nat.eq_dec j i) as [-> | Hne].
        -- congruence.
        -- apply (Hoff j); [lia | exact Hnth].
      * right. split; [| reflexivity]. intros j a' Hj Hnth.
        destruct (Nat.eq_dec j i) as [-> | Hne].
        -- congruence.
        -- apply (Hoff j); [lia | exact Hnth].
Qed.

End TrailingCheck.

Lemma trailingCheck_unfold price direction s :
  trailingCheck price direction s =
  match scanTiers (observe price s) (isShortDir direction) price
          (length (TrailingCallbackRate (cfg (observe price s)))) with
  | Some b => Some (b, observe price s)
  | None => None
  end.
Proof.
  unfold trailingCheck, bind, modify, get. cbn.
  destruct (scanTiers _ _ _ _); reflexivity.
Qed.

Lemma cfg_observe price s : cfg (observe price s) = cfg s.
Proof.
  unfold observe.
  destruct (Qltb 0 (highestPrice s) && Qltb (highestPrice s) price);
    cbn; destruct (_ && _); reflexivity.
Qed.

(** C2, general part.  [trailingCheck] updates the watermark, then scans
    the tiers from the highest index down to 0: the highest-index tier
    whose activation ratio is exceeded decides, by its callback test; with
    no tier activated the answer is [false]. *)
Lemma trailingCheck_scan price direction s :
  (length (TrailingCallbackRate (cfg s)) <=
   length (TrailingActivationRatio (cfg s)))%nat ->
  let s' := observe price s in
  let n := length (TrailingCallbackRate (cfg s)) in
  exists b, trailingCheck price direction s = Some (b, s') /\
    ((exists i, governedBy s' (isShortDir direction) price n i b)
     \/ (noneActivated s' (isShortDir direction) 0 n /\ b = false)).
Proof.
  intros Hlen s' n. rewrite trailingCheck_unfold, cfg_observe. fold s' n.
  destruct (scanTiers_spec s' (isShortDir direction) price n) as (b & Hb & Hres).
  - subst n s'. rewrite cfg_observe. lia.
  - subst n s'. rewrite cfg_observe. lia.
  - exists b. rewrite Hb. split; [reflexivity | exact Hres].
Qed.

(** C2, as stated, fails on its own example: with tiers
    [(0.01, 0.002); (0.03, 0.01)], a long entered at 100 and the watermark
    at 103, [trailingCheck] at price 102 does not return [false]. *)
Lemma trailingCheck_at_102_not_false :
  fst <$> trailingCheck 102 Long (Example.longAt100 103) <> Some false
  /\ fst <$> trailingCheck 102 Long (Example.longAt100 103) = Some true.
Proof. split; [intros H; vm_compute in H; discriminate | reflexivity]. Qed.

(** C2, amended.  The scan is as the claim says.  On the claim's example
    the 3% excursion from 100 to 103 equals, and so does not exceed, the
    second tier's activation ratio 0.03: the first tier (0.01, 0.002)
    decides, and the answer is [true] at 102 and at 101.5.  Once the
    watermark is above 103 (here 104) the second tier decides: [false] at
    103.5, [true] at 102. *)
Theorem trailingCheck_tiers :
  (forall price direction s,
     (length (TrailingCallbackRate (cfg s)) <=
      length (TrailingActivationRatio (cfg s)))%nat ->
     let s' := observe price s in
     let n := length (TrailingCallbackRate (cfg s)) in
     exists b, trailingCheck price direction s = Some (b, s') /\
       ((exists i, governedBy s' (isShortDir direction) price n i b)
        \/ (noneActivated s' (isShortDir direction) 0 n /\ b = false)))
  /\ trailingCheck 102 Long (Example.longAt100 103)
     = Some (true, Example.longAt100 103)
  /\ trailingCheck (1015 # 10) Long (Example.longAt100 103)
     = Some (true, Example.longAt100 103)
  /\ governedBy (Example.longAt100 103) false 102 2 0 true
  /\ trailingCheck (1035 # 10) Long (Example.longAt100 104)
     = Some (false, Example.longAt100 104)
  /\ trailingCheck 102 Long (Example.longAt100 104)
     = Some (true, Example.longAt100 104)
  /\ governedBy (Example.longAt100 104) false 102 2 1 true.
Proof.
  split; [exact trailingCheck_scan |].
  repeat split; try reflexivity; try lia.
  - exists (2 # 1000), (1 # 100). repeat split; try reflexivity.
    intros j a Hj Hnth. assert (j = 1%nat) as -> by lia.
    cbn in Hnth. injection Hnth as <-. reflexivity.
  - exists (1 # 100), (3 # 100). repeat split; try reflexivity.
    intros j a Hj. lia.
Qed.

Lemma trailingCheck_tiers_witness :
  exists b,
    trailingCheck 102 Long (Example.longAt100 104)
    = Some (b, observe 102 (Example.longAt100 104)).
Proof.
  destruct trailingCheck_tiers as [H _].
  destruct (H 102 Long (Example.longAt100 104)) as (b & Hb & _).
  - cbn. lia.
  - exists b. exact Hb.
Defined.

(** ** The executor on a batch of one order *)

Lemma Exchange_SubmitOrder_eq o e :
  Exchange_SubmitOrder o e =
  if place_fails (session e) (length (trace e)) o
  then Some (None, set_trace (ExPlace o false :: trace e) e)
  else Some (Some (newOrder (nextID e) o),
             set_nextID (N.succ (nextID e))
               (set_trace (ExPlace o true :: trace e) e)).
Proof.
  unfold Exchange_SubmitOrder, bind, get, emit, modify, ret. cbn.
  destruct (place_fails _ _ _); reflexivity.
Qed.

Lemma Exchange_CancelOrders_eq os e :
  Exchange_CancelOrders os e =
  if cancel_fails (session e) (length (trace e)) os
  then Some (Some ErrCancel, set_trace (ExCancel os false :: trace e) e)
  else Some (None, set_trace (ExCancel os true :: trace e) e).
Proof.
  unfold Exchange_CancelOrders, bind, get, emit, modify, ret. cbn.
  destruct (cancel_fails _ _ _); reflexivity.
Qed.

Lemma SubmitOrders_single o e :
  exists created er e' new,
    SubmitOrders [o] e = Some (created, er, e')
    /\ trace e' = new ++ trace e
    /\ Forall (eventOf o) new
    /\ session e' = session e
    /\ activeMakerOrders e' = addOrders created (activeMakerOrders e)
    /\ (created = [] \/ exists id, created = [newOrder id o])
    /\ (er = None -> created <> []).
Proof.
  unfold SubmitOrders, FormatOrders, BatchPlaceOrder, bind, get, ret. cbn.
  destruct (format_fails (session e) [o]) eqn:Ef; cbn.
  { exists [], (Some ErrFormat), e, []. repeat split; auto; discriminate. }
  unfold bind, ret. rewrite Exchange_SubmitOrder_eq.
  destruct (place_fails (session e) (length (trace e)) o) eqn:E1; cbn.
  - unfold bind, ret. rewrite Exchange_SubmitOrder_eq. cbn.
    destruct (place_fails (session e) (S (length (trace e))) o) eqn:E2; cbn.
    + eexists _, _, _, [Pump; ExPlace o false; ExPlace o false].
      split; [reflexivity |]. cbn.
      repeat split; auto; try discriminate.
      repeat (constructor; [unfold eventOf; eauto |]); constructor.
    + eexists _, _, _, [Pump; ExPlace o true; ExPlace o false].
      split; [reflexivity |]. cbn.
      repeat split; eauto; try discriminate.
      repeat (constructor; [unfold eventOf; eauto |]); constructor.
  - eexists _, _, _, [Pump; ExPlace o true].
    split; [reflexivity |]. cbn.
    repeat split; eauto; try discriminate.
    repeat (constructor; [unfold eventOf; eauto |]); constructor.
Qed.

(** ** ClosePosition *)

Lemma shrink_mul Delta k q :
  shrink Delta k (q * (1 - Delta)) = shrink Delta k q * (1 - Delta).
Proof.
  revert q. induction k as [| k IH]; intros q; cbn [shrink];
    [reflexivity | apply IH].
Qed.

Lemma shrink_decreases Delta k q :
  0 < Delta < 1 -> 0 < shrink Delta k q ->
  0 < shrink Delta (S k) q < shrink Delta k q.
Proof.
  intros HD Hq. cbn [shrink]. rewrite shrink_mul.
  set (x := shrink Delta k q) in *.
  assert (H1 : 0 < x * (1 - Delta)) by (apply Qmult_lt_0_compat; lra).
  assert (H2 : 0 < x * Delta) by (apply Qmult_lt_0_compat; lra).
  split; lra.
Qed.

Lemma placedQuantities_app l1 l2 :
  placedQuantities (l1 ++ l2) = placedQuantities l1 ++ placedQuantities l2.
Proof.
  induction l1 as [| ev l1 IH]; [reflexivity |].
  destruct ev; cbn; rewrite IH; reflexivity.
Qed.

Lemma placedQuantities_eventOf o l :
  Forall (eventOf o) l -> Forall (fun x => x = so_Quantity o) (placedQuantities l).
Proof.
  induction 1 as [| ev l Hev _ IH]; [constructor |].
  destruct Hev as [-> | [ok ->]]; cbn; [exact IH | constructor; auto].
Qed.

Lemma shrinking_step Delta q l :
  shrinking Delta (q * (1 - Delta)) l -> shrinking Delta q l.
Proof.
  destruct l as [| x rest]; [trivial |].
  cbn. intros [[k ->] H]. split; [| exact H]. exists (S k). reflexivity.
Qed.

Lemma shrinking_repeat Delta q l1 l2 :
  Forall (fun x => x = q) l1 -> shrinking Delta q l2 ->
  shrinking Delta q (l1 ++ l2).
Proof.
  induction 1 as [| x l1 -> _ IH]; intros H2; [exact H2 |].
  cbn. split; [exists 0%nat; reflexivity | apply IH, H2].
Qed.

Lemma ClosePosition_loop_spec m Delta price fuel :
  forall order e k,
    (k < fuel)%nat ->
    IsDustQuantity m (shrink Delta k (so_Quantity order)) price = true ->
    exists e' new,
      ClosePosition_loop fuel m Delta price order e = Some (None, e')
      /\ trace e' = new ++ trace e
      /\ session e' = session e
      /\ Forall (notDustPlacement m price) new
      /\ shrinking Delta (so_Quantity order) (placedQuantities (rev new)).
Proof.
  induction fuel as [| fuel IH]; intros order e k Hk Hdust; [lia |].
  cbn [ClosePosition_loop].
  destruct (IsDustQuantity m (so_Quantity order) price) eqn:Ed.
  { exists e, []. repeat split; auto. }
  destruct k as [| k]; [cbn in Hdust; congruence |].
  destruct (SubmitOrders_single order e)
    as (created & er & e1 & new1 & Hsub & Htr1 & Hev1 & Hses1 & _).
  unfold bind at 1. rewrite Hsub.
  assert (Hnd1 : Forall (notDustPlacement m price) new1).
  { eapply List.Forall_impl; [| exact Hev1].
    intros ev [-> | [ok ->]]; cbn; auto. }
  assert (Hq1 : Forall (fun x => x = so_Quantity order)
                  (placedQuantities (rev new1))).
  { apply placedQuantities_eventOf. apply List.Forall_rev. exact Hev1. }
  destruct er as [x |].
  - destruct (IH (withQuantity (so_Quantity order * (1 - Delta)) order) e1 k)
      as (e' & new2 & Hloop & Htr2 & Hses2 & Hnd2 & Hsh2); [lia | exact Hdust |].
    exists e', (new2 ++ new1). rewrite Hloop.
    split; [reflexivity |].
    split; [rewrite Htr2, Htr1; apply app_assoc |].
    split; [congruence |].
    split; [apply List.Forall_app; split; assumption |].
    rewrite rev_app_distr, placedQuantities_app.
    apply shrinking_repeat; [exact Hq1 |].
    apply shrinking_step. exact Hsh2.
  - exists e1, new1. repeat split; auto.
    rewrite <- (app_nil_r (placedQuantities (rev new1))).
    apply shrinking_repeat; [exact Hq1 | exact I].
Qed.

(** C1.  Whatever the exchange answers, the shrink-retry loop of
    [ClosePosition] returns nil within [closeBound + 1] iterations; every
    quantity it sends to the exchange is not dust at the current price
    (the dust check comes first); the quantities sent walk down the
    sequence q(1-Delta)^k, which is strictly decreasing and positive for a
    positive quantity. *)
Theorem ClosePosition_loop_terminates m Delta price order e fuel :
  0 < MinNotional m -> 0 < Delta < 1 ->
  (closeBound m Delta (so_Quantity order) price < fuel)%nat ->
  exists e' new,
    ClosePosition_loop fuel m Delta price order e = Some (None, e')
    /\ trace e' = new ++ trace e
    /\ Forall (notDustPlacement m price) new
    /\ shrinking Delta (so_Quantity order) (placedQuantities (rev new))
    /\ (forall k q, 0 < shrink Delta k q ->
          0 < shrink Delta (S k) q < shrink Delta k q).
Proof.
  intros Hm HD Hfuel.
  destruct (ClosePosition_loop_spec m Delta price fuel order e
              (closeBound m Delta (so_Quantity order) price) Hfuel)
    as (e' & new & Hloop & Htr & _ & Hnd & Hsh).
  - apply dust_at_closeBound; assumption.
  - exists e', new. repeat split; auto; apply shrink_decreases; auto.
Qed.

Lemma ClosePosition_loop_terminates_witness :
  exists e' new,
    ClosePosition_loop 1001 (market Example.twoTiers) Drift.Delta 100
      Example.closeOne (Example.idle Example.refusing) = Some (None, e')
    /\ trace e' = new ++ trace (Example.idle Example.refusing)
    /\ Forall (notDustPlacement (market Example.twoTiers) 100) new
    /\ shrinking Drift.Delta 1 (placedQuantities (rev new))
    /\ (forall k q, 0 < shrink Drift.Delta k q ->
          0 < shrink Drift.Delta (S k) q < shrink Drift.Delta k q).
Proof.
  apply (ClosePosition_loop_terminates (market Example.twoTiers) Drift.Delta
           100 Example.closeOne (Example.idle Example.refusing) 1001).
  - reflexivity.
  - split; reflexivity.
  - vm_compute. lia.
Defined.

(** [ClosePosition] itself returns nil, given fuel for its loop. *)
Lemma ClosePosition_returns Delta view percentage s :
  0 < MinNotional (market (cfg s)) -> 0 < Delta < 1 ->
  exists N, forall fuel, (N < fuel)%nat ->
    exists s', ClosePosition fuel Delta view percentage s = Some (None, s').
Proof.
  intros Hm HD. unfold ClosePosition, bind, get.
  destruct (NewMarketCloseOrder (p s) percentage) as [order |];
    [| exists 0%nat; intros; eexists; reflexivity].
  match goal with
  | |- context [ClosePosition_loop _ _ _ _ ?o] => set (order' := o)
  end.
  exists (closeBound (market (cfg s)) Delta (so_Quantity order') (lastPrice view)).
  intros fuel Hfuel.
  destruct (ClosePosition_loop_spec (market (cfg s)) Delta (lastPrice view)
              fuel order' (executor s) _ Hfuel
              (dust_at_closeBound _ _ _ _ Hm HD))
    as (e' & new & Hloop & _).
  unfold onExecutor. rewrite Hloop. eexists. reflexivity.
Qed.

Lemma Delta_range :
  0 < Drift.Delta < 1 /\ 0 < Elliottwave.Delta < 1.
Proof. repeat split; reflexivity. Qed.

Lemma Drift_ClosePosition_returns view percentage s :
  0 < MinNotional (market (cfg s)) ->
  exists N, forall fuel, (N < fuel)%nat ->
    exists s', Drift.ClosePosition fuel view percentage s = Some (None, s').
Proof.
  intros Hm. apply ClosePosition_returns; [exact Hm | apply Delta_range].
Qed.

Lemma Elliottwave_ClosePosition_returns view percentage s :
  0 < MinNotional (market (cfg s)) ->
  exists N, forall fuel, (N < fuel)%nat ->
    exists s', Elliottwave.ClosePosition fuel view percentage s = Some (None, s').
Proof.
  intros Hm. apply ClosePosition_returns; [exact Hm | apply Delta_range].
Qed.

(** ** Fills *)

Lemma Drift_OnTrade_cases trade s s' :
  Drift.OnTrade trade s = Some (tt, s') ->
  p s' = AddTrade (p s) trade
  /\ cfg s' = cfg s
  /\ orderPendingCounter s' = orderPendingCounter s
  /\ executor s' = executor s
  /\ exists order,
       orderStore_Get (tr_OrderID trade) (executor s) = Some order
       /\ OrderTag order <> TagOther
       /\ prices s' =
          let px := tr_Price trade in
          if IsDust (market (cfg s')) (p s') px then (0, 0, 0, 0)
          else match OrderTag order with
               | TagClose | TagNone =>
                   if IsLong (p s') then (px, 0, px, 0) else (0, px, 0, px)
               | TagLong =>
                   if IsLong (p s') then (px, 0, px, 0) else prices s
               | _ =>
                   if IsShort (p s') then (0, px, 0, px) else prices s
               end.
Proof.
  unfold Drift.OnTrade, bind, modify, get, panic, ret. cbn.
  destruct (orderStore_Get (tr_OrderID trade) (executor s)) as [order |] eqn:Eo;
    [| discriminate].
  intros H.
  assert (Hgoal : forall P : Strategy -> Prop,
            (forall s0, p s0 = AddTrade (p s) trade -> cfg s0 = cfg s ->
               orderPendingCounter s0 = orderPendingCounter s ->
               executor s0 = executor s ->
               Some (tt, s0) = Some (tt, s') -> P s0) -> P s').
  { intros P HP. apply (HP s'); try reflexivity;
      destruct (OrderTag order);
      repeat match type of H with
             | context [if ?b then _ else _] => destruct b
             end; inversion H; reflexivity. }
  repeat split; try (apply Hgoal; intros; assumption).
  exists order. split; [reflexivity |].
  destruct (OrderTag order) eqn:Et; cbn in H |- *;
    try discriminate; (split; [discriminate |]);
    repeat match type of H with
           | context [if ?b then _ else _] =>
               let E := fresh "E" in destruct b eqn:E
           end; inversion H; subst; cbn; rewrite ?E, ?E0, ?E1; reflexivity.
Qed.

Lemma Elliottwave_fill_cases trade s :
  exists s',
    Elliottwave.fill trade s = Some (tt, s')
    /\ p s' = AddTrade (p s) trade
    /\ cfg s' = cfg s
    /\ orderPendingCounter s' = orderPendingCounter s
    /\ prices s' =
       let px := tr_Price trade in
       if IsDust (market (cfg s')) (p s') px then (0, 0, 0, 0)
       else if IsLong (p s') then (px, 0, px, 0) else (0, px, 0, px).
Proof.
  unfold Elliottwave.fill, Elliottwave.OnTrade, bind, modify, get, ret. cbn.
  destruct (IsDust _ _ _) eqn:Ed; [| destruct (IsLong _) eqn:El];
    eexists; (split; [reflexivity |]); cbn; rewrite ?Ed, ?El; auto.
Qed.

Lemma prices_zero s :
  prices s = (0, 0, 0, 0) ->
  buyPrice s = 0 /\ sellPrice s = 0 /\ highestPrice s = 0 /\ lowestPrice s = 0.
Proof. unfold prices. intros H. inversion H. auto. Qed.

(** C6.  When the trade handed to the fill handler leaves the position at
    dust at the trade price, the handler leaves [buyPrice], [sellPrice],
    [highestPrice] and [lowestPrice] at exactly 0: in drift for every
    order tag the handler knows (it returns for each of them), in
    elliottwave always. *)
Theorem fill_to_dust_resets :
  (forall trade s order,
     orderStore_Get (tr_OrderID trade) (executor s) = Some order ->
     OrderTag order <> TagOther ->
     IsDust (market (cfg s)) (AddTrade (p s) trade) (tr_Price trade) = true ->
     exists s', Drift.OnTrade trade s = Some (tt, s')
       /\ p s' = AddTrade (p s) trade
       /\ buyPrice s' = 0 /\ sellPrice s' = 0
       /\ highestPrice s' = 0 /\ lowestPrice s' = 0)
  /\ (forall trade s,
       IsDust (market (cfg s)) (AddTrade (p s) trade) (tr_Price trade) = true ->
       exists s', Elliottwave.fill trade s = Some (tt, s')
         /\ p s' = AddTrade (p s) trade
         /\ buyPrice s' = 0 /\ sellPrice s' = 0
         /\ highestPrice s' = 0 /\ lowestPrice s' = 0).
Proof.
  split.
  - intros trade s order Hget Htag Hdust.
    assert (Hrun : exists s', Drift.OnTrade trade s = Some (tt, s')).
    { unfold Drift.OnTrade, bind, modify, get, panic, ret. cbn.
      rewrite Hget, Hdust.
      destruct (OrderTag order); try congruence; eexists; reflexivity. }
    destruct Hrun as [s' Hs']. exists s'. split; [exact Hs' |].
    destruct (Drift_OnTrade_cases trade s s' Hs')
      as (Hp & Hcfg & _ & _ & order' & _ & _ & Hpr).
    split; [exact Hp |].
    cbn in Hpr. rewrite Hcfg, Hp, Hdust in Hpr.
    apply prices_zero, Hpr.
  - intros trade s Hdust.
    destruct (Elliottwave_fill_cases trade s) as (s' & Hs' & Hp & Hcfg & _ & Hpr).
    exists s'. split; [exact Hs' |]. split; [exact Hp |].
    cbn in Hpr. rewrite Hcfg, Hp, Hdust in Hpr.
    apply prices_zero, Hpr.
Qed.

Lemma fill_to_dust_resets_witness :
  exists s', Elliottwave.fill
               {| tr_OrderID := 9; tr_Side := SideTypeSell; tr_Price := 120;
                  tr_Quantity := 1 |} (Example.longAt100 130) = Some (tt, s')
    /\ p s' = AddTrade (p (Example.longAt100 130))
               {| tr_OrderID := 9; tr_Side := SideTypeSell; tr_Price := 120;
                  tr_Quantity := 1 |}
    /\ buyPrice s' = 0 /\ sellPrice s' = 0
    /\ highestPrice s' = 0 /\ lowestPrice s' = 0.
Proof.
  destruct fill_to_dust_resets as [_ H]. apply H. reflexivity.
Defined.

(** ** Watermarks *)

Lemma set_prices_id s :
  set_prices (buyPrice s) (sellPrice s) (highestPrice s) (lowestPrice s) s = s.
Proof. destruct s; reflexivity. Qed.

Ltac watermark_cases Eh El :=
  try (apply andb_true_iff in Eh as [_ Eh]; apply Qltb_lt in Eh);
  try (apply andb_true_iff in El as [_ El]; apply Qltb_lt in El).

Lemma observe_cases price s :
  exists hp lp,
    observe price s = set_prices (buyPrice s) (sellPrice s) hp lp s
    /\ (hp = highestPrice s \/ (hp = price /\ highestPrice s < price))
    /\ (lp = lowestPrice s \/ (lp = price /\ price < lowestPrice s)).
Proof.
  unfold observe, set_highestPrice, set_lowestPrice.
  destruct (Qltb 0 (highestPrice s) && Qltb (highestPrice s) price) eqn:Eh;
    cbn [highestPrice lowestPrice buyPrice sellPrice set_prices];
    destruct (Qltb 0 (lowestPrice s) && Qltb price (lowestPrice s)) eqn:El;
    watermark_cases Eh El.
  - exists price, price. auto.
  - exists price, (lowestPrice s). auto.
  - exists (highestPrice s), price. auto.
  - exists (highestPrice s), (lowestPrice s). rewrite set_prices_id. auto.
Qed.

Lemma observeBar_cases lowf highf s :
  exists hp lp,
    observeBar lowf highf s = set_prices (buyPrice s) (sellPrice s) hp lp s
    /\ (hp = highestPrice s \/ (hp = highf /\ highestPrice s < highf))
    /\ (lp = lowestPrice s \/ (lp = lowf /\ lowf < lowestPrice s)).
Proof.
  unfold observeBar, set_highestPrice, set_lowestPrice.
  destruct (Qltb 0 (lowestPrice s) && Qltb lowf (lowestPrice s)) eqn:El;
    cbn [highestPrice lowestPrice buyPrice sellPrice set_prices];
    destruct (Qltb 0 (highestPrice s) && Qltb (highestPrice s) highf) eqn:Eh;
    watermark_cases Eh El.
  - exists highf, lowf. auto.
  - exists (highestPrice s), lowf. auto.
  - exists highf, (lowestPrice s). auto.
  - exists (highestPrice s), (lowestPrice s). rewrite set_prices_id. auto.
Qed.

Lemma observe_monotone price s : monotoneStep s (observe price s).
Proof.
  destruct (observe_cases price s) as (hp & lp & -> & [-> | [-> Hh]] & [-> | [-> Hl]]);
    unfold monotoneStep; cbn; repeat split; lra.
Qed.

Lemma observeBar_monotone lowf highf s : monotoneStep s (observeBar lowf highf s).
Proof.
  destruct (observeBar_cases lowf highf s)
    as (hp & lp & -> & [-> | [-> Hh]] & [-> | [-> Hl]]);
    unfold monotoneStep; cbn; repeat split; lra.
Qed.

Lemma trailingCheck_monotone price direction s b s' :
  trailingCheck price direction s = Some (b, s') -> monotoneStep s s'.
Proof.
  rewrite trailingCheck_unfold.
  destruct (scanTiers _ _ _ _); [| discriminate].
  intros H. inversion H. apply observe_monotone.
Qed.

(** C5, as stated, fails: a long is open before and after a further
    partial fill of the entry order at 100, and the fill takes
    [highestPrice] from 110 down to 100. *)
Lemma fill_lowers_highestPrice :
  exists s',
    Drift.OnTrade Example.secondFill Example.partlyFilled = Some (tt, s')
    /\ 0 < buyPrice Example.partlyFilled
    /\ IsDust (market (cfg Example.partlyFilled)) (p Example.partlyFilled) 100
       = false
    /\ 0 < buyPrice s'
    /\ IsDust (market (cfg s')) (p s') 100 = false
    /\ highestPrice Example.partlyFilled = 110
    /\ highestPrice s' = 100
    /\ ~ highestPrice Example.partlyFilled <= highestPrice s'.
Proof.
  eexists. split; [vm_compute; reflexivity |].
  repeat split; try reflexivity.
  intros H. vm_compute in H. apply H. reflexivity.
Qed.

(** C5, amended.  Every price observation (the watermark update of
    [trailingCheck] and of the book-ticker callback, and the one of the
    bar-close handlers) leaves [highestPrice] non-decreasing and
    [lowestPrice] non-increasing.  A fill re-bases instead: the fill
    handler writes the fill price into the reference price and the
    watermark of the side the position is left on (and clears the other
    side), and resets all four fields to 0 together when the position is
    left at dust. *)
Theorem watermarks_between_fills :
  (forall price s, monotoneStep s (observe price s))
  /\ (forall lowf highf s, monotoneStep s (observeBar lowf highf s))
  /\ (forall price direction s b s',
        trailingCheck price direction s = Some (b, s') -> monotoneStep s s')
  /\ (forall trade s s',
        Drift.OnTrade trade s = Some (tt, s') ->
        exists order,
          orderStore_Get (tr_OrderID trade) (executor s) = Some order
          /\ prices s' =
             let px := tr_Price trade in
             if IsDust (market (cfg s')) (p s') px then (0, 0, 0, 0)
             else match OrderTag order with
                  | TagClose | TagNone =>
                      if IsLong (p s') then (px, 0, px, 0) else (0, px, 0, px)
                  | TagLong =>
                      if IsLong (p s') then (px, 0, px, 0) else prices s
                  | _ =>
                      if IsShort (p s') then (0, px, 0, px) else prices s
                  end)
  /\ (forall trade s,
        exists s',
          Elliottwave.fill trade s = Some (tt, s')
          /\ prices s' =
             let px := tr_Price trade in
             if IsDust (market (cfg s')) (p s') px then (0, 0, 0, 0)
             else if IsLong (p s') then (px, 0, px, 0) else (0, px, 0, px)).
Proof.
  split; [exact observe_monotone |].
  split; [exact observeBar_monotone |].
  split; [exact trailingCheck_monotone |].
  split.
  - intros trade s s' H.
    destruct (Drift_OnTrade_cases trade s s' H)
      as (_ & _ & _ & _ & order & Hget & _ & Hpr).
    exists order. split; assumption.
  - intros trade s.
    destruct (Elliottwave_fill_cases trade s) as (s' & Hs' & _ & _ & _ & Hpr).
    exists s'. split; assumption.
Qed.

Lemma watermarks_between_fills_witness :
  monotoneStep (Example.longAt100 103)
    (observe 102 (Example.longAt100 103))
  /\ exists order,
       orderStore_Get (tr_OrderID Example.secondFill)
         (executor Example.partlyFilled) = Some order.
Proof.
  destruct watermarks_between_fills as (Hobs & _ & _ & Hfill & _).
  split; [apply Hobs |].
  destruct (Hfill Example.secondFill Example.partlyFilled
              (set_p (AddTrade (p Example.partlyFilled) Example.secondFill)
                 (enterLong 100 Example.partlyFilled)))
    as (order & Hget & _).
  - vm_compute. reflexivity.
  - exists order. exact Hget.
Defined.

(** ** The pending-order-age map *)

(** C8 does not hold.  The fill callback never touches
    [orderPendingCounter]: after the fill of the whole of order 1 its
    entry is still there.  Nor does the cancellation that precedes an
    entry in [klineHandler]: order 1 is cancelled and replaced by order 2,
    and the map holds entries for both. *)
Theorem pending_entry_survives_fill_and_cancel :
  (forall trade s s',
     Drift.OnTrade trade s = Some (tt, s') ->
     orderPendingCounter s' = orderPendingCounter s)
  /\ (exists s',
        Drift.OnTrade Example.fullFill Example.resting = Some (tt, s')
        /\ orderPendingCounter s' !! 1%N = Some 0%Z)
  /\ (exists s',
        Drift.klineHandler 1 Example.view Example.bullish Example.bar
          Example.resting = Some (tt, s')
        /\ hasID 1 (activeMakerOrders (executor s')) = false
        /\ In (ExCancel [Example.buyOrder 1 100] true) (trace (executor s'))
        /\ orderPendingCounter s' !! 1%N = Some 0%Z).
Proof.
  split; [| split].
  - intros trade s s' H.
    destruct (Drift_OnTrade_cases trade s s' H) as (_ & _ & Hc & _). exact Hc.
  - eexists. split; [vm_compute; reflexivity |]. reflexivity.
  - eexists. split; [vm_compute; reflexivity |].
    split; [reflexivity |]. split; [| reflexivity].
    cbn. auto.
Qed.

(** ** Exit conditions *)

(** Where the guard on the reference price covers the whole disjunction -
    in both one-minute handlers and in drift's [klineHandler] - an exit
    condition holds only with a positive reference price. *)
Lemma guarded_exits_need_reference_price :
  (forall stoploss highf s s',
     Drift.exitShortCondition1m stoploss highf s = Some (true, s') ->
     0 < sellPrice s)
  /\ (forall stoploss lowf s s',
        Drift.exitLongCondition1m stoploss lowf s = Some (true, s') ->
        0 < buyPrice s)
  /\ (forall sc lc stoploss highf pricef s s',
        Drift.exitShortCondition sc lc stoploss highf pricef s
        = Some (true, s') ->
        0 < sellPrice s)
  /\ (forall sc lc stoploss lowf pricef s s',
        Drift.exitLongCondition sc lc stoploss lowf pricef s
        = Some (true, s') ->
        0 < buyPrice s)
  /\ (forall stoploss atr highf s s',
        Elliottwave.exitShortCondition1m stoploss atr highf s
        = Some (true, s') ->
        0 < sellPrice s)
  /\ (forall stoploss atr lowf s s',
        Elliottwave.exitLongCondition1m stoploss atr lowf s
        = Some (true, s') ->
        0 < buyPrice s).
Proof.
  unfold Drift.exitShortCondition1m, Drift.exitLongCondition1m,
    Drift.exitShortCondition, Drift.exitLongCondition,
    Elliottwave.exitShortCondition1m, Elliottwave.exitLongCondition1m.
  repeat split; intros; unfold bind at 1, get at 1 in H;
    match type of H with
    | context [Qltb 0 ?x] =>
        destruct (Qltb 0 x) eqn:E;
        [apply Qltb_lt in E; exact E | cbn in H; discriminate]
    end.
Qed.

(** C4 does not hold for elliottwave's [klineHandler].  With both
    reference prices at zero its short exit condition is true as soon as
    [atr <= highf]; on a flat strategy with a resting entry order the
    handler then cancels that order and calls [ClosePosition].  The
    one-minute handler of the same strategy guards all three disjuncts and
    does nothing on a flat strategy. *)
Theorem flat_exit_fires_in_klineHandler :
  sellPrice Example.flat = 0 /\ buyPrice Example.flat = 0
  /\ Elliottwave.exitShortCondition false (5 # 100) 1 100 Example.flat
     = Some (true, Example.flat)
  /\ Elliottwave.exitShortCondition1m (5 # 100) 1 100 Example.flat
     = Some (false, Example.flat)
  /\ (exists s',
        Elliottwave.klineHandler 1 Example.view Example.calm Example.bar
          Example.resting = Some (tt, s')
        /\ activeMakerOrders (executor s') = []
        /\ trace (executor s') = [Pump; ExCancel [Example.buyOrder 1 100] true])
  /\ Elliottwave.klineHandler1m 1 Example.view Example.calm Example.bar
       Example.flat = Some (tt, Example.flat).
Proof.
  split; [reflexivity |]. split; [reflexivity |].
  split; [vm_compute; reflexivity |].
  split; [vm_compute; reflexivity |].
  split; [| vm_compute; reflexivity].
  eexists. split; [vm_compute; reflexivity |]. split; reflexivity.
Qed.

(** ** Retries of the executor *)

(** [CancelOrders] asks the exchange once, and once more only when the
    first request failed; it returns the answer to the last request. *)
Lemma CancelOrders_retries_once orders e :
  let first := cancel_fails (session e) (length (trace e)) orders in
  let second := cancel_fails (session e) (S (length (trace e))) orders in
  CancelOrders orders e =
  if first then
    Some (if second then Some ErrCancel else None,
          set_trace (ExCancel orders (negb second)
                       :: ExCancel orders false :: trace e) e)
  else Some (None, set_trace (ExCancel orders true :: trace e) e).
Proof.
  cbn. unfold CancelOrders, bind, ret. rewrite Exchange_CancelOrders_eq.
  destruct (cancel_fails (session e) (length (trace e)) orders); [| reflexivity].
  rewrite Exchange_CancelOrders_eq. cbn.
  destruct (cancel_fails (session e) (S (length (trace e))) orders); reflexivity.
Qed.

Lemma placements_app l1 l2 :
  placements (l1 ++ l2) = placements l2 ++ placements l1.
Proof.
  induction l1 as [| ev l1 IH]; cbn; [rewrite List.app_nil_r; reflexivity |].
  destruct ev; rewrite ?IH, ?List.app_assoc; reflexivity.
Qed.

Lemma refusedFrom_bound answers : forall i,
  Forall (fun k => (i <= k < i + length answers)%nat) (refusedFrom i answers).
Proof.
  induction answers as [| [|] rest IH]; intros i; cbn; [constructor | |].
  - eapply List.Forall_impl; [| apply (IH (S i))]. cbn. intros; lia.
  - constructor; [lia |].
    eapply List.Forall_impl; [| apply (IH (S i))]. cbn. intros; lia.
Qed.

(** The first pass sends every order of the batch once, in order, and
    reports the positions of the refused ones. *)
Lemma BatchPlaceOrder_from_spec os : forall i e,
  exists created errIdx er e' new,
    BatchPlaceOrder_from i os e = Some (created, errIdx, er, e')
    /\ trace e' = new ++ trace e
    /\ Forall isPlacement new
    /\ map fst (placements new) = os
    /\ errIdx = refusedFrom i (map snd (placements new))
    /\ session e' = session e
    /\ activeMakerOrders e' = activeMakerOrders e
    /\ orderStore e' = orderStore e.
Proof.
  induction os as [| o rest IH]; intros i e.
  - exists [], [], None, e, []. repeat split; auto.
  - cbn [BatchPlaceOrder_from]. unfold bind at 1.
    rewrite Exchange_SubmitOrder_eq.
    destruct (place_fails (session e) (length (trace e)) o) eqn:Ef.
    + destruct (IH (S i) (set_trace (ExPlace o false :: trace e) e))
        as (created & errIdx & er & e' & new & Hrun & Htr & Hpl & Hos & Hidx
            & Hses & Hb & Hst).
      unfold bind, ret. rewrite Hrun.
      eexists _, _, _, e', (new ++ [ExPlace o false]).
      split; [reflexivity |].
      split; [rewrite Htr; cbn; rewrite <- List.app_assoc; reflexivity |].
      split; [apply List.Forall_app; split; [exact Hpl |];
              constructor; [eexists _, _; reflexivity | constructor] |].
      rewrite placements_app. cbn.
      split; [rewrite Hos; reflexivity |].
      split; [rewrite Hidx; reflexivity |]. auto.
    + destruct (IH (S i) (set_nextID (N.succ (nextID e))
                            (set_trace (ExPlace o true :: trace e) e)))
        as (created & errIdx & er & e' & new & Hrun & Htr & Hpl & Hos & Hidx
            & Hses & Hb & Hst).
      unfold bind, ret. rewrite Hrun.
      eexists _, _, _, e', (new ++ [ExPlace o true]).
      split; [reflexivity |].
      split; [rewrite Htr; cbn; rewrite <- List.app_assoc; reflexivity |].
      split; [apply List.Forall_app; split; [exact Hpl |];
              constructor; [eexists _, _; reflexivity | constructor] |].
      rewrite placements_app. cbn.
      split; [rewrite Hos; reflexivity |].
      split; [rewrite Hidx; reflexivity |]. auto.
Qed.

(** The retry sends the order at every listed position once more. *)
Lemma BatchRetryPlaceOrder_spec os errIdx : forall e,
  Forall (fun k => (k < length os)%nat) errIdx ->
  exists created er e' new,
    BatchRetryPlaceOrder errIdx os e = Some (created, er, e')
    /\ trace e' = new ++ trace e
    /\ Forall isPlacement new
    /\ map (fun x => Some (fst x)) (placements new) = map (nth_error os) errIdx
    /\ session e' = session e
    /\ activeMakerOrders e' = activeMakerOrders e
    /\ orderStore e' = orderStore e.
Proof.
  induction errIdx as [| k rest IH]; intros e Hk.
  - exists [], None, e, []. repeat split; auto.
  - inversion Hk as [| ? ? Hlt Hrest]; subst.
    cbn [BatchRetryPlaceOrder].
    destruct (nth_error os k) as [o |] eqn:Eo;
      [| apply nth_error_None in Eo; lia].
    unfold bind at 1. rewrite Exchange_SubmitOrder_eq.
    destruct (place_fails (session e) (length (trace e)) o) eqn:Ef.
    + destruct (IH (set_trace (ExPlace o false :: trace e) e) Hrest)
        as (created & er & e' & new & Hrun & Htr & Hpl & Hos & Hses & Hb & Hst).
      unfold bind, ret. rewrite Hrun.
      eexists _, _, e', (new ++ [ExPlace o false]).
      split; [reflexivity |].
      split; [rewrite Htr; cbn; rewrite <- List.app_assoc; reflexivity |].
      split; [apply List.Forall_app; split; [exact Hpl |];
              constructor; [eexists _, _; reflexivity | constructor] |].
      rewrite placements_app. cbn. rewrite Hos, Eo. auto.
    + destruct (IH (set_nextID (N.succ (nextID e))
                      (set_trace (ExPlace o true :: trace e) e)) Hrest)
        as (created & er & e' & new & Hrun & Htr & Hpl & Hos & Hses & Hb & Hst).
      unfold bind, ret. rewrite Hrun.
      eexists _, _, e', (new ++ [ExPlace o true]).
      split; [reflexivity |].
      split; [rewrite Htr; cbn; rewrite <- List.app_assoc; reflexivity |].
      split; [apply List.Forall_app; split; [exact Hpl |];
              constructor; [eexists _, _; reflexivity | constructor] |].
      rewrite placements_app. cbn. rewrite Hos, Eo. auto.
Qed.

(** [SubmitOrders] on any batch: unless formatting fails, every order is
    sent once, then exactly the refused ones are sent once more, and the
    trade collector is pumped once; the orders it returns are the ones it
    adds to the order store and to the active order book. *)
Lemma SubmitOrders_retries_refused_once os e :
  exists created er e' new,
    SubmitOrders os e = Some (created, er, e')
    /\ trace e' = new ++ trace e
    /\ ((new = [] /\ created = [] /\ er <> None
         /\ activeMakerOrders e' = activeMakerOrders e
         /\ orderStore e' = orderStore e)
        \/ exists first retry,
             new = Pump :: retry ++ first
             /\ Forall isPlacement first /\ Forall isPlacement retry
             /\ map fst (placements first) = os
             /\ map (fun x => Some (fst x)) (placements retry)
                = map (nth_error os)
                    (refusedFrom 0 (map snd (placements first)))
             /\ activeMakerOrders e'
                = addOrders created (activeMakerOrders e)
             /\ orderStore e' = addOrders created (orderStore e)).
Proof.
  unfold SubmitOrders, FormatOrders, bind at 1, bind at 1, get, ret.
  destruct (format_fails (session e) os) eqn:Ef.
  { exists [], (Some ErrFormat), e, []. split; [reflexivity |].
    split; [reflexivity |]. left. repeat split; auto; discriminate. }
  cbn beta iota.
  destruct (BatchPlaceOrder_from_spec os 0 e)
    as (created & errIdx & er & e1 & first & Hrun & Htr & Hpl & Hos & Hidx
        & Hses & Hb & Hst).
  unfold BatchPlaceOrder, bind at 1. rewrite Hrun. cbn beta iota.
  destruct errIdx as [| k ks] eqn:Eidx; cbn [length Nat.ltb Nat.leb].
  - unfold bind, ret, orderStore_Add, activeMakerOrders_Add,
      tradeCollector_Process, emit, modify. cbn.
    eexists _, _, _, (Pump :: first). split; [reflexivity |].
    split; [cbn; rewrite Htr; reflexivity |].
    right. exists first, []. cbn. rewrite <- Hidx, Hb, Hst.
    repeat split; auto.
  - destruct (BatchRetryPlaceOrder_spec os (k :: ks) e1)
      as (created2 & er2 & e2 & retry & Hrun2 & Htr2 & Hpl2 & Hos2 & Hses2
          & Hb2 & Hst2).
    { rewrite Hidx. eapply List.Forall_impl;
        [| apply (refusedFrom_bound (map snd (placements first)) 0)].
      cbn. intros a Ha. rewrite length_map in Ha.
      rewrite <- Hos, length_map. lia. }
    unfold bind at 1, bind at 1. rewrite Hrun2. cbn beta iota.
    destruct er2;
      unfold bind, ret, orderStore_Add, activeMakerOrders_Add,
        tradeCollector_Process, emit, modify; cbn;
      eexists _, _, _, (Pump :: retry ++ first); (split; [reflexivity |]);
      (split; [cbn; rewrite Htr2, Htr, List.app_assoc; reflexivity |]);
      right; exists first, retry; rewrite <- Hidx, Hb2, Hst2, Hb, Hst;
      repeat split; auto.
Qed.

(** C7 does not hold for [SubmitOrders].  Both orders of a batch are
    refused at first; on the retry the buy is refused again and the sell is
    accepted.  The exchange holds the sell order, but [SubmitOrders] returns
    no created order and neither the order store nor the active order book
    learns of it.  An order accepted in the first pass, next to one that is
    refused twice, is kept. *)
Theorem retried_sibling_is_dropped :
  (exists e' er,
     SubmitOrders [Example.buy99; Example.sell101] (Example.idle Example.flaky)
     = Some ([], Some er, e')
     /\ In (ExPlace Example.sell101 true) (trace e')
     /\ orderStore e' = []
     /\ activeMakerOrders e' = [])
  /\ (exists e' er,
        SubmitOrders [Example.buy99; Example.sell101]
          (Example.idle Example.firstOnly)
        = Some ([newOrder 1 Example.buy99], Some er, e')
        /\ trace e' = [Pump; ExPlace Example.sell101 false;
                       ExPlace Example.sell101 false;
                       ExPlace Example.buy99 true]
        /\ orderStore e' = [newOrder 1 Example.buy99]
        /\ activeMakerOrders e' = [newOrder 1 Example.buy99]).
Proof.
  split.
  - eexists _, _. split; [vm_compute; reflexivity |].
    split; [cbn; auto | split; reflexivity].
  - eexists _, _. split; [vm_compute; reflexivity |].
    split; [reflexivity | split; reflexivity].
Qed.

(** ** GracefulCancel *)

Lemma ActiveOrderBook_GracefulCancel_eq e :
  ActiveOrderBook_GracefulCancel e =
  if cancel_fails (session e) (length (trace e)) (activeMakerOrders e)
  then Some (Some ErrCancel,
             set_trace (ExCancel (activeMakerOrders e) false :: trace e) e)
  else Some (None,
             set_activeMakerOrders []
               (set_trace (ExCancel (activeMakerOrders e) true :: trace e) e)).
Proof.
  unfold ActiveOrderBook_GracefulCancel, bind, gets, modify, ret.
  rewrite Exchange_CancelOrders_eq.
  destruct (cancel_fails _ _ _); reflexivity.
Qed.

(** What one call of [GracefulCancel] does. *)
Lemma GracefulCancel_cases e :
  exists er e',
    GracefulCancel e = Some (er, e')
    /\ session e' = session e
    /\ orderStore e' = orderStore e
    /\ nextID e' = nextID e
    /\ ((er = None /\ activeMakerOrders e = [] /\ e' = e)
        \/ (er = None /\ activeMakerOrders e <> [] /\ activeMakerOrders e' = []
            /\ exists failed,
                 trace e' = Pump :: ExCancel (activeMakerOrders e) true
                              :: failed ++ trace e
                 /\ (failed = [] \/ failed = [ExCancel (activeMakerOrders e) false]))
        \/ (er <> None /\ activeMakerOrders e <> []
            /\ activeMakerOrders e' = activeMakerOrders e
            /\ trace e' = ExCancel (activeMakerOrders e) false
                            :: ExCancel (activeMakerOrders e) false :: trace e)).
Proof.
  unfold GracefulCancel, GracefulCancelActiveOrderBook, bind, gets, ret, NumOfOrders.
  destruct (activeMakerOrders e) as [| o os] eqn:Eb; cbn [length Nat.eqb].
  { exists None, e. repeat split; auto. }
  rewrite ActiveOrderBook_GracefulCancel_eq, Eb.
  destruct (cancel_fails (session e) (length (trace e)) (o :: os)) eqn:E1.
  - rewrite ActiveOrderBook_GracefulCancel_eq. cbn. rewrite Eb.
    destruct (cancel_fails (session e) (S (length (trace e))) (o :: os)) eqn:E2.
    + eexists _, _. split; [reflexivity |]. cbn. repeat split; auto.
      right. right. repeat split; auto; discriminate.
    + eexists _, _. split; [reflexivity |]. cbn. repeat split; auto.
      right. left. repeat split; auto; try discriminate.
      exists [ExCancel (o :: os) false]. split; [reflexivity | auto].
  - eexists _, _. split; [reflexivity |]. cbn. repeat split; auto.
    right. left. repeat split; auto; try discriminate.
    exists []. split; [reflexivity | auto].
Qed.

(** C10.  After a [GracefulCancel] that returned nil the active order book
    is empty, and a second call right after it returns nil and leaves the
    executor as it is: nothing is sent to the exchange.  The first call
    obtained exactly one accepted cancel request for the whole book (after
    at most one refused one), or found the book empty. *)
Theorem GracefulCancel_twice e e1 :
  GracefulCancel e = Some (None, e1) ->
  NumOfOrders e1 = 0%nat
  /\ GracefulCancel e1 = Some (None, e1)
  /\ (e1 = e
      \/ exists failed,
           trace e1 = Pump :: ExCancel (activeMakerOrders e) true
                        :: failed ++ trace e
           /\ (failed = [] \/ failed = [ExCancel (activeMakerOrders e) false])).
Proof.
  intros H.
  destruct (GracefulCancel_cases e) as (er & e' & Hrun & _ & _ & _ & Hcases).
  rewrite Hrun in H. inversion H; subst er e'. clear H.
  assert (Hempty : activeMakerOrders e1 = []).
  { destruct Hcases as [(_ & Hb & ->) | [(_ & _ & Hb & _) | (Hne & _)]];
      [exact Hb | exact Hb | congruence]. }
  split; [unfold NumOfOrders; rewrite Hempty; reflexivity |].
  split.
  - unfold GracefulCancel, GracefulCancelActiveOrderBook, bind, gets, ret,
      NumOfOrders. rewrite Hempty. reflexivity.
  - destruct Hcases as [(_ & _ & ->) | [(_ & _ & _ & failed & Htr & Hf) | (Hne & _)]];
      [left; reflexivity | right; exists failed; auto | congruence].
Qed.

Lemma GracefulCancel_twice_witness :
  NumOfOrders
    (set_activeMakerOrders []
       (set_trace [Pump; ExCancel [Example.buyOrder 1 100] true]
          (Example.holding Example.quiet (Example.buyOrder 1 100)))) = 0%nat
  /\ GracefulCancel
       (set_activeMakerOrders []
          (set_trace [Pump; ExCancel [Example.buyOrder 1 100] true]
             (Example.holding Example.quiet (Example.buyOrder 1 100))))
     = Some (None,
             set_activeMakerOrders []
               (set_trace [Pump; ExCancel [Example.buyOrder 1 100] true]
                  (Example.holding Example.quiet (Example.buyOrder 1 100)))).
Proof.
  destruct (GracefulCancel_twice
              (Example.holding Example.quiet (Example.buyOrder 1 100))
              (set_activeMakerOrders []
                 (set_trace [Pump; ExCancel [Example.buyOrder 1 100] true]
                    (Example.holding Example.quiet (Example.buyOrder 1 100)))))
    as (H1 & H2 & _).
  - vm_compute. reflexivity.
  - split; [exact H1 | exact H2].
Defined.

(** ** smartCancel *)

Lemma ActiveOrderBook_Cancel_eq o e :
  ActiveOrderBook_Cancel o e =
  if cancel_fails (session e) (length (trace e)) [o]
  then Some (Some ErrCancel, set_trace (ExCancel [o] false :: trace e) e)
  else Some (None,
             set_activeMakerOrders
               (removeOrder (OrderID o) (activeMakerOrders e))
               (set_trace (ExCancel [o] true :: trace e) e)).
Proof.
  unfold ActiveOrderBook_Cancel, bind, modify, ret.
  rewrite Exchange_CancelOrders_eq.
  destruct (cancel_fails _ _ _); reflexivity.
Qed.

(** What one call of [GracefulCancelOrder] does. *)
Lemma GracefulCancelOrder_cases o e :
  exists er e' new,
    GracefulCancelOrder o e = Some (er, e')
    /\ noEntryPlaced new
    /\ trace e' = new ++ trace e
    /\ ((er = None /\ activeMakerOrders e = [] /\ e' = e /\ new = [])
        \/ (er = None /\ activeMakerOrders e <> []
            /\ activeMakerOrders e' = removeOrder (OrderID o) (activeMakerOrders e)
            /\ In (ExCancel [o] true) new)
        \/ (er <> None /\ activeMakerOrders e <> []
            /\ activeMakerOrders e' = activeMakerOrders e
            /\ In (ExCancel [o] false) new)).
Proof.
  assert (Hno : forall l : list Event,
            (forall ev, In ev l -> ev = Pump \/ exists os ok, ev = ExCancel os ok) ->
            noEntryPlaced l).
  { intros l Hl o' ok Hin. apply Hl in Hin as [Hin | (os & ok' & Hin)];
      discriminate. }
  unfold GracefulCancelOrder, bind, gets, ret, NumOfOrders.
  destruct (activeMakerOrders e) as [| x xs] eqn:Eb; cbn [length Nat.eqb].
  { exists None, e, []. split; [reflexivity |].
    split; [intros ? ? [] |]. split; [reflexivity |]. left. auto. }
  rewrite ActiveOrderBook_Cancel_eq, Eb.
  destruct (cancel_fails (session e) (length (trace e)) [o]) eqn:E1.
  - rewrite ActiveOrderBook_Cancel_eq. cbn. rewrite Eb.
    destruct (cancel_fails (session e) (S (length (trace e))) [o]) eqn:E2.
    + eexists _, _, [ExCancel [o] false; ExCancel [o] false].
      split; [reflexivity |].
      split; [apply Hno; cbn; intros ev [<- | [<- | []]]; eauto |].
      split; [reflexivity |].
      right. right. cbn. repeat split; auto; discriminate.
    + eexists _, _, [Pump; ExCancel [o] true; ExCancel [o] false].
      split; [reflexivity |].
      split; [apply Hno; cbn; intros ev [<- | [<- | [<- | []]]]; eauto |].
      split; [reflexivity |].
      right. left. cbn. repeat split; auto; discriminate.
  - eexists _, _, [Pump; ExCancel [o] true].
    split; [reflexivity |].
    split; [apply Hno; cbn; intros ev [<- | [<- | []]]; eauto |].
    split; [reflexivity |].
    right. left. cbn. repeat split; auto; discriminate.
Qed.

Lemma deleteAll_lookup os : forall c k,
  c !! k = None \/ (exists o, In o os /\ OrderID o = k) ->
  deleteAll os c !! k = None.
Proof.
  unfold deleteAll.
  induction os as [| x os IH]; intros c k H; cbn [fold_left].
  - destruct H as [H | (o & [] & _)]. exact H.
  - apply IH. destruct H as [H | (o & [-> | Hin] & Hk)].
    + left. destruct (decide (OrderID x = k)) as [-> | Hne].
      * apply lookup_delete_eq.
      * rewrite lookup_delete_ne; auto.
    + left. subst k. apply lookup_delete_eq.
    + right. eauto.
Qed.

Lemma Drift_scan_spec s ind pricef d0 d1 ds orders :
  drift1m ind = d0 :: d1 :: ds ->
  Forall supported orders ->
  forall toCancel,
  exists b,
    Drift.smartCancel_scan s ind pricef orders toCancel = Some b
    /\ (toCancel = true -> b = true)
    /\ (forall o, In o orders -> isOpen o = true ->
          (PendingMinutes (cfg s) < age s o)%Z -> spared ind o = false ->
          b = true).
Proof.
  intros Hd Hsup. induction Hsup as [| x orders Hx _ IH]; intros toCancel.
  - exists toCancel. split; [reflexivity |]. split; [auto |]. intros o [].
  - cbn [Drift.smartCancel_scan]. rewrite Hd. cbn [nth_error].
    assert (Hlift : forall t,
      (isOpen x = true -> (PendingMinutes (cfg s) < age s x)%Z ->
       spared ind x = false -> t = true) ->
      (toCancel = true -> t = true) ->
      exists b,
        Drift.smartCancel_scan s ind pricef orders t = Some b
        /\ (toCancel = true -> b = true)
        /\ (forall o, In o (x :: orders) -> isOpen o = true ->
              (PendingMinutes (cfg s) < age s o)%Z -> spared ind o = false ->
              b = true)).
    { intros t Hx' Ht. destruct (IH t) as (b & Hb & Hkeep & Hall).
      exists b. split; [exact Hb |]. split; [auto |].
      intros o [<- | Hin] Ho Ha Hs; [apply Hkeep; auto | eapply Hall; eauto]. }
    unfold supported in Hx.
    assert (Hage : age s x =
      (minutesCounter s - counterOf (orderPendingCounter s) (OrderID x))%Z)
      by reflexivity.
    destruct (isOpen x) eqn:Eo; cbn [negb].
    2:{ apply Hlift; intros; auto; discriminate. }
    destruct (PendingMinutes (cfg s) <?
              minutesCounter s - counterOf (orderPendingCounter s) (OrderID x))%Z
      eqn:Ea.
    + destruct (Side x) eqn:Es; [| | congruence].
      * destruct (Qltb d1 d0) eqn:Eq; apply Hlift; intros; auto.
        unfold spared in *. rewrite Es, Hd in *. congruence.
      * destruct (Qltb d0 d1) eqn:Eq; apply Hlift; intros; auto.
        unfold spared in *. rewrite Es, Hd in *. congruence.
    + apply Z.ltb_ge in Ea.
      destruct (Side x) eqn:Es; [| | congruence].
      * destruct (Qle_bool _ _); apply Hlift; intros; auto; lia.
      * destruct (Qle_bool _ _); apply Hlift; intros; auto; lia.
Qed.

Lemma Drift_smartCancel_aged s ind pricef atr o d0 d1 ds :
  drift1m ind = d0 :: d1 :: ds ->
  Forall supported (activeMakerOrders (executor s)) ->
  In o (activeMakerOrders (executor s)) ->
  isOpen o = true ->
  (PendingMinutes (cfg s) < age s o)%Z ->
  spared ind o = false ->
  exists er s' new,
    Drift.smartCancel ind pricef atr s = Some ((0%Z, er), s')
    /\ trace (executor s') = new ++ trace (executor s)
    /\ (exists ok, In (ExCancel (activeMakerOrders (executor s)) ok) new)
    /\ (er = None ->
        In (ExCancel (activeMakerOrders (executor s)) true) new
        /\ activeMakerOrders (executor s') = []
        /\ orderPendingCounter s' !! OrderID o = None).
Proof.
  intros Hd Hsup Hin Ho Ha Hs.
  destruct (Drift_scan_spec s ind pricef d0 d1 ds _ Hd Hsup false)
    as (b & Hb & _ & Hall).
  assert (b = true) as -> by (eapply Hall; eauto).
  unfold Drift.smartCancel, bind, get, ret, modify, onExecutor.
  destruct (activeMakerOrders (executor s)) as [| x xs] eqn:Eb; [destruct Hin |].
  cbn [length Nat.ltb Nat.leb]. rewrite Hb.
  destruct (GracefulCancel_cases (executor s))
    as (er & e' & Hrun & _ & _ & _ & Hcases).
  rewrite Hrun. rewrite Eb in Hcases.
  destruct Hcases as [(_ & Hnil & _) | [(-> & _ & Hb' & failed & Htr & _) | (Hne & _ & _ & Htr)]].
  - discriminate.
  - eexists None, _, (Pump :: ExCancel (x :: xs) true :: failed).
    split; [reflexivity |]. cbn -[deleteAll].
    split; [exact Htr |].
    split; [exists true; cbn; auto |].
    intros _. split; [cbn; auto |]. split; [exact Hb' |].
    apply deleteAll_lookup. right. eauto.
  - destruct er as [x0 |]; [| congruence].
    eexists (Some x0), _, [ExCancel (x :: xs) false; ExCancel (x :: xs) false].
    split; [reflexivity |]. cbn.
    split; [exact Htr |].
    split; [exists false; auto | discriminate].
Qed.

(** C3, as stated, fails in drift: order 1 is in status New and ten bars
    old with a budget of five, the price-distance condition does not hold,
    and [smartCancel] neither contacts the exchange nor changes anything -
    the one-minute drift is falling and the order is a buy. *)
Lemma stale_buy_survives_falling_drift :
  In (Example.buyOrder 1 100) (activeMakerOrders (executor Example.stale))
  /\ isOpen (Example.buyOrder 1 100) = true
  /\ (PendingMinutes (cfg Example.stale)
      < age Example.stale (Example.buyOrder 1 100))%Z
  /\ Drift.smartCancel Example.falling 100 1 Example.stale
     = Some ((1%Z, None), Example.stale).
Proof.
  split; [cbn; auto |]. split; [reflexivity |]. split; [reflexivity |].
  vm_compute. reflexivity.
Qed.

Lemma In_removeOrder o id os :
  In o os -> OrderID o <> id -> In o (removeOrder id os).
Proof.
  intros Hin Hne. unfold removeOrder. apply filter_In. split; [exact Hin |].
  apply negb_true_iff, N.eqb_neq, Hne.
Qed.

Lemma removeOrder_In o id os : In o (removeOrder id os) -> In o os.
Proof. unfold removeOrder. intros H. apply filter_In in H. tauto. Qed.

Lemma hasID_false id os :
  hasID id os = false <-> forall o, In o os -> OrderID o <> id.
Proof.
  unfold hasID. split.
  - intros H o Hin Heq.
    assert (existsb (fun o => N.eqb (OrderID o) id) os = true).
    { apply existsb_exists. exists o. split; [exact Hin |]. apply N.eqb_eq, Heq. }
    congruence.
  - intros H. destruct (existsb _ os) eqn:E; [| reflexivity].
    apply existsb_exists in E as (o & Hin & Heq).
    apply N.eqb_eq in Heq. exfalso. eapply H; eauto.
Qed.

Lemma hasID_removeOrder id os : hasID id (removeOrder id os) = false.
Proof.
  apply hasID_false. intros o Hin. unfold removeOrder in Hin.
  apply filter_In in Hin as [_ Hne]. apply negb_true_iff, N.eqb_neq in Hne.
  exact Hne.
Qed.

Lemma hasID_removeOrder_other id id' os :
  hasID id os = false -> hasID id (removeOrder id' os) = false.
Proof.
  rewrite !hasID_false. intros H o Hin. apply H. eapply removeOrder_In, Hin.
Qed.

(** One round of elliottwave's loop over the snapshot. *)
Lemma Elliottwave_round_eq ind pricef x rest left s :
  Elliottwave.smartCancel_loop ind pricef (x :: rest) left s =
  if negb (isOpen x) then Elliottwave.smartCancel_loop ind pricef rest left s
  else
    let cancel :=
      Elliottwave.smartCancel_loop ind pricef rest left (afterCancelOrder x s) in
    let keep := Elliottwave.smartCancel_loop ind pricef rest (left + 1)%Z s in
    if (PendingMinutes (cfg s) <=? age s x)%Z then cancel
    else match Side x with
         | SideTypeBuy =>
             if Qle_bool (Price x + atr ind * 2) pricef then cancel else keep
         | SideTypeSell =>
             if Qle_bool pricef (Price x - atr ind * 2) then cancel else keep
         | SideTypeSelf => None
         end.
Proof.
  cbn [Elliottwave.smartCancel_loop].
  destruct (isOpen x); cbn [negb]; [| reflexivity].
  unfold bind at 1, get at 1. fold (age s x).
  assert (Hc : (let* e := onExecutor (GracefulCancelOrder x) in
                let* _ := match e with
                          | Some _ => ret tt
                          | None =>
                              modify (fun s0 =>
                                set_orderPendingCounter
                                  (delete (OrderID x) (orderPendingCounter s0)) s0)
                          end in
                Elliottwave.smartCancel_loop ind pricef rest left) s
               = Elliottwave.smartCancel_loop ind pricef rest left
                   (afterCancelOrder x s)).
  { unfold bind, onExecutor, afterCancelOrder, modify, ret.
    destruct (GracefulCancelOrder_cases x (executor s))
      as (er & e' & new & Hrun & _).
    rewrite Hrun. destruct er; reflexivity. }
  cbv zeta.
  destruct (PendingMinutes (cfg s) <=? age s x)%Z; [exact Hc |].
  destruct (Side x); [| | reflexivity];
    destruct (Qle_bool _ _); [exact Hc | reflexivity | exact Hc | reflexivity].
Qed.

Lemma Elliottwave_round ind pricef x rest left s :
  supported x ->
  Elliottwave.smartCancel_loop ind pricef (x :: rest) left s =
  if negb (isOpen x) then Elliottwave.smartCancel_loop ind pricef rest left s
  else if (PendingMinutes (cfg s) <=? age s x)%Z
          || match Side x with
             | SideTypeBuy => Qle_bool (Price x + atr ind * 2) pricef
             | _ => Qle_bool pricef (Price x - atr ind * 2)
             end
  then Elliottwave.smartCancel_loop ind pricef rest left (afterCancelOrder x s)
  else Elliottwave.smartCancel_loop ind pricef rest (left + 1)%Z s.
Proof.
  intros Hx. unfold supported in Hx. rewrite Elliottwave_round_eq. cbv zeta.
  destruct (negb (isOpen x)); [reflexivity |].
  destruct (PendingMinutes (cfg s) <=? age s x)%Z; cbn [orb]; [reflexivity |].
  destruct (Side x); [reflexivity | reflexivity | congruence].
Qed.

Lemma afterCancelOrder_cases o s :
  exists new,
    cfg (afterCancelOrder o s) = cfg s
    /\ minutesCounter (afterCancelOrder o s) = minutesCounter s
    /\ trace (executor (afterCancelOrder o s)) = new ++ trace (executor s)
    /\ noEntryPlaced new
    /\ ((activeMakerOrders (executor (afterCancelOrder o s))
         = removeOrder (OrderID o) (activeMakerOrders (executor s))
         /\ orderPendingCounter (afterCancelOrder o s)
            = delete (OrderID o) (orderPendingCounter s)
         /\ (activeMakerOrders (executor s) <> [] -> In (ExCancel [o] true) new))
        \/ (activeMakerOrders (executor (afterCancelOrder o s))
            = activeMakerOrders (executor s)
            /\ orderPendingCounter (afterCancelOrder o s) = orderPendingCounter s
            /\ In (ExCancel [o] false) new)).
Proof.
  unfold afterCancelOrder.
  destruct (GracefulCancelOrder_cases o (executor s))
    as (er & e' & new & Hrun & Hno & Htr & Hcases).
  rewrite Hrun. exists new.
  destruct Hcases as [(-> & Hb & -> & ->) | [(-> & Hb & Hb' & Hin) | (Hne & Hb & Hb' & Hin)]].
  - cbn. do 3 (split; [reflexivity |]). split; [exact Hno |].
    left. rewrite Hb. cbn. repeat split; auto; congruence.
  - cbn. do 2 (split; [reflexivity |]). split; [exact Htr |].
    split; [exact Hno |]. left. auto.
  - destruct er; [| congruence]. cbn.
    do 2 (split; [reflexivity |]). split; [exact Htr |].
    split; [exact Hno |]. right. auto.
Qed.

Lemma Elliottwave_loop_frame ind pricef orders :
  Forall supported orders ->
  forall left s,
  exists left' s' new,
    Elliottwave.smartCancel_loop ind pricef orders left s = Some (left', s')
    /\ cfg s' = cfg s
    /\ minutesCounter s' = minutesCounter s
    /\ trace (executor s') = new ++ trace (executor s)
    /\ (forall id, hasID id (activeMakerOrders (executor s)) = false ->
          hasID id (activeMakerOrders (executor s')) = false)
    /\ (forall id, orderPendingCounter s !! id = None ->
          orderPendingCounter s' !! id = None).
Proof.
  induction 1 as [| x rest Hx _ IH]; intros left s.
  - exists left, s, []. repeat split; auto.
  - rewrite (Elliottwave_round _ _ _ _ _ _ Hx).
    assert (Hsame : forall l,
      exists left' s' new,
        Elliottwave.smartCancel_loop ind pricef rest l s = Some (left', s')
        /\ cfg s' = cfg s /\ minutesCounter s' = minutesCounter s
        /\ trace (executor s') = new ++ trace (executor s)
        /\ (forall id, hasID id (activeMakerOrders (executor s)) = false ->
              hasID id (activeMakerOrders (executor s')) = false)
        /\ (forall id, orderPendingCounter s !! id = None ->
              orderPendingCounter s' !! id = None)) by (intros l; apply IH).
    destruct (negb (isOpen x)); [apply Hsame |].
    destruct (_ || _); [| apply Hsame].
    destruct (afterCancelOrder_cases x s) as (new1 & Hcfg & Hmc & Htr & _ & Hcases).
    destruct (IH left (afterCancelOrder x s))
      as (left' & s' & new2 & Hrun & Hcfg' & Hmc' & Htr' & Hbook & Hopc).
    exists left', s', (new2 ++ new1).
    split; [exact Hrun |]. split; [congruence |]. split; [congruence |].
    split; [rewrite Htr', Htr; apply app_assoc |].
    destruct Hcases as [(Hb & Hc & _) | (Hb & Hc & _)]; split; intros id Hid.
    + apply Hbook. rewrite Hb. apply hasID_removeOrder_other, Hid.
    + apply Hopc. rewrite Hc.
      destruct (decide (OrderID x = id)) as [-> | Hne];
        [apply lookup_delete_eq | rewrite lookup_delete_ne; auto].
    + apply Hbook. rewrite Hb. exact Hid.
    + apply Hopc. rewrite Hc. exact Hid.
Qed.

Lemma Elliottwave_loop_cancels ind pricef orders :
  Forall supported orders ->
  List.NoDup (map OrderID orders) ->
  forall left s o,
    In o orders ->
    In o (activeMakerOrders (executor s)) ->
    isOpen o = true ->
    (PendingMinutes (cfg s) <= age s o)%Z ->
    exists left' s' new,
      Elliottwave.smartCancel_loop ind pricef orders left s = Some (left', s')
      /\ trace (executor s') = new ++ trace (executor s)
      /\ ((In (ExCancel [o] true) new
           /\ hasID (OrderID o) (activeMakerOrders (executor s')) = false
           /\ orderPendingCounter s' !! OrderID o = None)
          \/ In (ExCancel [o] false) new).
Proof.
  induction 1 as [| x rest Hx Hrest IH]; intros Hnd left s o Hin Hbook Ho Ha;
    [destruct Hin |].
  cbn [map] in Hnd. inversion Hnd as [| ? ? Hnotin Hnd']; subst.
  rewrite (Elliottwave_round _ _ _ _ _ _ Hx).
  destruct Hin as [-> | Hin].
  - rewrite Ho. cbn [negb].
    apply Z.leb_le in Ha. rewrite Ha. cbn [orb].
    destruct (afterCancelOrder_cases o s) as (new1 & Hcfg & Hmc & Htr & _ & Hcases).
    destruct (Elliottwave_loop_frame ind pricef rest Hrest left
                (afterCancelOrder o s))
      as (left' & s' & new2 & Hrun & _ & _ & Htr' & Hfb & Hfc).
    exists left', s', (new2 ++ new1).
    split; [exact Hrun |].
    split; [rewrite Htr', Htr; apply app_assoc |].
    destruct Hcases as [(Hb & Hc & Hacc) | (_ & _ & Hrej)].
    + left. split; [apply in_or_app; right; apply Hacc |].
      * intros Hnil. rewrite Hnil in Hbook. destruct Hbook.
      * split.
        -- apply Hfb. rewrite Hb. apply hasID_removeOrder.
        -- apply Hfc. rewrite Hc. apply lookup_delete_eq.
    + right. apply in_or_app. right. exact Hrej.
  - assert (Hne : OrderID x <> OrderID o).
    { intros Heq. apply Hnotin. rewrite Heq. apply in_map, Hin. }
    assert (Hsame : forall l,
      exists left' s' new,
        Elliottwave.smartCancel_loop ind pricef rest l s = Some (left', s')
        /\ trace (executor s') = new ++ trace (executor s)
        /\ ((In (ExCancel [o] true) new
             /\ hasID (OrderID o) (activeMakerOrders (executor s')) = false
             /\ orderPendingCounter s' !! OrderID o = None)
            \/ In (ExCancel [o] false) new))
      by (intros l; apply IH; auto).
    destruct (negb (isOpen x)); [apply Hsame |].
    destruct (_ || _); [| apply Hsame].
    destruct (afterCancelOrder_cases x s) as (new1 & Hcfg & Hmc & Htr & _ & Hcases).
    destruct (IH Hnd' left (afterCancelOrder x s) o Hin)
      as (left' & s' & new2 & Hrun & Htr' & Hres); auto.
    + destruct Hcases as [(Hb & _) | (Hb & _)]; rewrite Hb;
        [apply In_removeOrder; auto | exact Hbook].
    + unfold age, counterOf in *. rewrite Hcfg, Hmc.
      destruct Hcases as [(_ & Hc & _) | (_ & Hc & _)]; rewrite Hc;
        [rewrite lookup_delete_ne; auto | exact Ha].
    + exists left', s', (new2 ++ new1).
      split; [exact Hrun |].
      split; [rewrite Htr', Htr; apply app_assoc |].
      destruct Hres as [(Hacc & Hrest') | Hrej];
        [left; split; [apply in_or_app; left; exact Hacc | exact Hrest']
        | right; apply in_or_app; left; exact Hrej].
Qed.

(** C3, amended.  Whatever the price distance:
    - in drift, an order in status New or PartiallyFilled that is older
      than [PendingMinutes] and is not spared by the drift gate (a buy
      while the one-minute drift falls, a sell while it rises) makes
      [smartCancel] request the cancellation of the whole book; when the
      executor reports success the book is empty and the order's age entry
      is deleted;
    - in elliottwave, for an order in status New or PartiallyFilled whose
      age has reached [PendingMinutes], [smartCancel] requests the
      cancellation of that order; either the exchange accepts a request,
      and then the order has left the book and its age entry is deleted,
      or it refuses. *)
Theorem smartCancel_cancels_aged_orders :
  (forall s ind pricef atr o d0 d1 ds,
     drift1m ind = d0 :: d1 :: ds ->
     Forall supported (activeMakerOrders (executor s)) ->
     In o (activeMakerOrders (executor s)) ->
     isOpen o = true ->
     (PendingMinutes (cfg s) < age s o)%Z ->
     spared ind o = false ->
     exists er s' new,
       Drift.smartCancel ind pricef atr s = Some ((0%Z, er), s')
       /\ trace (executor s') = new ++ trace (executor s)
       /\ (exists ok, In (ExCancel (activeMakerOrders (executor s)) ok) new)
       /\ (er = None ->
           In (ExCancel (activeMakerOrders (executor s)) true) new
           /\ activeMakerOrders (executor s') = []
           /\ orderPendingCounter s' !! OrderID o = None))
  /\ (forall s ind pricef o,
        Forall supported (activeMakerOrders (executor s)) ->
        List.NoDup (map OrderID (activeMakerOrders (executor s))) ->
        In o (activeMakerOrders (executor s)) ->
        isOpen o = true ->
        (PendingMinutes (cfg s) <= age s o)%Z ->
        exists left s' new,
          Elliottwave.smartCancel ind pricef s = Some (left, s')
          /\ trace (executor s') = new ++ trace (executor s)
          /\ ((In (ExCancel [o] true) new
               /\ hasID (OrderID o) (activeMakerOrders (executor s')) = false
               /\ orderPendingCounter s' !! OrderID o = None)
              \/ In (ExCancel [o] false) new)).
Proof.
  split.
  - intros. eapply Drift_smartCancel_aged; eauto.
  - intros s ind pricef o Hsup Hnd Hin Ho Ha.
    unfold Elliottwave.smartCancel, bind, get.
    destruct (activeMakerOrders (executor s)) as [| x xs] eqn:Eb; [destruct Hin |].
    cbn [length Nat.ltb Nat.leb]. rewrite <- Eb in *.
    apply Elliottwave_loop_cancels; auto.
Qed.

Lemma smartCancel_cancels_aged_orders_witness :
  exists er s' new,
    Drift.smartCancel Example.calm 100 1 Example.stale = Some ((0%Z, er), s')
    /\ trace (executor s') = new ++ trace (executor Example.stale)
    /\ (exists ok,
          In (ExCancel (activeMakerOrders (executor Example.stale)) ok) new)
    /\ (er = None ->
        In (ExCancel (activeMakerOrders (executor Example.stale)) true) new
        /\ activeMakerOrders (executor s') = []
        /\ orderPendingCounter s' !! OrderID (Example.buyOrder 1 100) = None).
Proof.
  destruct smartCancel_cancels_aged_orders as [H _].
  apply (H Example.stale Example.calm 100 1 (Example.buyOrder 1 100) 0 0 []).
  - reflexivity.
  - repeat constructor. discriminate.
  - cbn. auto.
  - reflexivity.
  - reflexivity.
  - reflexivity.
Defined.

(** ** Entry orders *)

Section Hoare.

Context {S : Type}.

Lemma hoare_ret {A} (Q : A -> S -> Prop) (a : A) :
  hoare (Q a) (ret a) Q.
Proof. intros s a' s' HP H. inversion H; subst. exact HP. Qed.

Lemma hoare_bind {A B} (P : S -> Prop) (c : M S A) (Q : A -> S -> Prop)
    (k : A -> M S B) (R : B -> S -> Prop) :
  hoare P c Q -> (forall a, hoare (Q a) (k a) R) -> hoare P (bind c k) R.
Proof.
  intros Hc Hk s b s' HP H. unfold bind in H.
  destruct (c s) as [[a s1] |] eqn:E; [| discriminate].
  eapply Hk; [eapply Hc; eauto | exact H].
Qed.

Lemma hoare_conseq {A} (P P' : S -> Prop) (c : M S A) (Q Q' : A -> S -> Prop) :
  hoare P' c Q' -> (forall s, P s -> P' s) -> (forall a s, Q' a s -> Q a s) ->
  hoare P c Q.
Proof. intros Hc HP HQ s a s' H Hrun. eapply HQ, Hc; eauto. Qed.

Lemma hoare_get (P : S -> Prop) :
  hoare P get (fun a s => a = s /\ P s).
Proof. intros s a s' HP H. inversion H; subst. auto. Qed.

Lemma hoare_modify (P : S -> Prop) (f : S -> S) (Q : unit -> S -> Prop) :
  (forall s, P s -> Q tt (f s)) -> hoare P (modify f) Q.
Proof. intros Hf s [] s' HP H. inversion H; subst. auto. Qed.

Lemma hoare_panic {A} (P : S -> Prop) (Q : A -> S -> Prop) :
  hoare P panic Q.
Proof. intros s a s' _ H. discriminate. Qed.

End Hoare.

Lemma hoare_onExecutor {A} (P : GeneralOrderExecutor -> Prop) (c : Exec A)
    (Q : A -> GeneralOrderExecutor -> Prop) :
  hoare P c Q -> hoare (onExec P) (onExecutor c) (fun a => onExec (Q a)).
Proof.
  intros Hc s a s' HP H. unfold onExecutor in H.
  destruct (c (executor s)) as [[a' e'] |] eqn:E; [| discriminate].
  inversion H; subst. unfold onExec. cbn. eapply Hc; eauto.
Qed.

Lemma entryCount_app l1 l2 :
  entryCount (l1 ++ l2) = (entryCount l1 + entryCount l2)%nat.
Proof. unfold entryCount. rewrite List.filter_app, List.length_app. reflexivity. Qed.

Lemma entryCount_removeOrder id os :
  (entryCount (removeOrder id os) <= entryCount os)%nat.
Proof.
  unfold entryCount, removeOrder.
  induction os as [| x os IH]; [cbn; lia |].
  cbn. destruct (negb _); cbn; destruct (entryTag _); cbn; lia.
Qed.

Lemma entryCount_addOrders_other o os :
  entryTag (OrderTag o) = false ->
  entryCount (addOrders [o] os) = entryCount os.
Proof.
  intros Ht. cbn [addOrders]. destruct (hasID _ _); [reflexivity |].
  rewrite entryCount_app. unfold entryCount at 2. cbn. rewrite Ht. cbn. lia.
Qed.

Lemma noEntryPlaced_app l1 l2 :
  noEntryPlaced l1 -> noEntryPlaced l2 -> noEntryPlaced (l1 ++ l2).
Proof.
  intros H1 H2 o ok Hin. apply in_app_or in Hin as [Hin | Hin]; eauto.
Qed.

Lemma noEntryPlaced_eventOf o l :
  entryTag (so_Tag o) = false -> Forall (eventOf o) l -> noEntryPlaced l.
Proof.
  intros Ht Hl o' ok Hin.
  rewrite List.Forall_forall in Hl. apply Hl in Hin.
  destruct Hin as [Hin | [ok' Hin]]; [discriminate |].
  inversion Hin; subst. exact Ht.
Qed.

(** *** The executor's operations *)

Lemma GracefulCancel_beforeEntry t0 :
  hoare (beforeEntry t0) GracefulCancel
    (fun er e => beforeEntry t0 e /\ (er = None -> activeMakerOrders e = [])).
Proof.
  intros e er e' (new & Htr & Hno & Hone) Hrun.
  destruct (GracefulCancel_cases e) as (er0 & e0 & Hrun0 & _ & _ & _ & Hcases).
  rewrite Hrun0 in Hrun. inversion Hrun; subst er0 e0. clear Hrun.
  destruct Hcases as [(-> & Hb & ->) | [(-> & _ & Hb' & failed & Htr' & Hf) | (Hne & _ & Hb' & Htr')]].
  - split; [exists new; auto | auto].
  - split; [| auto].
    exists (Pump :: ExCancel (activeMakerOrders e) true :: failed ++ new).
    split; [rewrite Htr', Htr; cbn; rewrite List.app_assoc; reflexivity |].
    split; [| unfold oneEntry; rewrite Hb'; cbn; lia].
    intros o ok [Hin | [Hin | Hin]]; try discriminate.
    apply in_app_or in Hin as [Hin | Hin]; [| eauto].
    destruct Hf as [-> | ->]; [destruct Hin |].
    destruct Hin as [Hin | []]. discriminate.
  - split; [| intros ->; congruence].
    exists (ExCancel (activeMakerOrders e) false
              :: ExCancel (activeMakerOrders e) false :: new).
    split; [rewrite Htr', Htr; reflexivity |].
    split; [| unfold oneEntry; rewrite Hb'; exact Hone].
    intros o ok [Hin | [Hin | Hin]]; try discriminate. eauto.
Qed.

Lemma ClosePosition_loop_beforeEntry t0 m Delta price fuel :
  forall order,
    entryTag (so_Tag order) = false ->
    hoare (beforeEntry t0) (ClosePosition_loop fuel m Delta price order)
      (fun _ => beforeEntry t0).
Proof.
  induction fuel as [| fuel IH]; intros order Ht e er e' HP Hrun;
    [discriminate |].
  cbn [ClosePosition_loop] in Hrun.
  destruct (IsDustQuantity m (so_Quantity order) price).
  { inversion Hrun; subst. exact HP. }
  destruct (SubmitOrders_single order e)
    as (created & er1 & e1 & new1 & Hsub & Htr1 & Hev1 & _ & Hb1 & Hcr & _).
  unfold bind at 1 in Hrun. rewrite Hsub in Hrun.
  assert (HP1 : beforeEntry t0 e1).
  { destruct HP as (new & Htr & Hno & Hone).
    exists (new1 ++ new). split; [rewrite Htr1, Htr; apply app_assoc |].
    split; [apply noEntryPlaced_app; auto; eapply noEntryPlaced_eventOf; eauto |].
    unfold oneEntry in *. rewrite Hb1.
    destruct Hcr as [-> | [id ->]]; [exact Hone |].
    rewrite entryCount_addOrders_other; [exact Hone | exact Ht]. }
  destruct er1.
  - eapply (IH (withQuantity (so_Quantity order * (1 - Delta)) order)); eauto.
  - inversion Hrun; subst. exact HP1.
Qed.

Lemma SubmitOrders_entered t0 o :
  so_Type o = OrderTypeLimit ->
  hoare (fun e => beforeEntry t0 e /\ activeMakerOrders e = [])
    (SubmitOrders [o]) (fun _ => entered t0).
Proof.
  intros Hty e r e' [(new & Htr & Hno & _) Hb] Hrun.
  destruct (SubmitOrders_single o e)
    as (created & er1 & e1 & new1 & Hsub & Htr1 & Hev1 & _ & Hb1 & Hcr & _).
  rewrite Hsub in Hrun. inversion Hrun; subst. clear Hrun.
  exists (new1 ++ new), o.
  split; [rewrite Htr1, Htr; apply app_assoc |].
  split; [exact Hty |].
  rewrite List.Forall_forall in Hev1.
  split.
  - intros o' ok Hin Htag. apply in_app_or in Hin as [Hin | Hin].
    + apply Hev1 in Hin as [Hin | [ok' Hin]]; [discriminate |].
      inversion Hin; reflexivity.
    + apply Hno in Hin. congruence.
  - rewrite Hb1, Hb. destruct Hcr as [-> | [id ->]]; [left | right; exists id];
      reflexivity.
Qed.

Lemma entered_oneEntry t0 e : entered t0 e -> oneEntry e.
Proof.
  intros (new & o & _ & _ & _ & [Hb | [id Hb]]); unfold oneEntry; rewrite Hb.
  - cbn. lia.
  - unfold entryCount. cbn. destruct (entryTag _); cbn; lia.
Qed.

(** *** The strategies' steps *)

Lemma hoare_get_bind {S B} (P : S -> Prop) (k : S -> M S B) (R : B -> S -> Prop) :
  (forall s0, hoare P (k s0) R) -> hoare P (bind get k) R.
Proof.
  intros Hk. eapply hoare_bind; [apply hoare_get |].
  intros s0. eapply hoare_conseq; [apply Hk | intros s [_ HP]; exact HP | auto].
Qed.

Lemma hoare_modify_bind {S B} (P : S -> Prop) (f : S -> S) (k : unit -> M S B)
    (R : B -> S -> Prop) :
  (forall s, P s -> P (f s)) -> hoare P (k tt) R -> hoare P (bind (modify f) k) R.
Proof.
  intros Hf Hk. eapply hoare_bind with (Q := fun _ => P).
  - apply hoare_modify. exact Hf.
  - intros []. exact Hk.
Qed.

Lemma hoare_ret_imp {S A} (P : S -> Prop) (a : A) (Q : A -> S -> Prop) :
  (forall s, P s -> Q a s) -> hoare P (ret a) Q.
Proof. intros H s a' s' HP Hrun. inversion Hrun; subst. auto. Qed.

Lemma hoare_pre {S A} (P P' : S -> Prop) (c : M S A) (Q : A -> S -> Prop) :
  (forall s, P s -> P' s) -> hoare P' c Q -> hoare P c Q.
Proof. intros HP Hc. eapply hoare_conseq; eauto. Qed.

Lemma hoare_post {S A} (P : S -> Prop) (c : M S A) (Q Q' : A -> S -> Prop) :
  (forall a s, Q' a s -> Q a s) -> hoare P c Q' -> hoare P c Q.
Proof. intros HQ Hc. eapply hoare_conseq; eauto. Qed.

Lemma executor_observe price s : executor (observe price s) = executor s.
Proof.
  destruct (observe_cases price s) as (hp & lp & -> & _). reflexivity.
Qed.

Lemma executor_observeBar lowf highf s :
  executor (observeBar lowf highf s) = executor s.
Proof.
  destruct (observeBar_cases lowf highf s) as (hp & lp & -> & _). reflexivity.
Qed.

Section Steps.

Variable t0 : list Event.

Lemma noEntryYet_frame s s' : executor s' = executor s -> noEntryYet t0 s -> noEntryYet t0 s'.
Proof. unfold noEntryYet, onExec. intros ->. auto. Qed.

Lemma trailingCheck_noEntryYet price direction :
  hoare (noEntryYet t0) (trailingCheck price direction) (fun _ => noEntryYet t0).
Proof.
  intros s b s' HB H. rewrite trailingCheck_unfold in H.
  destruct (scanTiers _ _ _ _); [| discriminate]. inversion H; subst.
  eapply noEntryYet_frame; [apply executor_observe | exact HB].
Qed.

Lemma Rebalance_noEntryYet view ind : hoare (noEntryYet t0) (Drift.Rebalance view ind) (fun _ => noEntryYet t0).
Proof.
  unfold Drift.Rebalance. apply hoare_get_bind. intros s0.
  destruct (_ || _); [apply hoare_ret_imp; auto |].
  apply (hoare_bind (noEntryYet t0) _ (fun _ => noEntryYet t0)).
  - repeat match goal with
           | |- hoare _ (if ?b then _ else _) _ => destruct b
           end;
      first [ apply hoare_ret_imp; solve [auto]
            | apply hoare_modify; intros s HB;
              eapply noEntryYet_frame; [reflexivity | exact HB] ].
  - intros _. apply hoare_modify. intros s HB.
    eapply noEntryYet_frame; [| exact HB]. reflexivity.
Qed.

Lemma GracefulCancel_noEntryYet :
  hoare (noEntryYet t0) (onExecutor GracefulCancel)
    (fun er s => noEntryYet t0 s /\ (er = None -> emptyBook t0 s)).
Proof.
  eapply hoare_post; [| apply hoare_onExecutor, GracefulCancel_beforeEntry].
  unfold noEntryYet, emptyBook, onExec. intros er s [H1 H2]. auto.
Qed.

Lemma ClosePosition_noEntryYet fuel Delta view percentage :
  hoare (noEntryYet t0) (ClosePosition fuel Delta view percentage) (fun _ => noEntryYet t0).
Proof.
  unfold ClosePosition. apply hoare_get_bind. intros s0.
  destruct (NewMarketCloseOrder (p s0) percentage) as [order |];
    [| apply hoare_ret_imp; auto].
  apply hoare_onExecutor, ClosePosition_loop_beforeEntry.
  cbn. destruct (so_Side order);
    repeat match goal with
           | |- context [if ?b then _ else _] => destruct b
           end; reflexivity.
Qed.

Lemma Drift_smartCancel_noEntryYet ind pricef atr :
  hoare (noEntryYet t0) (Drift.smartCancel ind pricef atr) (fun _ => noEntryYet t0).
Proof.
  unfold Drift.smartCancel. apply hoare_get_bind. intros s0.
  destruct (0 <? _)%nat; [| apply hoare_ret_imp; auto].
  destruct (Drift.smartCancel_scan _ _ _ _ _) as [[|] |];
    [| apply hoare_ret_imp; auto | apply hoare_panic].
  eapply hoare_bind; [apply GracefulCancel_noEntryYet |].
  intros er. apply (hoare_pre _ (noEntryYet t0)); [tauto |].
  apply (hoare_bind (noEntryYet t0) _ (fun _ => noEntryYet t0)).
  - destruct er; [apply hoare_ret_imp; auto |].
    apply hoare_modify. intros s HB. eapply noEntryYet_frame; [| exact HB]. reflexivity.
  - intros _. apply hoare_ret_imp; auto.
Qed.

Lemma afterCancelOrder_noEntryYet o s : noEntryYet t0 s -> noEntryYet t0 (afterCancelOrder o s).
Proof.
  unfold noEntryYet, onExec. intros (new & Htr & Hno & Hone).
  destruct (afterCancelOrder_cases o s) as (new1 & _ & _ & Htr1 & Hno1 & Hcases).
  exists (new1 ++ new). split; [rewrite Htr1, Htr; apply List.app_assoc |].
  split; [apply noEntryPlaced_app; auto |].
  unfold oneEntry in *.
  destruct Hcases as [(Hb & _) | (Hb & _)]; rewrite Hb; [| exact Hone].
  pose proof (entryCount_removeOrder (OrderID o)
                (activeMakerOrders (executor s))). lia.
Qed.

Lemma Elliottwave_smartCancel_loop_noEntryYet ind pricef orders :
  forall left,
    hoare (noEntryYet t0) (Elliottwave.smartCancel_loop ind pricef orders left) (fun _ => noEntryYet t0).
Proof.
  induction orders as [| x rest IH]; intros left.
  - apply hoare_ret_imp; auto.
  - intros s a s' HB Hrun. rewrite Elliottwave_round_eq in Hrun. cbv zeta in Hrun.
    assert (Hcancel :
      Elliottwave.smartCancel_loop ind pricef rest left (afterCancelOrder x s)
      = Some (a, s') -> noEntryYet t0 s').
    { intros H. eapply IH; [| exact H]. apply afterCancelOrder_noEntryYet, HB. }
    assert (Hkeep : forall l,
      Elliottwave.smartCancel_loop ind pricef rest l s = Some (a, s') -> noEntryYet t0 s').
    { intros l H. eapply IH; [| exact H]. exact HB. }
    destruct (negb (isOpen x)); [eapply Hkeep; eauto |].
    destruct (PendingMinutes (cfg s) <=? age s x)%Z; [auto |].
    destruct (Side x); [| | discriminate];
      destruct (Qle_bool _ _); eauto.
Qed.

Lemma Elliottwave_smartCancel_noEntryYet ind pricef :
  hoare (noEntryYet t0) (Elliottwave.smartCancel ind pricef) (fun _ => noEntryYet t0).
Proof.
  unfold Elliottwave.smartCancel. apply hoare_get_bind. intros s0.
  destruct (0 <? _)%nat; [| apply hoare_ret_imp; auto].
  apply Elliottwave_smartCancel_loop_noEntryYet.
Qed.

Lemma recordPending_frame (P : GeneralOrderExecutor -> Prop) created :
  hoare (onExec P) (recordPending created) (fun _ => onExec P).
Proof.
  destruct created; [apply hoare_panic |].
  apply hoare_modify. unfold onExec. auto.
Qed.

Lemma Drift_submitEntry_barDone side price quantity tag :
  hoare (emptyBook t0) (Drift.submitEntry side price quantity tag) (fun _ => barDone t0).
Proof.
  unfold Drift.submitEntry.
  apply (hoare_bind (emptyBook t0) _ (fun _ => onExec (entered t0))).
  - apply hoare_onExecutor. apply SubmitOrders_entered. reflexivity.
  - intros [created er]. apply (hoare_post _ _ _ (fun _ => onExec (entered t0))).
    + unfold barDone, onExec. auto.
    + destruct er; [apply hoare_ret_imp; auto | apply recordPending_frame].
Qed.

Lemma Elliottwave_submitEntry_barDone side price quantity tag :
  hoare (emptyBook t0) (Elliottwave.submitEntry side price quantity tag) (fun _ => barDone t0).
Proof. exact (Drift_submitEntry_barDone side price quantity tag). Qed.

Lemma noEntryYet_barDone s : noEntryYet t0 s -> barDone t0 s.
Proof. unfold noEntryYet, barDone, onExec. auto. Qed.

Lemma emptyBook_barDone s : emptyBook t0 s -> barDone t0 s.
Proof. unfold emptyBook, barDone, onExec. tauto. Qed.

Lemma emptyBook_noEntryYet s : emptyBook t0 s -> noEntryYet t0 s.
Proof. unfold emptyBook, noEntryYet, onExec. tauto. Qed.

(** Return, whatever the shape of the assertions at hand. *)
Ltac hoare_done :=
  apply hoare_ret_imp; intros ? ?;
  first [ assumption
        | apply noEntryYet_barDone; assumption
        | apply emptyBook_barDone; assumption
        | apply emptyBook_noEntryYet; assumption
        | apply noEntryYet_barDone, emptyBook_noEntryYet; assumption ].

(** A [let] of the code: its value does not matter here. *)
Ltac hoare_let :=
  match goal with
  | |- hoare ?P (let x := ?v in @?body x) ?Q =>
      let y := fresh x in
      set (y := v); change (hoare P (body y) Q); cbv beta; clearbody y
  end.

(** Case analysis on whatever the computation branches on. *)
Ltac hoare_case :=
  repeat hoare_let;
  lazymatch goal with
  | |- hoare _ (if ?b then _ else _) _ => destruct b
  | |- hoare _ (match ?x with _ => _ end) _ => destruct x
  end.

(** The exit block: cancel everything, then close the position. *)
Lemma exit_block_noEntryYet fuel Delta view (exit : bool) :
  hoare (noEntryYet t0)
    (if exit then
       let* e := onExecutor GracefulCancel in
       match e with
       | Some _ => ret true
       | None => let* _ := ClosePosition fuel Delta view 1 in ret false
       end
     else ret false)
    (fun _ => noEntryYet t0).
Proof.
  destruct exit; [| hoare_done].
  eapply hoare_bind; [apply GracefulCancel_noEntryYet |].
  intros er. apply (hoare_pre _ (noEntryYet t0)); [tauto |].
  destruct er; [hoare_done |].
  apply (hoare_bind (noEntryYet t0) _ (fun _ => noEntryYet t0)); [apply ClosePosition_noEntryYet |].
  intros _. hoare_done.
Qed.

Lemma cancel_then_barDone (k : Strat unit) :
  hoare (emptyBook t0) k (fun _ => barDone t0) ->
  hoare (noEntryYet t0)
    (let* e := onExecutor GracefulCancel in
     match e with
     | Some _ => ret tt
     | None => k
     end)
    (fun _ => barDone t0).
Proof.
  intros Hk. eapply hoare_bind; [apply GracefulCancel_noEntryYet |].
  intros er. destruct er.
  - apply (hoare_pre _ (noEntryYet t0)); [tauto | hoare_done].
  - apply (hoare_pre _ (emptyBook t0)); [intros s [_ H]; apply H; reflexivity | exact Hk].
Qed.

(** One step through a handler. *)
Ltac hoare_step :=
  repeat hoare_let;
  lazymatch goal with
  | |- hoare _ (ret _) _ => hoare_done
  | |- hoare _ panic _ => apply hoare_panic
  | |- hoare _ (bind get _) _ => apply hoare_get_bind; intros ?
  | |- hoare _ (bind (modify _) _) _ =>
      apply hoare_modify_bind;
      [ intros ? ?; eapply noEntryYet_frame;
        [ first [ apply executor_observeBar | reflexivity ] | assumption ] | ]
  | |- hoare _ (Drift.exitShortCondition1m _ _) _ =>
      unfold Drift.exitShortCondition1m
  | |- hoare _ (Drift.exitLongCondition1m _ _) _ =>
      unfold Drift.exitLongCondition1m
  | |- hoare _ (Drift.exitShortCondition _ _ _ _ _) _ =>
      unfold Drift.exitShortCondition
  | |- hoare _ (Drift.exitLongCondition _ _ _ _ _) _ =>
      unfold Drift.exitLongCondition
  | |- hoare _ (Elliottwave.exitShortCondition1m _ _ _) _ =>
      unfold Elliottwave.exitShortCondition1m
  | |- hoare _ (Elliottwave.exitLongCondition1m _ _ _) _ =>
      unfold Elliottwave.exitLongCondition1m
  | |- hoare _ (Elliottwave.exitShortCondition _ _ _ _) _ =>
      unfold Elliottwave.exitShortCondition
  | |- hoare _ (Elliottwave.exitLongCondition _ _ _ _) _ =>
      unfold Elliottwave.exitLongCondition
  | |- hoare _ (trailingCheck _ _) _ => apply trailingCheck_noEntryYet
  | |- hoare _ (Drift.Rebalance _ _) _ => apply Rebalance_noEntryYet
  | |- hoare _ (Drift.smartCancel _ _ _) _ => apply Drift_smartCancel_noEntryYet
  | |- hoare _ (Elliottwave.smartCancel _ _) _ => apply Elliottwave_smartCancel_noEntryYet
  | |- hoare _ (ClosePosition _ _ _ _) _ => apply ClosePosition_noEntryYet
  | |- hoare _ (Drift.ClosePosition _ _ _) _ => apply ClosePosition_noEntryYet
  | |- hoare _ (Elliottwave.ClosePosition _ _ _) _ => apply ClosePosition_noEntryYet
  | |- hoare _ (Drift.submitEntry _ _ _ _) _ => apply Drift_submitEntry_barDone
  | |- hoare _ (Elliottwave.submitEntry _ _ _ _) _ =>
      apply Elliottwave_submitEntry_barDone
  | |- hoare _ (bind (if _ then bind (onExecutor GracefulCancel) _ else _) _) _ =>
      apply (hoare_bind (noEntryYet t0) _ (fun _ => noEntryYet t0)); [apply exit_block_noEntryYet | intros ?]
  | |- hoare _ (bind (onExecutor GracefulCancel) _) _ => apply cancel_then_barDone
  | |- hoare _ (bind _ _) _ =>
      apply (hoare_bind (noEntryYet t0) _ (fun _ => noEntryYet t0)); [| intros ?]
  | |- hoare _ (if _ then _ else _) _ => hoare_case
  | |- hoare _ (match _ with _ => _ end) _ => hoare_case
  end.

Lemma Drift_klineHandler_barDone fuel view ind kline :
  hoare (noEntryYet t0) (Drift.klineHandler fuel view ind kline) (fun _ => barDone t0).
Proof. unfold Drift.klineHandler. repeat hoare_step. Qed.

Lemma Drift_klineHandler1m_noEntryYet fuel view ind kline :
  hoare (noEntryYet t0) (Drift.klineHandler1m fuel view ind kline) (fun _ => noEntryYet t0).
Proof. unfold Drift.klineHandler1m. repeat hoare_step. Qed.

Lemma Elliottwave_klineHandler_barDone fuel view ind kline :
  hoare (noEntryYet t0) (Elliottwave.klineHandler fuel view ind kline)
    (fun _ => barDone t0).
Proof. unfold Elliottwave.klineHandler. repeat hoare_step. Qed.

Lemma Elliottwave_klineHandler1m_noEntryYet fuel view ind kline :
  hoare (noEntryYet t0) (Elliottwave.klineHandler1m fuel view ind kline) (fun _ => noEntryYet t0).
Proof. unfold Elliottwave.klineHandler1m. repeat hoare_step. Qed.

End Steps.

Lemma beforeEntry_start e : oneEntry e -> beforeEntry (trace e) e.
Proof.
  intros H. exists []. split; [reflexivity |]. split; [intros ? ? [] | exact H].
Qed.

(** C9, as stated, fails in its last part: with order 1 outstanding (and,
    in elliottwave, still outstanding after the [smartCancel] pass), the
    handler of the closed bar decides on a new entry all the same: it
    cancels order 1 and places a new limit order. *)
Lemma entry_decided_with_order_outstanding :
  NumOfOrders (executor Example.resting) = 1%nat
  /\ (exists s',
        Drift.klineHandler 1 Example.view Example.bullishWide Example.bar
          Example.resting = Some (tt, s')
        /\ In (ExPlace {| so_Side := SideTypeBuy; so_Type := OrderTypeLimit;
                          so_Price := 99; so_Quantity := 1000 / 99;
                          so_Tag := TagLong |} true)
              (trace (executor s')))
  /\ Elliottwave.smartCancel Example.bullishWide 100 Example.resting
     = Some (1%Z, Example.resting)
  /\ (exists s',
        Elliottwave.klineHandler 1 Example.view Example.bullishWide Example.bar
          Example.resting = Some (tt, s')
        /\ In (ExPlace {| so_Side := SideTypeBuy; so_Type := OrderTypeLimit;
                          so_Price := 99; so_Quantity := 1000 / 99;
                          so_Tag := TagLong |} true)
              (trace (executor s'))).
Proof.
  split; [reflexivity |].
  split; [eexists; split; [vm_compute; reflexivity | cbn; auto] |].
  split; [vm_compute; reflexivity |].
  eexists; split; [vm_compute; reflexivity | cbn; auto].
Qed.

(** C9, amended.  If at most one entry order rests in the book when a bar
    handler starts, the same holds when it returns.  A run of
    [klineHandler] that sends an entry order to the exchange sends one
    limit order, after a cancellation of all active orders that returned
    nil: when the handler returns, the book holds nothing but the order
    created for that entry.  The one-minute handlers send no entry order.
    An outstanding order does not keep [klineHandler] from deciding on a
    new entry; it is cancelled first. *)
Theorem one_resting_entry_order :
  (forall fuel view ind kline s s',
     Drift.klineHandler fuel view ind kline s = Some (tt, s') ->
     oneEntry (executor s) ->
     beforeEntry (trace (executor s)) (executor s')
     \/ entered (trace (executor s)) (executor s'))
  /\ (forall fuel view ind kline s s',
        Elliottwave.klineHandler fuel view ind kline s = Some (tt, s') ->
        oneEntry (executor s) ->
        beforeEntry (trace (executor s)) (executor s')
        \/ entered (trace (executor s)) (executor s'))
  /\ (forall fuel view ind kline s s',
        Drift.klineHandler1m fuel view ind kline s = Some (tt, s') ->
        oneEntry (executor s) ->
        beforeEntry (trace (executor s)) (executor s'))
  /\ (forall fuel view ind kline s s',
        Elliottwave.klineHandler1m fuel view ind kline s = Some (tt, s') ->
        oneEntry (executor s) ->
        beforeEntry (trace (executor s)) (executor s'))
  /\ (forall t0 e, beforeEntry t0 e \/ entered t0 e -> oneEntry e).
Proof.
  repeat split.
  - intros fuel view ind kline s s' Hrun Hone.
    eapply (Drift_klineHandler_barDone (trace (executor s))); [| exact Hrun].
    apply beforeEntry_start, Hone.
  - intros fuel view ind kline s s' Hrun Hone.
    eapply (Elliottwave_klineHandler_barDone (trace (executor s))); [| exact Hrun].
    apply beforeEntry_start, Hone.
  - intros fuel view ind kline s s' Hrun Hone.
    eapply (Drift_klineHandler1m_noEntryYet (trace (executor s))); [| exact Hrun].
    apply beforeEntry_start, Hone.
  - intros fuel view ind kline s s' Hrun Hone.
    eapply (Elliottwave_klineHandler1m_noEntryYet (trace (executor s))); [| exact Hrun].
    apply beforeEntry_start, Hone.
  - intros t0 e [(new & _ & _ & Hone) | Hent];
      [exact Hone | eapply entered_oneEntry, Hent].
Qed.

Lemma one_resting_entry_order_witness :
  exists s',
    Drift.klineHandler 1 Example.view Example.bullishWide Example.bar
      Example.resting = Some (tt, s')
    /\ (beforeEntry (trace (executor Example.resting)) (executor s')
        \/ entered (trace (executor Example.resting)) (executor s')).
Proof.
  destruct one_resting_entry_order as (H & _).
  assert (E : exists s',
            Drift.klineHandler 1 Example.view Example.bullishWide Example.bar
              Example.resting = Some (tt, s'))
    by (eexists; vm_compute; reflexivity).
  destruct E as [s' E]. exists s'. split; [exact E |].
  apply (H _ _ _ _ _ _ E). unfold oneEntry. vm_compute. lia.
Defined.

(** * Further properties *)

(** ** Trailing tiers and order submission *)

Lemma scanTiers_None s isShort price n :
  (n <= length (TrailingCallbackRate (cfg s)))%nat ->
  (scanTiers s isShort price n = None <->
   exists i, (i < n)%nat
     /\ (length (TrailingActivationRatio (cfg s)) <= i)%nat
     /\ noneActivated s isShort (S i) n).
Proof.
  unfold noneActivated.
  induction n as [| i IH]; intros Hn.
  - cbn. split; [discriminate | intros (i & Hi & _); lia].
  - cbn [scanTiers].
    destruct (nth_error (TrailingCallbackRate (cfg s)) i) as [c |] eqn:Ec;
      [| apply nth_error_None in Ec; lia].
    destruct (nth_error (TrailingActivationRatio (cfg s)) i) as [a |] eqn:Ea.
    + assert (Hlt : (i < length (TrailingActivationRatio (cfg s)))%nat)
        by (apply nth_error_Some; congruence).
      destruct (activated s isShort a) eqn:Eact.
      * split; [discriminate |].
        intros (k & Hk & Hlen & Hoff).
        assert (k < i)%nat by lia.
        specialize (Hoff i a). rewrite Hoff in Eact; [discriminate | lia | exact Ea].
      * rewrite IH by lia. split.
        -- intros (k & Hk & Hlen & Hoff). exists k. split; [lia |].
           split; [exact Hlen |]. intros j a' Hj Hnth.
           destruct (Nat.eq_dec j i) as [-> | Hne]; [congruence |].
           apply (Hoff j); [lia | exact Hnth].
        -- intros (k & Hk & Hlen & Hoff). exists k.
           assert (k <> i) by lia.
           split; [lia |]. split; [exact Hlen |].
           intros j a' Hj Hnth. apply (Hoff j); [lia | exact Hnth].
    + apply nth_error_None in Ea.
      split; [intros _ | reflexivity].
      exists i. split; [lia |]. split; [exact Ea |]. intros j a' Hj. lia.
Qed.

(** X1.  [trailingCheck] panics, on an index out of range in
    [TrailingActivationRatio], exactly when that list is shorter than
    [TrailingCallbackRate]: the scan starts at the last index of
    [TrailingCallbackRate], so it then panics on every call, whatever the
    prices; otherwise it never does. *)
Theorem trailingCheck_panics_iff price direction s :
  trailingCheck price direction s = None <->
  (length (TrailingActivationRatio (cfg s))
   < length (TrailingCallbackRate (cfg s)))%nat.
Proof.
  rewrite trailingCheck_unfold, cfg_observe.
  set (s1 := observe price s).
  assert (Hc : cfg s1 = cfg s) by apply cfg_observe.
  destruct (scanTiers s1 (isShortDir direction) price
              (length (TrailingCallbackRate (cfg s)))) as [b |] eqn:E.
  - split; [discriminate |]. intros Hlt. exfalso.
    assert (HN : scanTiers s1 (isShortDir direction) price
                   (length (TrailingCallbackRate (cfg s))) = None).
    { apply scanTiers_None; [rewrite Hc; lia |].
      exists (length (TrailingCallbackRate (cfg s)) - 1)%nat.
      rewrite Hc. split; [lia |]. split; [lia |].
      intros j a Hj. lia. }
    congruence.
  - split; [intros _ | reflexivity].
    apply scanTiers_None in E; [| rewrite Hc; lia].
    destruct E as (i & Hi & Hlen & _). rewrite Hc in Hlen. lia.
Qed.

Lemma BatchPlaceOrder_from_error os : forall i e,
  exists created errIdx er e',
    BatchPlaceOrder_from i os e = Some (created, errIdx, er, e')
    /\ (er = None <-> cleanFirstPass os e)
    /\ (errIdx = [] <-> er = None)
    /\ (length created + length errIdx = length os)%nat.
Proof.
  unfold cleanFirstPass.
  induction os as [| o rest IH]; intros i e.
  - exists [], [], None, e. split; [reflexivity |].
    split; [split; [intros _ k o Hk; destruct k; discriminate | reflexivity] |].
    split; [tauto | reflexivity].
  - cbn [BatchPlaceOrder_from]. unfold bind at 1.
    rewrite Exchange_SubmitOrder_eq.
    destruct (place_fails (session e) (length (trace e)) o) eqn:Ef.
    + destruct (IH (S i) (set_trace (ExPlace o false :: trace e) e))
        as (created & errIdx & er & e' & Hrun & Hclean & Hidx & Hlen).
      unfold bind, ret. rewrite Hrun.
      eexists _, _, _, e'. split; [reflexivity |].
      split; [| split; [| cbn; lia]].
      * split; [destruct er; discriminate |].
        intros H. specialize (H 0%nat o eq_refl).
        rewrite Nat.add_0_r in H. congruence.
      * split; [discriminate | destruct er; discriminate].
    + destruct (IH (S i) (set_nextID (N.succ (nextID e))
                            (set_trace (ExPlace o true :: trace e) e)))
        as (created & errIdx & er & e' & Hrun & Hclean & Hidx & Hlen).
      unfold bind, ret. rewrite Hrun.
      eexists _, _, _, e'. split; [reflexivity |].
      split; [| split; [exact Hidx | cbn; lia]].
      rewrite Hclean. cbn [session trace set_nextID set_trace length].
      split.
      * intros H [| k] o' Hk.
        -- cbn in Hk. inversion Hk; subst. rewrite Nat.add_0_r. exact Ef.
        -- cbn in Hk. replace (length (trace e) + S k)%nat
             with (S (length (trace e)) + k)%nat by lia. apply H, Hk.
      * intros H k o' Hk.
        replace (S (length (trace e)) + k)%nat
          with (length (trace e) + S k)%nat by lia. apply H. exact Hk.
Qed.

(** X2.  [SubmitOrders] returns a nil error exactly when formatting
    succeeds and the exchange accepts every order of the batch when it is
    first sent: the error of the first pass is kept when the retry places
    every refused order.  With a nil error as many orders are created as
    were submitted. *)
Theorem SubmitOrders_error_unless_clean os e :
  exists created er e',
    SubmitOrders os e = Some (created, er, e')
    /\ (er = None <->
        format_fails (session e) os = false /\ cleanFirstPass os e)
    /\ (er = None -> length created = length os).
Proof.
  unfold SubmitOrders, FormatOrders, bind at 1, bind at 1, get, ret.
  destruct (format_fails (session e) os) eqn:Ef.
  { exists [], (Some ErrFormat), e. split; [reflexivity |].
    split; [split; [discriminate | intros [? _]; discriminate] | discriminate]. }
  cbn beta iota.
  destruct (BatchPlaceOrder_from_error os 0 e)
    as (created & errIdx & er & e1 & Hrun & Hclean & Hidx & Hlen).
  unfold BatchPlaceOrder, bind at 1. rewrite Hrun. cbn beta iota.
  destruct errIdx as [| k ks] eqn:Eidx; cbn [length Nat.ltb Nat.leb].
  - unfold bind, ret, orderStore_Add, activeMakerOrders_Add,
      tradeCollector_Process, emit, modify. cbn.
    eexists _, _, _. split; [reflexivity |].
    split; [rewrite Hclean; tauto |].
    intros _. cbn in Hlen. lia.
  - assert (Her : er <> None) by (intros H; apply Hidx in H; discriminate).
    destruct (BatchRetryPlaceOrder (k :: ks) os e1)
      as [[[created2 er2] e2] |] eqn:Hrun2.
    2:{ exfalso.
        destruct (BatchPlaceOrder_from_spec os 0 e)
          as (c' & idx' & er' & e1' & first & Hrun' & _ & _ & Hos & Hidx' & _).
        rewrite Hrun in Hrun'. injection Hrun' as <- Hk <- <-.
        destruct (BatchRetryPlaceOrder_spec os (k :: ks) e1)
          as (c2 & r2 & e2 & retry & Hr & _).
        { rewrite Hk, Hidx'. eapply List.Forall_impl;
            [| apply (refusedFrom_bound (map snd (placements first)) 0)].
          cbn. intros a Ha. rewrite length_map in Ha.
          rewrite <- Hos, length_map. lia. }
        congruence. }
    unfold bind at 1, bind at 1. rewrite Hrun2. cbn beta iota.
    destruct er2;
      unfold bind, ret, orderStore_Add, activeMakerOrders_Add,
        tradeCollector_Process, emit, modify; cbn;
      eexists _, _, _; (split; [reflexivity |]).
    + split; [| destruct er; discriminate].
      split; [destruct er; discriminate |].
      intros [_ H]. apply Hclean in H. congruence.
    + split; [| intros H; congruence].
      split; [intros H; congruence |].
      intros [_ H]. apply Hclean in H. congruence.
Qed.

(** ** Closing a position *)

Lemma SubmitOrders_one o e :
  format_fails (session e) [o] = false ->
  SubmitOrders [o] e =
  if place_fails (session e) (length (trace e)) o then
    if place_fails (session e) (S (length (trace e))) o then
      Some ([], Some (ErrMulti ErrPlace ErrPlace),
            set_trace (Pump :: ExPlace o false :: ExPlace o false :: trace e) e)
    else
      Some ([newOrder (nextID e) o], Some ErrPlace,
            set_trace (Pump :: ExPlace o true :: ExPlace o false :: trace e)
              (set_activeMakerOrders
                 (addOrders [newOrder (nextID e) o] (activeMakerOrders e))
                 (set_orderStore
                    (addOrders [newOrder (nextID e) o] (orderStore e))
                    (set_nextID (N.succ (nextID e)) e))))
  else
    Some ([newOrder (nextID e) o], None,
          set_trace (Pump :: ExPlace o true :: trace e)
            (set_activeMakerOrders
               (addOrders [newOrder (nextID e) o] (activeMakerOrders e))
               (set_orderStore
                  (addOrders [newOrder (nextID e) o] (orderStore e))
                  (set_nextID (N.succ (nextID e)) e)))).
Proof.
  intros Hf.
  unfold SubmitOrders, FormatOrders, BatchPlaceOrder, bind, get, ret. cbn.
  rewrite Hf. cbn. unfold bind, ret. rewrite Exchange_SubmitOrder_eq.
  destruct (place_fails (session e) (length (trace e)) o) eqn:E1; cbn.
  - unfold bind, ret. rewrite Exchange_SubmitOrder_eq. cbn.
    destruct (place_fails (session e) (S (length (trace e))) o) eqn:E2; cbn;
      reflexivity.
  - reflexivity.
Qed.

(** X3.  [ClosePosition] after a retry that succeeds.  The exchange
    refuses the close order, accepts it on the executor's retry, and accepts
    the next request: [SubmitOrders] still reports the refusal, so the loop
    shrinks the quantity and submits again.  The exchange has then accepted
    two orders, for q and for q(1 - Delta), and both are in the active
    order book. *)
Theorem ClosePosition_resubmits_after_retry m Delta price order e fuel :
  let shrunk := withQuantity (so_Quantity order * (1 - Delta)) order in
  format_fails (session e) [order] = false ->
  format_fails (session e) [shrunk] = false ->
  IsDustQuantity m (so_Quantity order) price = false ->
  IsDustQuantity m (so_Quantity shrunk) price = false ->
  place_fails (session e) (length (trace e)) order = true ->
  place_fails (session e) (1 + length (trace e)) order = false ->
  place_fails (session e) (3 + length (trace e)) shrunk = false ->
  (2 <= fuel)%nat ->
  exists e',
    ClosePosition_loop fuel m Delta price order e = Some (None, e')
    /\ trace e' = [Pump; ExPlace shrunk true;
                   Pump; ExPlace order true; ExPlace order false] ++ trace e
    /\ activeMakerOrders e' =
       addOrders [newOrder (N.succ (nextID e)) shrunk]
         (addOrders [newOrder (nextID e) order] (activeMakerOrders e)).
Proof.
  intros shrunk Hf1 Hf2 Hd1 Hd2 H1 H2 H3 Hfuel.
  destruct fuel as [| [| fuel]]; [lia | lia |].
  cbn [ClosePosition_loop]. rewrite Hd1.
  unfold bind at 1. rewrite (SubmitOrders_one order e Hf1), H1.
  change (S (length (trace e))) with (1 + length (trace e))%nat. rewrite H2.
  cbn beta iota. fold shrunk. rewrite Hd2.
  unfold bind at 1. rewrite SubmitOrders_one by exact Hf2.
  cbn [trace set_trace session set_activeMakerOrders set_orderStore set_nextID
       length].
  change (S (S (S (length (trace e))))) with (3 + length (trace e))%nat.
  rewrite H3. eexists. split; [reflexivity |]. split; reflexivity.
Qed.

Lemma withQuantity_twice a b o : withQuantity a (withQuantity b o) = withQuantity a o.
Proof. reflexivity. Qed.

Lemma ClosePosition_loop_events m Delta price fuel : forall order e r e',
  ClosePosition_loop fuel m Delta price order e = Some (r, e') ->
  exists new, trace e' = new ++ trace e
    /\ Forall (closeEvent m Delta price order) new.
Proof.
  induction fuel as [| fuel IH]; intros order e r e' Hrun; [discriminate |].
  cbn [ClosePosition_loop] in Hrun.
  destruct (IsDustQuantity m (so_Quantity order) price) eqn:Ed.
  { inversion Hrun; subst. exists []. split; [reflexivity | constructor]. }
  destruct (SubmitOrders_single order e)
    as (created & er1 & e1 & new1 & Hsub & Htr1 & Hev1 & _).
  unfold bind at 1 in Hrun. rewrite Hsub in Hrun.
  assert (H1 : Forall (closeEvent m Delta price order) new1).
  { eapply List.Forall_impl; [| exact Hev1].
    intros ev [-> | [ok ->]]; [left; reflexivity |].
    right. exists 0%nat, ok. cbn [shrink]. split; [| exact Ed].
    destruct order; reflexivity. }
  destruct er1.
  - apply IH in Hrun as (new2 & Htr2 & Hev2).
    exists (new2 ++ new1). split; [rewrite Htr2, Htr1; apply List.app_assoc |].
    apply List.Forall_app. split; [| exact H1].
    eapply List.Forall_impl; [| exact Hev2].
    intros ev [-> | (k & ok & -> & Hd)]; [left; reflexivity |].
    right. exists (S k), ok. cbn [so_Quantity withQuantity] in *.
    split; [reflexivity | exact Hd].
  - inversion Hrun; subst. exists new1. split; [exact Htr1 | exact H1].
Qed.

Lemma shrink_le Delta k : forall q,
  0 < Delta < 1 -> 0 < shrink Delta k q -> 0 < q /\ shrink Delta k q <= q.
Proof.
  induction k as [| k IH]; intros q HD Hpos; cbn [shrink] in *.
  - split; [exact Hpos | lra].
  - destruct (IH _ HD Hpos) as [Hq Hle].
    assert (H0 : 0 < q).
    { destruct (Qlt_le_dec 0 q) as [H | H]; [exact H | exfalso].
      assert (0 <= (- q) * (1 - Delta)) by (apply Qmult_le_0_compat; lra).
      lra. }
    split; [exact H0 |].
    assert (0 <= q * Delta) by (apply Qmult_le_0_compat; lra).
    lra.
Qed.

(** X4.  What [ClosePosition] asks the exchange for stays within the
    balances: every placement request is tagged close, has the side and
    type of the order the position asks for and a positive quantity no
    larger than that order's, and it sells no more than the available base
    balance, or buys no more than the available quote balance pays for at
    the last price.  Nothing is cancelled. *)
Theorem ClosePosition_within_balance fuel Delta view percentage s r s' order0 :
  0 < MinNotional (market (cfg s)) -> 0 < lastPrice view -> 0 < Delta < 1 ->
  NewMarketCloseOrder (p s) percentage = Some order0 ->
  ClosePosition fuel Delta view percentage s = Some (r, s') ->
  exists new,
    trace (executor s') = new ++ trace (executor s)
    /\ Forall (withinBalance view order0) new.
Proof.
  intros Hm Hp HD Ho Hrun.
  unfold ClosePosition, bind, get in Hrun. rewrite Ho in Hrun.
  unfold onExecutor in Hrun.
  match type of Hrun with
  | context [ClosePosition_loop _ _ _ _ ?o] => set (order := o) in *
  end.
  destruct (ClosePosition_loop fuel (market (cfg s)) Delta (lastPrice view)
              order (executor s)) as [[r' e'] |] eqn:Hloop; [| discriminate].
  inversion Hrun; subst r' s'. clear Hrun.
  apply ClosePosition_loop_events in Hloop as (new & Htr & Hev).
  exists new. split; [exact Htr |].
  assert (Hside : so_Side order = so_Side order0
                  /\ so_Type order = so_Type order0
                  /\ so_Tag order = TagClose).
  { subst order. unfold withTag, withQuantity. cbn.
    destruct (so_Side order0);
      repeat match goal with
             | |- context [if ?b then _ else _] => destruct b
             end; repeat split. }
  assert (Hcap : so_Quantity order <= so_Quantity order0
                 /\ match so_Side order0 with
                    | SideTypeSell => so_Quantity order <= baseAvailable view
                    | SideTypeBuy =>
                        so_Quantity order * lastPrice view <= quoteAvailable view
                    | SideTypeSelf => True
                    end).
  { subst order. unfold withTag, withQuantity. cbn.
    destruct (so_Side order0); cbn.
    - destruct (Qltb (quoteAvailable view / lastPrice view) (so_Quantity order0))
        eqn:E; cbn.
      + apply Qltb_lt in E. split; [lra |].
        assert (Hq : quoteAvailable view / lastPrice view * lastPrice view
                     == quoteAvailable view) by (field; lra).
        lra.
      + apply Qltb_ge in E. split; [lra |].
        apply (Qmult_le_compat_r _ _ (lastPrice view)) in E; [| lra].
        assert (Hq : quoteAvailable view / lastPrice view * lastPrice view
                     == quoteAvailable view) by (field; lra).
        lra.
    - destruct (Qltb (baseAvailable view) (so_Quantity order0)) eqn:E; cbn.
      + apply Qltb_lt in E. split; lra.
      + apply Qltb_ge in E. split; lra.
    - split; [lra | exact I]. }
  destruct Hside as (Hs & Hty & Htag). destruct Hcap as (Hq0 & Hbal).
  clearbody order.
  eapply List.Forall_impl; [| exact Hev].
  intros ev [-> | (k & ok & -> & Hd)]; [exact I |].
  cbn [withinBalance so_Tag so_Side so_Type so_Quantity withQuantity].
  apply IsDustQuantity_false in Hd.
  set (q := shrink Delta k (so_Quantity order)) in *.
  assert (Hqpos : 0 < q).
  { destruct (Qlt_le_dec 0 q) as [H | H]; [exact H | exfalso].
    assert (0 <= (- q) * lastPrice view) by (apply Qmult_le_0_compat; lra).
    lra. }
  pose proof (shrink_le Delta k (so_Quantity order) HD) as Hsh.
  fold q in Hsh. destruct (Hsh Hqpos) as [Hopos Hle]. clearbody q.
  split; [exact Htag |]. split; [exact Hs |]. split; [exact Hty |].
  split; [split; lra |].
  rewrite Hs. destruct (so_Side order0); [| lra | exact I].
  assert (0 <= (so_Quantity order - q) * lastPrice view)
    by (apply Qmult_le_0_compat; lra).
  lra.
Qed.

(** ** Rebalancing *)

Lemma Rebalance_frame view ind s :
  exists s',
    Drift.Rebalance view ind s = Some (tt, s')
    /\ executor s' = executor s /\ cfg s' = cfg s /\ prices s' = prices s
    /\ orderPendingCounter s' = orderPendingCounter s
    /\ minutesCounter s' = minutesCounter s /\ running s' = running s.
Proof.
  unfold Drift.Rebalance, bind, get, modify, ret.
  repeat match goal with
         | |- context [if ?b then _ else _] => destruct b
         end;
    eexists; (split; [reflexivity |]); cbn; repeat split; reflexivity.
Qed.

Ltac conj := repeat match goal with |- _ /\ _ => split end.

(** X5.  [Rebalance] never touches the executor, the price fields or the
    age map: it rewrites the shadow position and the stored slope only,
    and nothing at all while the slope estimate and the stored slope are
    on the same side of the filter.  Otherwise the shadow position is set
    so that closing it leaves the account with the target share of its
    holdings in the base currency: [1 - Delta] of them on a rising trend,
    [Delta] on a falling one, one half in between; on a trend the position
    is left alone when the account is already beyond the target. *)
Theorem Rebalance_targets view ind s :
  0 < lastPrice view ->
  let rf := RebalanceFilter (cfg s) in
  let slope := trendBeta ind in
  let total := totalInBase view in
  exists s',
    Drift.Rebalance view ind s = Some (tt, s')
    /\ executor s' = executor s /\ prices s' = prices s /\ cfg s' = cfg s
    /\ orderPendingCounter s' = orderPendingCounter s
    /\ total * lastPrice view == CalcAssetValue view (lastPrice view)
    /\ (sameSide rf (beta s) slope = true -> s' = s)
    /\ (sameSide rf (beta s) slope = false ->
        beta s' = slope
        /\ (p s' = p s
            \/ p s' = Reset (p s)
            \/ (Quote (p s') == - (Base (p s') * lastPrice view)
                /\ AverageCost (p s') = lastPrice view))
        /\ (rf < slope ->
            (baseTotal view < total * (1 - Drift.Delta) ->
             baseAfterClose view (p s') == total * (1 - Drift.Delta))
            /\ (total * (1 - Drift.Delta) <= baseTotal view -> p s' = p s))
        /\ (~ rf < slope -> slope <= - rf ->
            (quoteTotal view / lastPrice view < total * (1 - Drift.Delta) ->
             baseAfterClose view (p s') == total * Drift.Delta)
            /\ (total * (1 - Drift.Delta) <= quoteTotal view / lastPrice view ->
                p s' = p s))
        /\ (~ rf < slope -> ~ slope <= - rf ->
            baseAfterClose view (p s') == total / 2)).
Proof.
  intros Hp rf slope total.
  assert (Hval : total * lastPrice view == CalcAssetValue view (lastPrice view)).
  { unfold total, totalInBase, CalcAssetValue. field. lra. }
  unfold Drift.Rebalance, bind, get, modify, ret.
  fold rf slope. unfold total, totalInBase, baseAfterClose, sameSide in *.
  set (qb := quoteTotal view / lastPrice view) in *.
  set (bb := baseTotal view) in *.
  unfold Drift.Delta.
  set (h := (bb + qb) / 2) in *.
  assert (Hh : h + h == bb + qb) by (unfold h; field).
  clearbody h.
  destruct ((Qltb rf (Qabs slope) && Qltb rf (Qabs (beta s)))
            || (Qltb (Qabs (beta s)) rf && Qltb (Qabs slope) rf)) eqn:Egate.
  { exists s. conj; try reflexivity; try exact Hval; intros; congruence. }
  destruct (Qltb rf slope) eqn:E1;
    [apply Qltb_lt in E1 | apply Qltb_ge in E1];
    [destruct (Qltb bb ((bb + qb) * (1 - (1 # 100)))) eqn:E2;
       [apply Qltb_lt in E2 | apply Qltb_ge in E2]
    | destruct (Qle_bool slope (- rf)) eqn:E3;
       [apply Qle_bool_iff in E3;
        destruct (Qltb qb ((bb + qb) * (1 - (1 # 100)))) eqn:E2;
          [apply Qltb_lt in E2 | apply Qltb_ge in E2]
       | assert (H3 : ~ slope <= - rf)
           by (intros H; apply Qle_bool_iff in H; congruence);
         destruct (Qltb qb h) eqn:E2;
          [apply Qltb_lt in E2
          | apply Qltb_ge in E2;
            destruct (Qltb bb h) eqn:E4;
              [apply Qltb_lt in E4 | apply Qltb_ge in E4]]]];
    (eexists; split; [reflexivity |]); cbn;
    conj; try reflexivity; try exact Hval; try (intros; congruence);
    intros _; conj; try reflexivity;
    try (intros; conj; intros; try reflexivity; try lra; try tauto);
    try (right; right; split; [ring | reflexivity]);
    try (left; reflexivity); try (right; left; reflexivity).
Qed.

(** ** The book ticker *)

Lemma onStrategy_midPrice {A} (c : Strat A) f a f' :
  onStrategy c f = Some (a, f') ->
  midPrice f' = midPrice f /\ c (strategy f) = Some (a, strategy f').
Proof.
  unfold onStrategy. destruct (c (strategy f)) as [[a' s'] |]; [| discriminate].
  intros H. inversion H; subst. split; reflexivity.
Qed.

Lemma Drift_ticker_steps fuel typeKline account sessionLast ticker f f' :
  DriftRun.OnBookTickerUpdate fuel typeKline account sessionLast ticker f
  = Some (tt, f') ->
  let mid :=
    if present (Sell ticker) && present (Buy ticker)
    then (Sell ticker + Buy ticker) / 2
    else if present (Sell ticker) then Sell ticker else Buy ticker in
  let s1 := observe mid (strategy f) in
  midPrice f' = mid
  /\ (NoTrailingStopLoss (cfg s1) || typeKline = true -> strategy f' = s1)
  /\ (NoTrailingStopLoss (cfg s1) || typeKline = false ->
      exists b1 s2 b2 s3,
        Drift.exitShortCondition1m (StopLoss (cfg s1)) mid s1 = Some (b1, s2)
        /\ Drift.exitLongCondition1m (StopLoss (cfg s1)) mid s2 = Some (b2, s3)
        /\ (b1 || b2 = false -> strategy f' = s3)
        /\ (b1 || b2 = true ->
            exists r,
              Drift.ClosePosition fuel
                (withLastPrice
                   (getLastPrice false sessionLast (set_midPrice mid f)) account)
                1 s3 = Some (r, strategy f'))).
Proof.
  intros Hrun mid s1. unfold present in mid.
  unfold DriftRun.OnBookTickerUpdate in Hrun.
  unfold bind at 1, modify at 1 in Hrun. fold mid in Hrun.
  unfold bind at 1, gets at 1 in Hrun. cbn [midPrice set_midPrice] in Hrun.
  unfold bind at 1, onStrategy at 1, modify at 1 in Hrun.
  cbn [strategy set_midPrice midPrice] in Hrun. fold s1 in Hrun.
  unfold bind at 1, gets at 1 in Hrun. cbn [strategy] in Hrun.
  destruct (NoTrailingStopLoss (cfg s1) || typeKline) eqn:Egate.
  { inversion Hrun; subst. cbn. split; [reflexivity |].
    split; [reflexivity | discriminate]. }
  unfold bind at 1 in Hrun.
  destruct (onStrategy (Drift.exitShortCondition1m (StopLoss (cfg s1)) mid)
              {| strategy := s1; midPrice := mid |}) as [[b1 f1] |] eqn:E1;
    [| discriminate].
  apply onStrategy_midPrice in E1 as [Hm1 E1]. cbn in Hm1, E1.
  unfold bind at 1 in Hrun.
  destruct (onStrategy (Drift.exitLongCondition1m (StopLoss (cfg s1)) mid) f1)
    as [[b2 f2] |] eqn:E2; [| discriminate].
  apply onStrategy_midPrice in E2 as [Hm2 E2].
  destruct (b1 || b2) eqn:Eb.
  - unfold bind at 1, get at 1 in Hrun. unfold bind at 1 in Hrun.
    match type of Hrun with
    | context [onStrategy ?c f2] =>
        destruct (onStrategy c f2) as [[r f3] |] eqn:E3; [| discriminate]
    end.
    apply onStrategy_midPrice in E3 as [Hm3 E3].
    unfold ret in Hrun. inversion Hrun; subst f3. clear Hrun.
    split; [congruence |]. split; [discriminate |]. intros _.
    exists b1, (strategy f1), b2, (strategy f2).
    split; [exact E1 |]. split; [exact E2 |].
    split; [congruence |]. intros _. exists r.
    assert (Hf2 : getLastPrice false sessionLast f2
                  = getLastPrice false sessionLast (set_midPrice mid f)).
    { unfold getLastPrice. rewrite Hm2, Hm1. reflexivity. }
    rewrite <- Hf2. exact E3.
  - unfold ret in Hrun. inversion Hrun; subst f'. clear Hrun.
    split; [congruence |]. split; [discriminate |]. intros _.
    exists b1, (strategy f1), b2, (strategy f2).
    split; [exact E1 |]. split; [exact E2 |].
    split; [reflexivity | intros H; congruence].
Qed.

Lemma sellPrice_observe price s : sellPrice (observe price s) = sellPrice s.
Proof. destruct (observe_cases price s) as (hp & lp & -> & _). reflexivity. Qed.

Lemma buyPrice_observe price s : buyPrice (observe price s) = buyPrice s.
Proof. destruct (observe_cases price s) as (hp & lp & -> & _). reflexivity. Qed.

(** X6.  The mid price the book-ticker callbacks cache: the mean of ask
    and bid when both are present, which lies between them; the one that is
    present otherwise.  On a ticker with neither, drift stores zero, so
    that [getLastPrice] falls back on the session's last price, and
    elliottwave keeps what it had.  [getLastPrice] ignores the mid price in
    a backtest and while it is zero. *)
Theorem midPrice_of_ticker :
  (forall fuel typeKline account sessionLast ticker f f',
     DriftRun.OnBookTickerUpdate fuel typeKline account sessionLast ticker f
     = Some (tt, f') ->
     (~ Sell ticker == 0 -> ~ Buy ticker == 0 ->
      midPrice f' == (Sell ticker + Buy ticker) / 2
      /\ (Buy ticker <= Sell ticker ->
          Buy ticker <= midPrice f' <= Sell ticker))
     /\ (~ Sell ticker == 0 -> Buy ticker == 0 -> midPrice f' = Sell ticker)
     /\ (Sell ticker == 0 -> midPrice f' = Buy ticker)
     /\ (Sell ticker == 0 -> Buy ticker == 0 ->
         getLastPrice false sessionLast f' = sessionLast))
  /\ (forall ticker f,
        exists f',
          ElliottwaveRun.OnBookTickerUpdate ticker f = Some (tt, f')
          /\ strategy f' = strategy f
          /\ (~ Sell ticker == 0 -> ~ Buy ticker == 0 ->
              midPrice f' == (Sell ticker + Buy ticker) / 2
              /\ (Buy ticker <= Sell ticker ->
                  Buy ticker <= midPrice f' <= Sell ticker))
          /\ (~ Sell ticker == 0 -> Buy ticker == 0 -> midPrice f' = Sell ticker)
          /\ (Sell ticker == 0 -> ~ Buy ticker == 0 -> midPrice f' = Buy ticker)
          /\ (Sell ticker == 0 -> Buy ticker == 0 -> f' = f))
  /\ (forall sessionLast f,
        getLastPrice true sessionLast f = sessionLast
        /\ (midPrice f == 0 -> getLastPrice false sessionLast f = sessionLast)
        /\ (~ midPrice f == 0 -> getLastPrice false sessionLast f = midPrice f)).
Proof.
  assert (Hmid : forall a b : Q, b <= a -> b <= (a + b) / 2 <= a).
  { intros a b Hab. assert (H : (a + b) / 2 + (a + b) / 2 == a + b) by field.
    split; lra. }
  assert (Hz : forall x : Q, x == 0 -> Qeq_bool x 0 = true)
    by (intros x; apply Qeq_bool_iff).
  assert (Hnz : forall x : Q, ~ x == 0 -> Qeq_bool x 0 = false).
  { intros x H. destruct (Qeq_bool x 0) eqn:E; [| reflexivity].
    apply Qeq_bool_iff in E. contradiction. }
  split; [| split].
  - intros fuel typeKline account sessionLast ticker f f' Hrun.
    apply Drift_ticker_steps in Hrun as (Hm & _). unfold present in Hm.
    rewrite Hm. split; [| split; [| split]].
    + intros Ha Hb. rewrite (Hnz _ Ha), (Hnz _ Hb). cbn.
      split; [reflexivity | apply Hmid].
    + intros Ha Hb. rewrite (Hnz _ Ha), (Hz _ Hb). reflexivity.
    + intros Ha. rewrite (Hz _ Ha). reflexivity.
    + intros Ha Hb. unfold getLastPrice. rewrite Hm, (Hz _ Ha). cbn.
      rewrite (Hz _ Hb). reflexivity.
  - intros ticker f. unfold ElliottwaveRun.OnBookTickerUpdate.
    destruct (Qeq_bool (Sell ticker) 0) eqn:Ea;
      [apply Qeq_bool_iff in Ea | apply Qeq_bool_neq in Ea];
      (destruct (Qeq_bool (Buy ticker) 0) eqn:Eb;
       [apply Qeq_bool_iff in Eb | apply Qeq_bool_neq in Eb]); cbn;
      eexists; (split; [reflexivity |]); cbn; (split; [reflexivity |]);
      (split; [| split; [| split]]); intros; try contradiction;
      try reflexivity; split; [reflexivity | apply Hmid].
  - intros sessionLast f. unfold getLastPrice. split; [reflexivity |].
    split; intros H; [rewrite (Hz _ H) | rewrite (Hnz _ H)]; reflexivity.
Qed.

(** X7.  Drift's book-ticker callback only moves the watermarks (and the
    cached mid price) when trailing stops are switched off or taken from
    the one-minute bars, and when both reference prices are zero: the
    executor is not touched.  With a short open and the mid price at or
    above the stop-loss level it calls [ClosePosition] for the whole
    position, priced at the mid price. *)
Theorem Drift_ticker_exit_gate fuel typeKline account sessionLast ticker f f' :
  DriftRun.OnBookTickerUpdate fuel typeKline account sessionLast ticker f
  = Some (tt, f') ->
  let s := strategy f in
  let s1 := observe (midPrice f') s in
  (NoTrailingStopLoss (cfg s) || typeKline = true
   \/ (buyPrice s <= 0 /\ sellPrice s <= 0) ->
   strategy f' = s1)
  /\ (NoTrailingStopLoss (cfg s) || typeKline = false ->
      0 < sellPrice s -> buyPrice s <= 0 ->
      sellPrice s * (1 + StopLoss (cfg s)) <= midPrice f' ->
      exists r,
        Drift.ClosePosition fuel
          (withLastPrice (getLastPrice false sessionLast f') account) 1 s1
        = Some (r, strategy f')).
Proof.
  intros Hrun s s1.
  apply Drift_ticker_steps in Hrun as (Hm & Hon & Hoff).
  cbv zeta in Hon, Hoff. rewrite <- Hm in Hon, Hoff. fold s s1 in Hon, Hoff.
  assert (Hc : cfg s1 = cfg s) by apply cfg_observe.
  assert (Hs : sellPrice s1 = sellPrice s) by apply sellPrice_observe.
  assert (Hb : buyPrice s1 = buyPrice s) by apply buyPrice_observe.
  rewrite Hc in Hon, Hoff.
  split.
  - intros [Hg | [Hbp Hsp]]; [auto |].
    destruct (NoTrailingStopLoss (cfg s) || typeKline) eqn:Eg; [auto |].
    destruct (Hoff eq_refl) as (b1 & s2 & b2 & s3 & E1 & E2 & Hno & _).
    unfold Drift.exitShortCondition1m, bind, get in E1. rewrite Hs in E1.
    assert (Qltb 0 (sellPrice s) = false) as Hq by (apply Qltb_ge; exact Hsp).
    rewrite Hq in E1. inversion E1; subst b1 s2. clear E1.
    unfold Drift.exitLongCondition1m, bind, get in E2. rewrite Hb in E2.
    assert (Qltb 0 (buyPrice s) = false) as Hq' by (apply Qltb_ge; exact Hbp).
    rewrite Hq' in E2. inversion E2; subst b2 s3. clear E2.
    apply Hno. reflexivity.
  - intros Eg Hsp Hbp Hstop.
    destruct (Hoff Eg) as (b1 & s2 & b2 & s3 & E1 & E2 & _ & Hyes).
    unfold Drift.exitShortCondition1m, bind, get in E1. rewrite Hs in E1.
    assert (Qltb 0 (sellPrice s) = true) as Hq by (apply Qltb_lt; exact Hsp).
    rewrite Hq in E1.
    assert (Qle_bool (sellPrice s * (1 + StopLoss (cfg s))) (midPrice f') = true)
      as Hq2 by (apply Qle_bool_iff; exact Hstop).
    rewrite Hq2 in E1. inversion E1; subst b1 s2. clear E1.
    unfold Drift.exitLongCondition1m, bind, get in E2. rewrite Hb in E2.
    assert (Qltb 0 (buyPrice s) = false) as Hq' by (apply Qltb_ge; exact Hbp).
    rewrite Hq' in E2. inversion E2; subst b2 s3. clear E2.
    destruct (Hyes eq_refl) as [r Hr]. exists r.
    assert (Hg : getLastPrice false sessionLast f'
                 = getLastPrice false sessionLast (set_midPrice (midPrice f') f)).
    { reflexivity. }
    rewrite Hg. exact Hr.
Qed.

(** ** The executor's position operations *)







(** ** Subscriptions *)

Local Open Scope Z_scope.

Lemma wrapInt_small z : - 2 ^ 63 <= z < 2 ^ 63 -> wrapInt z = z.
Proof.
  intros H. unfold wrapInt. rewrite Z.mod_small; lia.
Qed.

Lemma roundUp_1000 m :
  0 <= m < 2 ^ 62 ->
  let limit := wrapInt (wrapInt (Z.quot m 1000 + 1) * 1000) in
  m < limit <= m + 1000 /\ limit mod 1000 = 0.
Proof.
  intros Hm limit.
  assert (E : limit = (m / 1000 + 1) * 1000).
  { unfold limit. rewrite Z.quot_div_nonneg by lia.
    pose proof (Z.div_mod m 1000 ltac:(lia)) as Hdm.
    pose proof (Z.mod_pos_bound m 1000 ltac:(lia)) as Hmod.
    rewrite (wrapInt_small (m / 1000 + 1)) by lia.
    apply wrapInt_small. lia. }
  rewrite E.
  pose proof (Z.div_mod m 1000 ltac:(lia)) as Hdm.
  pose proof (Z.mod_pos_bound m 1000 ltac:(lia)) as Hmod.
  split; [lia |]. apply Z.mod_mul. lia.
Qed.

(** X10.  Drift's [Subscribe] sets the preload limit to the least multiple
    of 1000 that is larger than the number of one-minute bars its
    indicators look back on (for window sizes that are not negative and do
    not overflow). *)
Theorem Drift_Subscribe_covers_lookback IsBackTesting w :
  0 <= DriftRun.Window w -> 0 <= DriftRun.SmootherWindow w ->
  0 <= DriftRun.FisherTransformWindow w -> 0 <= DriftRun.IntervalMinutes w ->
  0 <= DriftRun.Window1m w -> 0 <= DriftRun.SmootherWindow1m w ->
  0 <= DriftRun.FisherTransformWindow1m w ->
  DriftRun.Window w + DriftRun.SmootherWindow w
    + DriftRun.FisherTransformWindow w < 2 ^ 62 ->
  driftLookback w < 2 ^ 62 ->
  let limit := fst (DriftRun.Subscribe IsBackTesting w) in
  driftLookback w < limit <= driftLookback w + 1000
  /\ limit mod 1000 = 0.
Proof.
  intros H1 H2 H3 H4 H5 H6 H7 Hsum Hb limit. unfold driftLookback in *.
  set (a := DriftRun.Window w + DriftRun.SmootherWindow w
            + DriftRun.FisherTransformWindow w) in *.
  set (b := DriftRun.Window1m w + DriftRun.SmootherWindow1m w
            + DriftRun.FisherTransformWindow1m w) in *.
  assert (Ha : 0 <= a) by (unfold a; lia).
  assert (Hb0 : 0 <= b) by (unfold b; lia).
  assert (Hprod : 0 <= a * DriftRun.IntervalMinutes w) by nia.
  unfold limit, DriftRun.Subscribe. cbn [fst].
  assert (Hw0 : wrapInt (DriftRun.Window w + DriftRun.SmootherWindow w)
                = DriftRun.Window w + DriftRun.SmootherWindow w)
    by (apply wrapInt_small; unfold a in *; lia).
  rewrite Hw0. fold a. rewrite (wrapInt_small a) by lia.
  rewrite (wrapInt_small (a * _)) by lia.
  assert (Hw1 : wrapInt (DriftRun.Window1m w + DriftRun.SmootherWindow1m w)
                = DriftRun.Window1m w + DriftRun.SmootherWindow1m w)
    by (apply wrapInt_small; unfold b in *; lia).
  rewrite Hw1. fold b. rewrite (wrapInt_small b) by lia.
  assert (Hmw : (if a * DriftRun.IntervalMinutes w <? b then b
                 else a * DriftRun.IntervalMinutes w)
                = Z.max (a * DriftRun.IntervalMinutes w) b).
  { destruct (_ <? _) eqn:El;
      [apply Z.ltb_lt in El | apply Z.ltb_ge in El]; lia. }
  rewrite Hmw. apply roundUp_1000. lia.
Qed.

(** X11.  Elliottwave's [Subscribe] sets the preload limit to a thousandth
    of the one-minute bars its slow average looks back on, plus 1001: the
    limit covers that number of bars only up to 1002 of them. *)
Theorem Elliottwave_Subscribe_limit IsBackTesting minutes WindowSlow :
  0 <= minutes -> 0 <= WindowSlow -> minutes * WindowSlow < 2 ^ 62 ->
  let limit := fst (ElliottwaveRun.Subscribe IsBackTesting minutes WindowSlow) in
  limit = minutes * WindowSlow / 1000 + 1001
  /\ (minutes * WindowSlow <= limit <-> minutes * WindowSlow <= 1002).
Proof.
  intros Hm Hw Hb limit.
  set (x := minutes * WindowSlow) in *.
  assert (Hx : 0 <= x) by (unfold x; nia).
  assert (E : limit = x / 1000 + 1001).
  { unfold limit, ElliottwaveRun.Subscribe. cbn [fst]. fold x.
    rewrite (wrapInt_small x) by lia.
    rewrite Z.quot_div_nonneg by lia.
    pose proof (Z.div_mod x 1000 ltac:(lia)) as Hdm.
    pose proof (Z.mod_pos_bound x 1000 ltac:(lia)) as Hmod.
    assert (0 <= x / 1000 <= x) by (split; [apply Z.div_pos; lia | lia]).
    rewrite (wrapInt_small (x / 1000 + 1)) by lia.
    rewrite wrapInt_small by lia. lia. }
  split; [exact E |]. rewrite E.
  pose proof (Z.div_mod x 1000 ltac:(lia)) as Hdm.
  pose proof (Z.mod_pos_bound x 1000 ltac:(lia)) as Hmod.
  lia.
Qed.

Local Close Scope Z_scope.

(** ** Entry orders of a bar *)

Lemma hoare_get_with {S B} (P : S -> Prop) (k : S -> M S B) (R : B -> S -> Prop) :
  (forall s0, P s0 -> hoare P (k s0) R) -> hoare P (bind get k) R.
Proof.
  intros Hk s b s' HP H. unfold bind, get in H. eapply Hk; eauto.
Qed.

Lemma entryEvent_other good ev :
  (forall o ok, ev = ExPlace o ok -> entryTag (so_Tag o) = false) ->
  entryEvent good ev.
Proof. intros H o ok E Ht. rewrite (H o ok E) in Ht. discriminate. Qed.

Lemma noEntryPlaced_entryEvent good new :
  noEntryPlaced new -> Forall (entryEvent good) new.
Proof.
  intros H. apply List.Forall_forall. intros ev Hin.
  apply entryEvent_other. intros o ok ->. eapply H, Hin.
Qed.

Lemma entriesSince_app good t0 e e' new :
  trace e' = new ++ trace e -> Forall (entryEvent good) new ->
  entriesSince good t0 e -> entriesSince good t0 e'.
Proof.
  intros Htr Hnew (old & Hold & Hev). exists (new ++ old).
  split; [rewrite Htr, Hold; apply List.app_assoc |].
  apply List.Forall_app. split; assumption.
Qed.

Lemma cfg_observeBar lowf highf s : cfg (observeBar lowf highf s) = cfg s.
Proof.
  destruct (observeBar_cases lowf highf s) as (hp & lp & -> & _). reflexivity.
Qed.

Lemma longEntry_ok view m source :
  let price := if Qltb (lastPrice view) source then lastPrice view else source in
  IsDustQuantity m (quoteAvailable view / price) price = false ->
  entryOK view m
    {| so_Side := SideTypeBuy; so_Type := OrderTypeLimit; so_Price := price;
       so_Quantity := quoteAvailable view / price; so_Tag := TagLong |}.
Proof.
  intros price Hd. unfold entryOK. cbn.
  split; [reflexivity |]. split; [exact Hd |]. split; [reflexivity |].
  split.
  - unfold price. destruct (Qltb (lastPrice view) source) eqn:E;
      [lra | apply Qltb_ge in E; exact E].
  - split; [reflexivity |]. intros Hm.
    apply IsDustQuantity_false in Hd.
    assert (Hp : ~ price == 0).
    { intros Hz. rewrite Hz in Hd. lra. }
    field. exact Hp.
Qed.

Lemma shortEntry_ok view m source :
  let price := if Qltb source (lastPrice view) then lastPrice view else source in
  IsDustQuantity m (baseAvailable view) price = false ->
  entryOK view m
    {| so_Side := SideTypeSell; so_Type := OrderTypeLimit; so_Price := price;
       so_Quantity := baseAvailable view; so_Tag := TagShort |}.
Proof.
  intros price Hd. unfold entryOK. cbn.
  split; [reflexivity |]. split; [exact Hd |]. split; [reflexivity |].
  split; [| reflexivity].
  unfold price. destruct (Qltb source (lastPrice view)) eqn:E;
    [lra | apply Qltb_ge in E; exact E].
Qed.

Section Placing.

Variable good : SubmitOrder -> Prop.
Variable c0 : Config.
Variable t0 : list Event.


Lemma placing_frame s s' :
  executor s' = executor s -> cfg s' = cfg s -> (placing good c0 t0) s -> (placing good c0 t0) s'.
Proof. unfold placing. intros -> ->. auto. Qed.

Lemma placing_onExecutor {A} (c : Exec A) :
  hoare (entriesSince good t0) c (fun _ => entriesSince good t0) ->
  hoare (placing good c0 t0) (onExecutor c) (fun _ => (placing good c0 t0)).
Proof.
  intros Hc s a s' [Hcfg HP] H. unfold onExecutor in H.
  destruct (c (executor s)) as [[a' e'] |] eqn:E; [| discriminate].
  injection H as <- <-. split; [exact Hcfg |]. cbn. eapply Hc; eauto.
Qed.

Lemma GracefulCancel_entriesSince :
  hoare (entriesSince good t0) GracefulCancel (fun _ => entriesSince good t0).
Proof.
  intros e er e' HP Hrun.
  destruct (GracefulCancel_cases e) as (er0 & e0 & Hrun0 & _ & _ & _ & Hcases).
  rewrite Hrun0 in Hrun. inversion Hrun; subst er0 e0. clear Hrun.
  destruct Hcases as [(_ & _ & ->) | [(_ & _ & _ & failed & Htr & Hf) | (_ & _ & _ & Htr)]].
  - exact HP.
  - eapply (entriesSince_app good t0 e e'
              (Pump :: ExCancel (activeMakerOrders e) true :: failed));
      [exact Htr | | exact HP].
    repeat (constructor; [apply entryEvent_other; intros; discriminate |]).
    destruct Hf as [-> | ->]; [constructor |].
    constructor; [apply entryEvent_other; intros; discriminate | constructor].
  - eapply (entriesSince_app good t0 e e'
              [ExCancel (activeMakerOrders e) false;
               ExCancel (activeMakerOrders e) false]);
      [exact Htr | | exact HP].
    repeat (constructor; [apply entryEvent_other; intros; discriminate |]).
    constructor.
Qed.

Lemma GracefulCancelOrder_entriesSince o :
  hoare (entriesSince good t0) (GracefulCancelOrder o)
    (fun _ => entriesSince good t0).
Proof.
  intros e er e' HP Hrun.
  destruct (GracefulCancelOrder_cases o e) as (er0 & e0 & new & Hrun0 & Hno & Htr & _).
  rewrite Hrun0 in Hrun. inversion Hrun; subst er0 e0. clear Hrun.
  eapply entriesSince_app; [exact Htr | | exact HP].
  apply noEntryPlaced_entryEvent, Hno.
Qed.

Lemma SubmitOrders_entriesSince o :
  (entryTag (so_Tag o) = true -> good o) ->
  hoare (entriesSince good t0) (SubmitOrders [o]) (fun _ => entriesSince good t0).
Proof.
  intros Ho e r e' HP Hrun.
  destruct (SubmitOrders_single o e)
    as (created & er1 & e1 & new1 & Hsub & Htr1 & Hev1 & _).
  rewrite Hsub in Hrun. inversion Hrun; subst. clear Hrun.
  eapply entriesSince_app; [exact Htr1 | | exact HP].
  eapply List.Forall_impl; [| exact Hev1].
  intros ev [-> | [ok ->]] o' ok' E Ht; [discriminate |].
  inversion E; subst. auto.
Qed.

Lemma ClosePosition_loop_entriesSince m Delta price fuel order :
  entryTag (so_Tag order) = false ->
  hoare (entriesSince good t0) (ClosePosition_loop fuel m Delta price order)
    (fun _ => entriesSince good t0).
Proof.
  intros Ht e r e' HP Hrun.
  apply ClosePosition_loop_events in Hrun as (new & Htr & Hev).
  eapply entriesSince_app; [exact Htr | | exact HP].
  eapply List.Forall_impl; [| exact Hev].
  intros ev [-> | (k & ok & -> & _)]; apply entryEvent_other;
    intros o' ok' E; [discriminate |].
  inversion E; subst. exact Ht.
Qed.

Lemma trailingCheck_placing price direction :
  hoare (placing good c0 t0) (trailingCheck price direction) (fun _ => (placing good c0 t0)).
Proof.
  intros s b s' HP H. rewrite trailingCheck_unfold in H.
  destruct (scanTiers _ _ _ _); [| discriminate]. inversion H; subst.
  eapply placing_frame; [apply executor_observe | apply cfg_observe | exact HP].
Qed.

Lemma Rebalance_placing view ind :
  hoare (placing good c0 t0) (Drift.Rebalance view ind) (fun _ => (placing good c0 t0)).
Proof.
  intros s [] s' HP H.
  destruct (Rebalance_frame view ind s) as (s1 & Hrun & He & Hc & _).
  rewrite Hrun in H. inversion H; subst s1.
  eapply placing_frame; eauto.
Qed.

Lemma ClosePosition_placing fuel Delta view percentage :
  hoare (placing good c0 t0) (ClosePosition fuel Delta view percentage) (fun _ => (placing good c0 t0)).
Proof.
  unfold ClosePosition. apply hoare_get_bind. intros s0.
  destruct (NewMarketCloseOrder (p s0) percentage) as [order |];
    [| apply hoare_ret_imp; auto].
  apply placing_onExecutor, ClosePosition_loop_entriesSince.
  unfold withTag, withQuantity. cbn. destruct (so_Side order);
    repeat match goal with
           | |- context [if ?b then _ else _] => destruct b
           end; reflexivity.
Qed.

Lemma Drift_smartCancel_placing ind pricef atr :
  hoare (placing good c0 t0) (Drift.smartCancel ind pricef atr) (fun _ => (placing good c0 t0)).
Proof.
  unfold Drift.smartCancel. apply hoare_get_bind. intros s0.
  destruct (0 <? _)%nat; [| apply hoare_ret_imp; auto].
  destruct (Drift.smartCancel_scan _ _ _ _ _) as [[|] |];
    [| apply hoare_ret_imp; auto | apply hoare_panic].
  eapply hoare_bind;
    [apply placing_onExecutor, GracefulCancel_entriesSince |].
  intros er. cbv beta.
  apply (hoare_bind (placing good c0 t0) _ (fun _ => (placing good c0 t0))).
  - destruct er; [apply hoare_ret_imp; auto |].
    apply hoare_modify. intros s HB.
    eapply placing_frame; [| | exact HB]; reflexivity.
  - intros _. apply hoare_ret_imp; auto.
Qed.

Lemma afterCancelOrder_placing o s : (placing good c0 t0) s -> (placing good c0 t0) (afterCancelOrder o s).
Proof.
  intros [Hc HP].
  destruct (afterCancelOrder_cases o s) as (new1 & Hcfg & _ & Htr1 & Hno1 & _).
  split; [congruence |].
  eapply entriesSince_app; [exact Htr1 | | exact HP].
  apply noEntryPlaced_entryEvent, Hno1.
Qed.

Lemma Elliottwave_smartCancel_loop_placing ind pricef orders :
  forall left,
    hoare (placing good c0 t0) (Elliottwave.smartCancel_loop ind pricef orders left)
      (fun _ => (placing good c0 t0)).
Proof.
  induction orders as [| x rest IH]; intros left.
  - apply hoare_ret_imp; auto.
  - intros s a s' HB Hrun. rewrite Elliottwave_round_eq in Hrun.
    cbv zeta in Hrun.
    assert (Hcancel :
      Elliottwave.smartCancel_loop ind pricef rest left (afterCancelOrder x s)
      = Some (a, s') -> (placing good c0 t0) s').
    { intros H. eapply IH; [| exact H]. apply afterCancelOrder_placing, HB. }
    assert (Hkeep : forall l,
      Elliottwave.smartCancel_loop ind pricef rest l s = Some (a, s') -> (placing good c0 t0) s').
    { intros l H. eapply IH; [| exact H]. exact HB. }
    destruct (negb (isOpen x)); [eapply Hkeep; eauto |].
    destruct (PendingMinutes (cfg s) <=? age s x)%Z; [auto |].
    destruct (Side x); [| | discriminate];
      destruct (Qle_bool _ _); eauto.
Qed.

Lemma Elliottwave_smartCancel_placing ind pricef :
  hoare (placing good c0 t0) (Elliottwave.smartCancel ind pricef) (fun _ => (placing good c0 t0)).
Proof.
  unfold Elliottwave.smartCancel. apply hoare_get_bind. intros s0.
  destruct (0 <? _)%nat; [| apply hoare_ret_imp; auto].
  apply Elliottwave_smartCancel_loop_placing.
Qed.

Lemma recordPending_placing created :
  hoare (placing good c0 t0) (recordPending created) (fun _ => (placing good c0 t0)).
Proof.
  destruct created; [apply hoare_panic |].
  apply hoare_modify. intros s HB.
  eapply placing_frame; [| | exact HB]; reflexivity.
Qed.

Lemma submitEntry_placing side price quantity tag :
  good {| so_Side := side; so_Type := OrderTypeLimit; so_Price := price;
          so_Quantity := quantity; so_Tag := tag |} ->
  hoare (placing good c0 t0) (Drift.submitEntry side price quantity tag) (fun _ => (placing good c0 t0)).
Proof.
  intros Hgood. unfold Drift.submitEntry.
  apply (hoare_bind (placing good c0 t0) _ (fun _ => (placing good c0 t0))).
  - apply placing_onExecutor, SubmitOrders_entriesSince. auto.
  - intros [created er].
    destruct er; [apply hoare_ret_imp; auto | apply recordPending_placing].
Qed.

(** The exit block: cancel everything, then close the position. *)
Lemma exit_block_placing fuel Delta view (exit : bool) :
  hoare (placing good c0 t0)
    (if exit then
       let* e := onExecutor GracefulCancel in
       match e with
       | Some _ => ret true
       | None => let* _ := ClosePosition fuel Delta view 1 in ret false
       end
     else ret false)
    (fun _ => (placing good c0 t0)).
Proof.
  destruct exit; [| apply hoare_ret_imp; auto].
  eapply hoare_bind;
    [apply placing_onExecutor, GracefulCancel_entriesSince |].
  intros er. cbv beta. destruct er; [apply hoare_ret_imp; auto |].
  apply (hoare_bind (placing good c0 t0) _ (fun _ => (placing good c0 t0))); [apply ClosePosition_placing |].
  intros _. apply hoare_ret_imp; auto.
Qed.

(** A [let] of the code; its value is kept. *)
Ltac place_let :=
  match goal with
  | |- hoare ?P (let x := ?v in @?body x) ?Q =>
      let y := fresh x in
      set (y := v); change (hoare P (body y) Q); cbv beta
  end.

Ltac place_case :=
  repeat place_let;
  lazymatch goal with
  | |- hoare _ (if ?b then _ else _) _ =>
      first [ is_var b; clearbody b; destruct b | destruct b eqn:? ]
  | |- hoare _ (match ?x with _ => _ end) _ =>
      first [ is_var x; destruct x | destruct x eqn:? ]
  end.

(** One step through a handler; an entry submission is left to the
    caller. *)
Ltac place_step :=
  repeat place_let;
  lazymatch goal with
  | |- hoare _ (ret _) _ => apply hoare_ret_imp; intros ? ?; assumption
  | |- hoare _ panic _ => apply hoare_panic
  | |- hoare _ (bind get _) _ => apply hoare_get_with; intros ? ?
  | |- hoare _ (bind (modify _) _) _ =>
      apply hoare_modify_bind;
      [ intros ? ?; eapply placing_frame;
        [ first [ apply executor_observeBar | reflexivity ]
        | first [ apply cfg_observeBar | reflexivity ]
        | assumption ] | ]
  | |- hoare _ (Drift.exitShortCondition1m _ _) _ =>
      unfold Drift.exitShortCondition1m
  | |- hoare _ (Drift.exitLongCondition1m _ _) _ =>
      unfold Drift.exitLongCondition1m
  | |- hoare _ (Drift.exitShortCondition _ _ _ _ _) _ =>
      unfold Drift.exitShortCondition
  | |- hoare _ (Drift.exitLongCondition _ _ _ _ _) _ =>
      unfold Drift.exitLongCondition
  | |- hoare _ (Elliottwave.exitShortCondition1m _ _ _) _ =>
      unfold Elliottwave.exitShortCondition1m
  | |- hoare _ (Elliottwave.exitLongCondition1m _ _ _) _ =>
      unfold Elliottwave.exitLongCondition1m
  | |- hoare _ (Elliottwave.exitShortCondition _ _ _ _) _ =>
      unfold Elliottwave.exitShortCondition
  | |- hoare _ (Elliottwave.exitLongCondition _ _ _ _) _ =>
      unfold Elliottwave.exitLongCondition
  | |- hoare _ (trailingCheck _ _) _ => apply trailingCheck_placing
  | |- hoare _ (Drift.Rebalance _ _) _ => apply Rebalance_placing
  | |- hoare _ (Drift.smartCancel _ _ _) _ => apply Drift_smartCancel_placing
  | |- hoare _ (Elliottwave.smartCancel _ _) _ =>
      apply Elliottwave_smartCancel_placing
  | |- hoare _ (ClosePosition _ _ _ _) _ => apply ClosePosition_placing
  | |- hoare _ (Drift.ClosePosition _ _ _) _ => apply ClosePosition_placing
  | |- hoare _ (Elliottwave.ClosePosition _ _ _) _ => apply ClosePosition_placing
  | |- hoare _ (onExecutor GracefulCancel) _ =>
      apply placing_onExecutor, GracefulCancel_entriesSince
  | |- hoare _ (bind (if _ then bind (onExecutor GracefulCancel) _ else _) _) _ =>
      apply (hoare_bind (placing good c0 t0) _ (fun _ => (placing good c0 t0)));
      [apply exit_block_placing | intros ?]
  | |- hoare _ (bind _ _) _ =>
      apply (hoare_bind (placing good c0 t0) _ (fun _ => (placing good c0 t0))); [| intros ?]
  | |- hoare _ (if _ then _ else _) _ => place_case
  | |- hoare _ (match _ with _ => _ end) _ => place_case
  end.

Lemma Drift_klineHandler1m_placing fuel view ind kline :
  hoare (placing good c0 t0) (Drift.klineHandler1m fuel view ind kline) (fun _ => (placing good c0 t0)).
Proof. unfold Drift.klineHandler1m. repeat place_step. Qed.

Lemma Elliottwave_klineHandler1m_placing fuel view ind kline :
  hoare (placing good c0 t0) (Elliottwave.klineHandler1m fuel view ind kline) (fun _ => (placing good c0 t0)).
Proof. unfold Elliottwave.klineHandler1m. repeat place_step. Qed.

(** The entry submissions that are left: the order is as [entryOK] says. *)
Ltac place_entry Hgood :=
  repeat match goal with x := _ |- _ => subst x end;
  match goal with
  | Hinv : placing _ _ _ ?s0 |- hoare _ (_ SideTypeBuy _ _ _) _ =>
      apply submitEntry_placing, Hgood;
      destruct Hinv as [<- _]; apply longEntry_ok; assumption
  | Hinv : placing _ _ _ ?s0 |- hoare _ (_ SideTypeSell _ _ _) _ =>
      apply submitEntry_placing, Hgood;
      destruct Hinv as [<- _]; apply shortEntry_ok; assumption
  end.

Lemma Drift_klineHandler_placing fuel view ind kline :
  (forall o, entryOK view (market c0) o -> good o) ->
  hoare (placing good c0 t0) (Drift.klineHandler fuel view ind kline) (fun _ => (placing good c0 t0)).
Proof.
  intros Hgood. unfold Drift.klineHandler. repeat place_step.
  all: place_entry Hgood.
Qed.

Lemma Elliottwave_klineHandler_placing fuel view ind kline :
  (forall o, entryOK view (market c0) o -> good o) ->
  hoare (placing good c0 t0) (Elliottwave.klineHandler fuel view ind kline) (fun _ => (placing good c0 t0)).
Proof.
  intros Hgood. unfold Elliottwave.klineHandler. repeat place_step.
  all: place_entry Hgood.
Qed.

End Placing.

Lemma placing_start good s : placing good (cfg s) (trace (executor s)) s.
Proof.
  split; [reflexivity |]. exists []. split; [reflexivity | constructor].
Qed.

(** X12.  The entry orders of drift's [klineHandler]: whatever it sends to
    the exchange as an entry is a limit order that is not dust at its own
    price; a long entry is a buy priced at or below the last price for the
    whole available quote balance, a short entry a sell of the whole
    available base balance priced at or above the last price. *)
Theorem Drift_entry_orders fuel view ind kline s s' :
  Drift.klineHandler fuel view ind kline s = Some (tt, s') ->
  exists new,
    trace (executor s') = new ++ trace (executor s)
    /\ Forall (entryEvent (entryOK view (market (cfg s)))) new.
Proof.
  intros Hrun.
  destruct (Drift_klineHandler_placing (entryOK view (market (cfg s))) (cfg s)
              (trace (executor s)) fuel view ind kline (fun o H => H)
              s tt s' (placing_start _ s) Hrun) as [_ H].
  exact H.
Qed.

(** X13.  The entry orders of elliottwave's [klineHandler]: whatever it
    sends to the exchange as an entry is a limit order that is not dust at
    its own price; a long entry is a buy priced at or below the last price
    for the whole available quote balance, a short entry a sell of the
    whole available base balance priced at or above the last price. *)
Theorem Elliottwave_entry_orders fuel view ind kline s s' :
  Elliottwave.klineHandler fuel view ind kline s = Some (tt, s') ->
  exists new,
    trace (executor s') = new ++ trace (executor s)
    /\ Forall (entryEvent (entryOK view (market (cfg s)))) new.
Proof.
  intros Hrun.
  destruct (Elliottwave_klineHandler_placing (entryOK view (market (cfg s)))
              (cfg s) (trace (executor s)) fuel view ind kline (fun o H => H)
              s tt s' (placing_start _ s) Hrun) as [_ H].
  exact H.
Qed.

Lemma entryEvent_False new :
  Forall (entryEvent (fun _ => False)) new -> noEntryPlaced new.
Proof.
  intros H o ok Hin. rewrite List.Forall_forall in H.
  specialize (H _ Hin o ok eq_refl).
  destruct (entryTag (so_Tag o)); [destruct (H eq_refl) | reflexivity].
Qed.

(** X14.  The dispatcher of closed bars tests for the one-minute interval
    first: a strategy whose own interval is one minute never runs
    [klineHandler], and so never sends an entry order.  A bar of any other
    interval than these two only sets the minute counter. *)
Theorem interval_1m_never_enters :
  (forall startTime fuel view ind kline s s',
     DriftRun.OnKLineClosed Interval1m startTime fuel view ind kline s
     = Some (tt, s') ->
     exists new,
       trace (executor s') = new ++ trace (executor s) /\ noEntryPlaced new)
  /\ (forall startTime fuel view ind kline s s',
        ElliottwaveRun.OnKLineClosed Interval1m startTime fuel view ind kline s
        = Some (tt, s') ->
        exists new,
          trace (executor s') = new ++ trace (executor s) /\ noEntryPlaced new)
  /\ (forall sInterval startTime fuel view ind kline s,
        Interval kline <> Interval1m -> Interval kline <> sInterval ->
        let s' := set_minutesCounter
                    (Minutes (StartTime kline + Interval kline - startTime)) s in
        DriftRun.OnKLineClosed sInterval startTime fuel view ind kline s
        = Some (tt, s')
        /\ ElliottwaveRun.OnKLineClosed sInterval startTime fuel view ind kline s
           = Some (tt, s')).
Proof.
  split; [| split].
  - intros startTime fuel view ind kline s s' Hrun.
    unfold DriftRun.OnKLineClosed, bind at 1, modify at 1 in Hrun.
    set (s1 := set_minutesCounter _ s) in Hrun.
    assert (H1 : placing (fun _ => False) (cfg s) (trace (executor s)) s1)
      by apply (placing_start _ s).
    destruct (Interval kline =? Interval1m)%Z.
    + destruct (Drift_klineHandler1m_placing _ _ _ fuel view ind (ohlc kline)
                  s1 tt s' H1 Hrun) as [_ (new & Htr & Hev)].
      exists new. split; [exact Htr | apply entryEvent_False, Hev].
    + inversion Hrun; subst s'. exists []. split; [reflexivity | intros ? ? []].
  - intros startTime fuel view ind kline s s' Hrun.
    unfold ElliottwaveRun.OnKLineClosed, bind at 1, modify at 1 in Hrun.
    set (s1 := set_minutesCounter _ s) in Hrun.
    assert (H1 : placing (fun _ => False) (cfg s) (trace (executor s)) s1)
      by apply (placing_start _ s).
    destruct (Interval kline =? Interval1m)%Z.
    + destruct (Elliottwave_klineHandler1m_placing _ _ _ fuel view ind
                  (ohlc kline) s1 tt s' H1 Hrun) as [_ (new & Htr & Hev)].
      exists new. split; [exact Htr | apply entryEvent_False, Hev].
    + inversion Hrun; subst s'. exists []. split; [reflexivity | intros ? ? []].
  - intros sInterval startTime fuel view ind kline s H1 H2 s'.
    unfold DriftRun.OnKLineClosed, ElliottwaveRun.OnKLineClosed, bind, modify.
    apply Z.eqb_neq in H1, H2. rewrite H1, H2. split; reflexivity.
Qed.

(** ** The handlers return *)

Lemma returns_ret {S A} (P : S -> Prop) (a : A) (Q : A -> S -> Prop) :
  (forall s, P s -> Q a s) -> returns P (ret a) Q.
Proof. intros H s HP. exists a, s. split; [reflexivity | auto]. Qed.

Lemma returns_bind {S A B} (P : S -> Prop) (c : M S A) (Q : A -> S -> Prop)
    (k : A -> M S B) (R : B -> S -> Prop) :
  returns P c Q -> (forall a, returns (Q a) (k a) R) -> returns P (bind c k) R.
Proof.
  intros Hc Hk s HP. destruct (Hc s HP) as (a & s1 & E & HQ).
  destruct (Hk a s1 HQ) as (b & s2 & E2 & HR).
  exists b, s2. unfold bind. rewrite E. auto.
Qed.

Lemma returns_get_with {S B} (P : S -> Prop) (k : S -> M S B)
    (R : B -> S -> Prop) :
  (forall s0, P s0 -> returns P (k s0) R) ->
  returns P (bind get k) R.
Proof.
  intros Hk s HP. destruct (Hk s HP s HP) as (b & s' & E & HR).
  exists b, s'. unfold bind, get. auto.
Qed.

Lemma returns_modify_bind {S B} (P : S -> Prop) (f : S -> S)
    (k : unit -> M S B) (R : B -> S -> Prop) :
  (forall s, P s -> P (f s)) -> returns P (k tt) R ->
  returns P (bind (modify f) k) R.
Proof.
  intros Hf Hk s HP. destruct (Hk (f s) (Hf s HP)) as (b & s' & E & HR).
  exists b, s'. unfold bind, modify. auto.
Qed.

Lemma returns_pre {S A} (P P' : S -> Prop) (c : M S A) (Q : A -> S -> Prop) :
  (forall s, P s -> P' s) -> returns P' c Q -> returns P c Q.
Proof. intros HP Hc s Hs. apply Hc, HP, Hs. Qed.

Lemma returns_post {S A} (P : S -> Prop) (c : M S A) (Q Q' : A -> S -> Prop) :
  (forall a s, Q' a s -> Q a s) -> returns P c Q' -> returns P c Q.
Proof.
  intros HQ Hc s Hs. destruct (Hc s Hs) as (a & s' & E & H).
  exists a, s'. auto.
Qed.

Lemma closeBound_le_closeFuel m Delta view q :
  0 < MinNotional m -> 0 < Delta ->
  q * lastPrice view
  <= fmax (baseAvailable view * lastPrice view) (quoteAvailable view) ->
  (closeBound m Delta q (lastPrice view) <= closeFuel m Delta view)%nat.
Proof.
  intros Hm HD Hle. unfold closeBound, closeFuel.
  set (d := MinNotional m * Delta).
  assert (Hd : 0 < d) by (apply Qmult_lt_0_compat; assumption).
  assert (H : q * lastPrice view / d
              <= fmax (baseAvailable view * lastPrice view) (quoteAvailable view) / d).
  { unfold Qdiv. apply Qmult_le_compat_r; [exact Hle |].
    apply Qlt_le_weak, Qinv_lt_0_compat, Hd. }
  apply Qceiling_resp_le in H. lia.
Qed.

Lemma fmax_ge x y : x <= fmax x y /\ y <= fmax x y.
Proof.
  unfold fmax. destruct (Qle_bool x y) eqn:E.
  - apply Qle_bool_iff in E. split; lra.
  - assert (H : ~ x <= y) by (intros H; apply Qle_bool_iff in H; congruence).
    split; lra.
Qed.

Lemma ClosePosition_within_fuel fuel Delta view percentage s :
  0 < MinNotional (market (cfg s)) -> 0 < Delta < 1 -> 0 < lastPrice view ->
  (closeFuel (market (cfg s)) Delta view < fuel)%nat ->
  exists s',
    ClosePosition fuel Delta view percentage s = Some (None, s')
    /\ cfg s' = cfg s.
Proof.
  intros Hm HD Hp Hfuel. unfold ClosePosition, bind, get.
  destruct (NewMarketCloseOrder (p s) percentage) as [order0 |] eqn:Eo;
    [| eexists; split; reflexivity].
  match goal with
  | |- context [ClosePosition_loop _ _ _ _ ?o] => set (order := o)
  end.
  assert (Hcap : so_Quantity order * lastPrice view
                 <= fmax (baseAvailable view * lastPrice view)
                      (quoteAvailable view)).
  { destruct (fmax_ge (baseAvailable view * lastPrice view)
                (quoteAvailable view)) as [Hb Hq].
    unfold NewMarketCloseOrder in Eo.
    destruct (Qeq_bool (Base (p s)) 0); [discriminate |].
    inversion Eo; subst order0. clear Eo.
    subst order. unfold withTag, withQuantity. cbn.
    destruct (IsLong (p s)); cbn.
    - destruct (Qltb (baseAvailable view) (Qabs (Base (p s)) * percentage))
        eqn:E; cbn; [lra |].
      apply Qltb_ge in E.
      apply (Qmult_le_compat_r _ _ (lastPrice view)) in E; lra.
    - assert (Hq' : quoteAvailable view / lastPrice view * lastPrice view
                    == quoteAvailable view) by (field; lra).
      destruct (Qltb (quoteAvailable view / lastPrice view)
                  (Qabs (Base (p s)) * percentage)) eqn:E; cbn; [lra |].
      apply Qltb_ge in E.
      apply (Qmult_le_compat_r _ _ (lastPrice view)) in E; lra. }
  pose proof (closeBound_le_closeFuel (market (cfg s)) Delta view
                (so_Quantity order) Hm (proj1 HD) Hcap) as Hbound.
  destruct (ClosePosition_loop_spec (market (cfg s)) Delta (lastPrice view)
              fuel order (executor s)
              (closeBound (market (cfg s)) Delta (so_Quantity order)
                 (lastPrice view)))
    as (e' & new & Hloop & _);
    [lia | apply dust_at_closeBound; assumption |].
  unfold onExecutor. rewrite Hloop. eexists. split; reflexivity.
Qed.

Section Returning.

Variable c0 : Config.
Variable view : MarketView.
Variable fuel : nat.

Hypothesis tiers :
  (length (TrailingCallbackRate c0) <= length (TrailingActivationRatio c0))%nat.
Hypothesis notional : 0 < MinNotional (market c0).
Hypothesis priced : 0 < lastPrice view.
Hypothesis fuelD : (closeFuel (market c0) Drift.Delta view < fuel)%nat.
Hypothesis fuelE : (closeFuel (market c0) Elliottwave.Delta view < fuel)%nat.


Lemma configured_frame s s' : cfg s' = cfg s -> (configured c0) s -> (configured c0) s'.
Proof. unfold configured. congruence. Qed.

Lemma configuredBook_frame s s' :
  cfg s' = cfg s -> executor s' = executor s -> (configuredBook c0) s -> (configuredBook c0) s'.
Proof. unfold configuredBook. intros -> ->. auto. Qed.

Lemma trailingCheck_returns price direction :
  returns (configured c0) (trailingCheck price direction) (fun _ => (configured c0)).
Proof.
  intros s Hs. unfold configured in *.
  destruct (trailingCheck_scan price direction s) as (b & Hb & _);
    [rewrite Hs; exact tiers |].
  exists b, (observe price s). split; [exact Hb |].
  rewrite cfg_observe. exact Hs.
Qed.

Lemma Rebalance_returns ind :
  returns (configured c0) (Drift.Rebalance view ind) (fun _ => (configured c0)).
Proof.
  intros s Hs. destruct (Rebalance_frame view ind s) as (s' & Hrun & _ & Hc & _).
  exists tt, s'. split; [exact Hrun |]. unfold configured in *. congruence.
Qed.

Lemma GracefulCancel_returns :
  returns (configured c0) (onExecutor GracefulCancel) (fun _ => (configured c0)).
Proof.
  intros s Hs. destruct (GracefulCancel_cases (executor s)) as (er & e' & Hrun & _).
  exists er, (set_executor e' s). unfold onExecutor. rewrite Hrun.
  split; [reflexivity | exact Hs].
Qed.

Lemma ClosePosition_returns_within Delta percentage :
  0 < Delta < 1 ->
  (closeFuel (market c0) Delta view < fuel)%nat ->
  returns (configured c0) (ClosePosition fuel Delta view percentage) (fun _ => (configured c0)).
Proof.
  intros HD Hfuel s Hs. unfold configured in *.
  destruct (ClosePosition_within_fuel fuel Delta view percentage s)
    as (s' & Hrun & Hc); try (rewrite Hs; assumption); try assumption.
  exists None, s'. split; [exact Hrun | congruence].
Qed.

Lemma submitEntry_returns side price quantity tag :
  returns (configured c0) (Drift.submitEntry side price quantity tag) (fun _ => (configured c0)).
Proof.
  intros s Hs. unfold Drift.submitEntry, bind, onExecutor.
  set (o := {| so_Side := side; so_Type := OrderTypeLimit; so_Price := price;
               so_Quantity := quantity; so_Tag := tag |}).
  destruct (SubmitOrders_single o (executor s))
    as (created & er & e' & new & Hsub & _ & _ & _ & _ & _ & Hcr).
  rewrite Hsub. destruct er as [x |].
  - eexists _, _. split; [reflexivity | exact Hs].
  - destruct created as [| c cs]; [exfalso; apply Hcr; reflexivity |].
    eexists _, _. split; [reflexivity | exact Hs].
Qed.

Lemma Drift_smartCancel_returns ind pricef atr :
  (length (drift1m ind) <? 2)%nat = false ->
  returns (configuredBook c0) (Drift.smartCancel ind pricef atr) (fun _ => (configured c0)).
Proof.
  intros Hlen s [Hs Hsup].
  destruct (drift1m ind) as [| d0 [| d1 ds]] eqn:Hd; try discriminate.
  unfold Drift.smartCancel, bind, get.
  destruct (0 <? length (activeMakerOrders (executor s)))%nat;
    [| eexists _, _; split; [reflexivity | exact Hs]].
  destruct (Drift_scan_spec s ind pricef d0 d1 ds _ Hd Hsup false)
    as (b & Hb & _).
  rewrite Hb. destruct b; [| eexists _, _; split; [reflexivity | exact Hs]].
  destruct (GracefulCancel_cases (executor s)) as (er & e' & Hrun & _).
  unfold onExecutor. rewrite Hrun.
  destruct er; eexists _, _; (split; [reflexivity | exact Hs]).
Qed.

Lemma Elliottwave_smartCancel_loop_returns ind pricef orders :
  Forall supported orders ->
  forall left,
    returns (configured c0) (Elliottwave.smartCancel_loop ind pricef orders left)
      (fun _ => (configured c0)).
Proof.
  induction 1 as [| x rest Hx _ IH]; intros left s Hs.
  - exists left, s. split; [reflexivity | exact Hs].
  - rewrite Elliottwave_round_eq. cbv zeta.
    assert (Hcancel : (configured c0) (afterCancelOrder x s)).
    { destruct (afterCancelOrder_cases x s) as (new1 & Hcfg & _).
      unfold configured in *. congruence. }
    destruct (negb (isOpen x)); [apply IH, Hs |].
    destruct (PendingMinutes (cfg s) <=? age s x)%Z; [apply IH, Hcancel |].
    unfold supported in Hx.
    destruct (Side x); [| | congruence];
      destruct (Qle_bool _ _); first [apply IH, Hcancel | apply IH, Hs].
Qed.

Lemma Elliottwave_smartCancel_returns ind pricef :
  returns (configuredBook c0) (Elliottwave.smartCancel ind pricef) (fun _ => (configured c0)).
Proof.
  intros s [Hs Hsup]. unfold Elliottwave.smartCancel, bind, get.
  destruct (0 <? _)%nat; [| eexists _, _; split; [reflexivity | exact Hs]].
  apply Elliottwave_smartCancel_loop_returns; assumption.
Qed.

Ltac ret_let :=
  match goal with
  | |- returns ?P (let x := ?v in @?body x) ?Q =>
      let y := fresh x in
      set (y := v); change (returns P (body y) Q); cbv beta
  end.

Ltac ret_case :=
  repeat ret_let;
  lazymatch goal with
  | |- returns _ (if ?b then _ else _) _ =>
      first [ is_var b; clearbody b; destruct b | destruct b eqn:? ]
  | |- returns _ (match ?x with _ => _ end) _ =>
      first [ is_var x; destruct x | destruct x eqn:? ]
  end.

Ltac ret_leaf :=
  first
    [ apply trailingCheck_returns
    | apply Rebalance_returns
    | apply GracefulCancel_returns
    | apply (ClosePosition_returns_within Drift.Delta);
      [apply (proj1 Delta_range) | exact fuelD]
    | apply (ClosePosition_returns_within Elliottwave.Delta);
      [apply (proj2 Delta_range) | exact fuelE]
    | apply submitEntry_returns ].

Ltac ret_frame :=
  intros ? ?;
  first
    [ eapply configuredBook_frame;
      [ first [ apply cfg_observeBar | reflexivity ]
      | first [ apply executor_observeBar | reflexivity ]
      | eassumption ]
    | eapply configured_frame;
      [ first [ apply cfg_observeBar | reflexivity ] | eassumption ] ].

(** One step through a handler. *)
Ltac ret_step :=
  repeat ret_let;
  lazymatch goal with
  | |- returns _ (ret _) _ =>
      apply returns_ret; intros ? ?; first [ exact I | assumption ]
  | |- returns _ (bind get _) _ => apply returns_get_with; intros ? ?
  | |- returns _ (bind (modify _) _) _ =>
      apply returns_modify_bind; [ ret_frame | ]
  | |- returns _ (Drift.exitShortCondition1m _ _) _ =>
      unfold Drift.exitShortCondition1m
  | |- returns _ (Drift.exitLongCondition1m _ _) _ =>
      unfold Drift.exitLongCondition1m
  | |- returns _ (Drift.exitShortCondition _ _ _ _ _) _ =>
      unfold Drift.exitShortCondition
  | |- returns _ (Drift.exitLongCondition _ _ _ _ _) _ =>
      unfold Drift.exitLongCondition
  | |- returns _ (Elliottwave.exitShortCondition1m _ _ _) _ =>
      unfold Elliottwave.exitShortCondition1m
  | |- returns _ (Elliottwave.exitLongCondition1m _ _ _) _ =>
      unfold Elliottwave.exitLongCondition1m
  | |- returns _ (Elliottwave.exitShortCondition _ _ _ _) _ =>
      unfold Elliottwave.exitShortCondition
  | |- returns _ (Elliottwave.exitLongCondition _ _ _ _) _ =>
      unfold Elliottwave.exitLongCondition
  | |- returns _ (bind (Drift.smartCancel _ _ _) _) _ =>
      apply (returns_bind _ _ (fun _ => (configured c0)));
      [ apply Drift_smartCancel_returns; assumption | intros ? ]
  | |- returns _ (bind (Elliottwave.smartCancel _ _) _) _ =>
      apply (returns_bind _ _ (fun _ => (configured c0)));
      [ apply Elliottwave_smartCancel_returns | intros ? ]
  | |- returns _ (bind _ _) _ =>
      apply (returns_bind _ _ (fun _ => (configured c0))); [ | intros ? ]
  | |- returns _ (if _ then _ else _) _ => ret_case
  | |- returns _ (match _ with _ => _ end) _ => ret_case
  | |- returns _ _ (fun _ => configured _) => ret_leaf
  | |- returns _ _ _ =>
      apply (returns_post _ _ _ (fun _ => (configured c0))); [ intros; exact I | ret_leaf ]
  end.



Lemma Elliottwave_klineHandler_returns_tt ind kline :
  returns (configuredBook c0) (Elliottwave.klineHandler fuel view ind kline) (fun _ _ => True).
Proof. unfold Elliottwave.klineHandler. repeat ret_step. Qed.

Lemma Elliottwave_klineHandler1m_returns_tt ind kline :
  returns (configuredBook c0) (Elliottwave.klineHandler1m fuel view ind kline)
    (fun _ _ => True).
Proof. unfold Elliottwave.klineHandler1m. repeat ret_step. Qed.

End Returning.

(** ** What smartCancel decides *)

Lemma Drift_scan_decides s ind pricef d0 d1 ds orders :
  drift1m ind = d0 :: d1 :: ds ->
  Forall supported orders ->
  forall toCancel,
    Drift.smartCancel_scan s ind pricef orders toCancel
    = Some (toCancel || existsb (driftTrigger s ind pricef) orders).
Proof.
  intros Hd Hsup. induction Hsup as [| x orders Hx _ IH]; intros toCancel.
  - cbn. rewrite orb_false_r. reflexivity.
  - cbn [Drift.smartCancel_scan existsb]. rewrite Hd. cbn [nth_error].
    unfold driftTrigger at 1, spared. rewrite Hd. fold (age s x).
    unfold supported in Hx.
    destruct (isOpen x); cbn [negb andb orb]; [| apply IH].
    destruct (PendingMinutes (cfg s) <? age s x)%Z.
    + destruct (Side x); [| | congruence].
      * destruct (Qltb d1 d0); cbn [negb orb]; rewrite IH;
          [reflexivity | rewrite orb_true_r; reflexivity].
      * destruct (Qltb d0 d1); cbn [negb orb]; rewrite IH;
          [reflexivity | rewrite orb_true_r; reflexivity].
    + destruct (Side x); [| | congruence];
        destruct (Qle_bool _ _); rewrite IH; cbn [orb];
        rewrite ?orb_true_r; reflexivity.
Qed.

(** X15.  Drift's [smartCancel], on a drift series of at least two values
    and a book of buy and sell orders: with no order in the book that
    triggers it, it leaves the strategy as it is and reports the number of
    orders in the book; one such order suffices for it to ask for the
    cancellation of the whole book and to report no pending order.  When
    the executor reports success the book is empty and the age entries of
    all its orders are deleted; when it reports an error, book and age map
    are as before.  The [atr] argument plays no part. *)
Theorem Drift_smartCancel_decision s ind pricef atr d0 d1 ds :
  drift1m ind = d0 :: d1 :: ds ->
  Forall supported (activeMakerOrders (executor s)) ->
  let book := activeMakerOrders (executor s) in
  (existsb (driftTrigger s ind pricef) book = false ->
   Drift.smartCancel ind pricef atr s
   = Some ((Z.of_nat (length book), None), s))
  /\ (existsb (driftTrigger s ind pricef) book = true ->
      exists er s' new,
        Drift.smartCancel ind pricef atr s = Some ((0%Z, er), s')
        /\ trace (executor s') = new ++ trace (executor s)
        /\ (exists ok, In (ExCancel book ok) new)
        /\ noEntryPlaced new
        /\ (er = None ->
            activeMakerOrders (executor s') = []
            /\ forall o, In o book ->
                 orderPendingCounter s' !! OrderID o = None)
        /\ (er <> None ->
            activeMakerOrders (executor s') = book
            /\ orderPendingCounter s' = orderPendingCounter s)).
Proof.
  intros Hd Hsup book.
  pose proof (Drift_scan_decides s ind pricef d0 d1 ds _ Hd Hsup false) as Hscan.
  cbn [orb] in Hscan. fold book in Hscan.
  unfold Drift.smartCancel, bind, get, ret, modify, onExecutor. fold book.
  split; intros Hex; rewrite Hex in Hscan.
  - destruct (0 <? length book)%nat; [rewrite Hscan |]; reflexivity.
  - destruct book as [| x xs] eqn:Eb; [discriminate |].
    cbn [length Nat.ltb Nat.leb]. rewrite Hscan.
    destruct (GracefulCancel_cases (executor s))
      as (er & e' & Hrun & _ & _ & _ & Hcases).
    rewrite Hrun. fold book in Hcases. rewrite Eb in Hcases.
    destruct Hcases as [(_ & Hnil & _) | [(-> & _ & Hb' & failed & Htr & Hf) | (Hne & _ & Hb' & Htr)]].
    + discriminate.
    + eexists None, _, (Pump :: ExCancel (x :: xs) true :: failed).
      split; [reflexivity |]. cbn -[deleteAll].
      split; [exact Htr |].
      split; [exists true; cbn; auto |].
      split.
      { intros o ok [Hin | [Hin | Hin]]; try discriminate.
        destruct Hf as [-> | ->]; [destruct Hin |].
        destruct Hin as [Hin | []]. discriminate. }
      split; [| intros H; congruence].
      intros _. split; [exact Hb' |].
      intros o Hin. apply deleteAll_lookup. right. eauto.
    + destruct er as [x0 |]; [| congruence].
      eexists (Some x0), _, [ExCancel (x :: xs) false; ExCancel (x :: xs) false].
      split; [reflexivity |]. cbn.
      split; [exact Htr |].
      split; [exists false; auto |].
      split; [intros o ok [Hin | [Hin | []]]; discriminate |].
      split; [discriminate |]. intros _. split; [exact Hb' | reflexivity].
Qed.

Lemma leftAlone_after_cancel ind pricef x s o :
  OrderID x <> OrderID o ->
  leftAlone (afterCancelOrder x s) ind pricef o = leftAlone s ind pricef o.
Proof.
  intros Hne. unfold leftAlone, elliottwaveTrigger, age, counterOf.
  destruct (afterCancelOrder_cases x s) as (new & Hcfg & Hmc & _ & _ & Hcases).
  rewrite Hcfg, Hmc.
  destruct Hcases as [(_ & Hc & _) | (_ & Hc & _)]; rewrite Hc;
    [rewrite lookup_delete_ne by exact Hne |]; reflexivity.
Qed.

Lemma Elliottwave_loop_left ind pricef orders :
  Forall supported orders ->
  List.NoDup (map OrderID orders) ->
  forall left s,
  exists s',
    Elliottwave.smartCancel_loop ind pricef orders left s
    = Some ((left + Z.of_nat (length (List.filter (leftAlone s ind pricef) orders)))%Z,
            s').
Proof.
  induction 1 as [| x rest Hx Hrest IH]; intros Hnd left s.
  - exists s. cbn. rewrite Z.add_0_r. reflexivity.
  - cbn [map] in Hnd. inversion Hnd as [| ? ? Hnotin Hnd']; subst.
    rewrite (Elliottwave_round _ _ _ _ _ _ Hx).
    cbn [List.filter]. unfold leftAlone at 1, elliottwaveTrigger.
    destruct (isOpen x); cbn [negb andb]; [| apply IH, Hnd'].
    match goal with
    | |- context [if ?b then _ else _] => destruct b eqn:Et
    end; cbn [negb].
    + destruct (IH Hnd' left (afterCancelOrder x s)) as (s' & Hrun).
      assert (Hf : List.filter (leftAlone (afterCancelOrder x s) ind pricef) rest
                   = List.filter (leftAlone s ind pricef) rest).
      { apply List.filter_ext_in. intros o Hin.
        apply leftAlone_after_cancel. intros Heq. apply Hnotin.
        rewrite Heq. apply in_map, Hin. }
      rewrite Hf in Hrun. exists s'. exact Hrun.
    + destruct (IH Hnd' (left + 1)%Z s) as (s' & Hrun).
      exists s'. rewrite Hrun. cbn [length]. f_equal. f_equal. lia.
Qed.

(** X16.  Elliottwave's [smartCancel], on a book of buy and sell orders
    with distinct IDs, reports the number of open orders it did not ask to
    cancel: an order it asked to cancel is not counted, whether the
    exchange accepted the cancellation or refused it. *)
Theorem Elliottwave_smartCancel_reports s ind pricef :
  Forall supported (activeMakerOrders (executor s)) ->
  List.NoDup (map OrderID (activeMakerOrders (executor s))) ->
  exists s',
    Elliottwave.smartCancel ind pricef s
    = Some (Z.of_nat (length (List.filter (leftAlone s ind pricef)
                                (activeMakerOrders (executor s)))), s').
Proof.
  intros Hsup Hnd. unfold Elliottwave.smartCancel, bind, get.
  destruct (activeMakerOrders (executor s)) as [| x xs] eqn:Eb.
  - exists s. reflexivity.
  - cbn [length Nat.ltb Nat.leb].
    destruct (Elliottwave_loop_left ind pricef (x :: xs) Hsup Hnd 0%Z s)
      as (s' & Hrun).
    exists s'. rewrite Hrun. reflexivity.
Qed.

Lemma OnEmergencyStop_returns Delta fuel view s :
  0 < Delta < 1 -> 0 < MinNotional (market (cfg s)) -> 0 < lastPrice view ->
  (closeFuel (market (cfg s)) Delta view < fuel)%nat ->
  exists s',
    (let* _ := onExecutor GracefulCancel in
     let* _ := ClosePosition fuel Delta view 1 in
     ret tt) s = Some (tt, s').
Proof.
  intros HD Hm Hp Hfuel.
  destruct (GracefulCancel_cases (executor s)) as (er & e' & Hrun & _).
  unfold bind at 1, onExecutor. rewrite Hrun.
  destruct (ClosePosition_within_fuel fuel Delta view 1 (set_executor e' s))
    as (s' & Hclose & _); auto.
  exists s'. unfold bind, ret. rewrite Hclose. reflexivity.
Qed.


(** X18.  Elliottwave's callbacks in the bar-close domain return: no index
    is out of range, no order side is unsupported, [createdOrders[0]]
    exists, and the loop of [ClosePosition] ends within [closeFuel] rounds.
    This needs [TrailingActivationRatio] to be at least as long as
    [TrailingCallbackRate], a positive minimum notional and last price,
    and a book of buy and sell orders. *)
Theorem Elliottwave_callbacks_return fuel view ind s :
  (length (TrailingCallbackRate (cfg s))
   <= length (TrailingActivationRatio (cfg s)))%nat ->
  0 < MinNotional (market (cfg s)) ->
  0 < lastPrice view ->
  Forall supported (activeMakerOrders (executor s)) ->
  (closeFuel (market (cfg s)) Elliottwave.Delta view < fuel)%nat ->
  (forall kline, exists s',
     Elliottwave.klineHandler fuel view ind kline s = Some (tt, s'))
  /\ (forall kline, exists s',
        Elliottwave.klineHandler1m fuel view ind kline s = Some (tt, s'))
  /\ (forall sInterval startTime kline, exists s',
        ElliottwaveRun.OnKLineClosed sInterval startTime fuel view ind kline s
        = Some (tt, s'))
  /\ (exists s', ElliottwaveRun.OnEmergencyStop fuel view s = Some (tt, s'))
  /\ (exists s', ElliottwaveRun.OnSuspend s = Some (tt, s')).
Proof.
  intros Hlen Hm Hp Hsup Hfuel.
  assert (Hk : forall s1, cfg s1 = cfg s -> executor s1 = executor s ->
            forall kline, exists s',
              Elliottwave.klineHandler fuel view ind kline s1 = Some (tt, s')).
  { intros s1 Hc He kline.
    destruct (Elliottwave_klineHandler_returns_tt (cfg s) view fuel Hlen Hm Hp
                Hfuel ind kline s1) as ([] & s' & Hrun & _).
    - split; [exact Hc | rewrite He; exact Hsup].
    - exists s'. exact Hrun. }
  assert (Hk1 : forall s1, cfg s1 = cfg s -> executor s1 = executor s ->
            forall kline, exists s',
              Elliottwave.klineHandler1m fuel view ind kline s1 = Some (tt, s')).
  { intros s1 Hc He kline.
    destruct (Elliottwave_klineHandler1m_returns_tt (cfg s) view fuel Hlen Hm Hp
                Hfuel ind kline s1) as ([] & s' & Hrun & _).
    - split; [exact Hc | rewrite He; exact Hsup].
    - exists s'. exact Hrun. }
  split; [apply Hk; reflexivity |].
  split; [apply Hk1; reflexivity |].
  split.
  - intros sInterval startTime kline.
    unfold ElliottwaveRun.OnKLineClosed, bind at 1, modify at 1.
    destruct (Interval kline =? Interval1m)%Z; [apply Hk1; reflexivity |].
    destruct (Interval kline =? sInterval)%Z; [apply Hk; reflexivity |].
    eexists. reflexivity.
  - split.
    + apply (OnEmergencyStop_returns Elliottwave.Delta);
        [apply Delta_range | assumption ..].
    + destruct (GracefulCancel_cases (executor s)) as (er & e' & Hrun & _).
      unfold ElliottwaveRun.OnSuspend, bind, onExecutor, ret. rewrite Hrun.
      eexists. reflexivity.
Qed.

(** ** The theorems at work *)

Lemma ClosePosition_resubmits_after_retry_witness :
  exists e',
    ClosePosition_loop 2 (market Example.twoTiers) Drift.Delta 100
      Example.closeOne (Example.idle Scenario.firstRefused) = Some (None, e')
    /\ placedQuantities (rev (trace e')) = [1; 1; 1 * (1 - Drift.Delta)].
Proof.
  destruct (ClosePosition_resubmits_after_retry (market Example.twoTiers)
              Drift.Delta 100 Example.closeOne
              (Example.idle Scenario.firstRefused) 2)
    as (e' & Hrun & Htr & _); try reflexivity; try lia.
  exists e'. split; [exact Hrun |]. rewrite Htr. reflexivity.
Defined.

Lemma ClosePosition_within_balance_witness :
  exists r s' new,
    ClosePosition 1 Drift.Delta Scenario.funded 1 (Example.longAt100 103)
    = Some (r, s')
    /\ trace (executor s') = new ++ trace (executor (Example.longAt100 103))
    /\ Forall (withinBalance Scenario.funded
                 {| so_Side := SideTypeSell; so_Type := OrderTypeMarket;
                    so_Price := 0; so_Quantity := Qabs 1 * 1;
                    so_Tag := TagNone |}) new.
Proof.
  assert (E : exists r s',
            ClosePosition 1 Drift.Delta Scenario.funded 1 (Example.longAt100 103)
            = Some (r, s')) by (eexists _, _; vm_compute; reflexivity).
  destruct E as (r & s' & E). exists r, s'.
  destruct (ClosePosition_within_balance 1 Drift.Delta Scenario.funded 1
              (Example.longAt100 103) r s'
              {| so_Side := SideTypeSell; so_Type := OrderTypeMarket;
                 so_Price := 0; so_Quantity := Qabs 1 * 1; so_Tag := TagNone |})
    as (new & Htr & Hev);
    [reflexivity | reflexivity | split; reflexivity | reflexivity | exact E |].
  exists new. split; [exact E |]. split; [exact Htr | exact Hev].
Defined.

Lemma Rebalance_targets_witness :
  exists s',
    Drift.Rebalance Scenario.funded Example.calm Example.flat = Some (tt, s')
    /\ executor s' = executor Example.flat.
Proof.
  destruct (Rebalance_targets Scenario.funded Example.calm Example.flat)
    as (s' & Hrun & He & _); [reflexivity |].
  exists s'. split; [exact Hrun | exact He].
Defined.

Lemma Drift_ticker_exit_gate_witness :
  exists f',
    DriftRun.OnBookTickerUpdate 1 false Scenario.funded 100 Scenario.ticker
      (Scenario.fresh Example.flat) = Some (tt, f')
    /\ strategy f' = observe (midPrice f') Example.flat.
Proof.
  assert (E : exists f',
            DriftRun.OnBookTickerUpdate 1 false Scenario.funded 100
              Scenario.ticker (Scenario.fresh Example.flat) = Some (tt, f'))
    by (eexists; vm_compute; reflexivity).
  destruct E as (f' & E). exists f'. split; [exact E |].
  destruct (Drift_ticker_exit_gate 1 false Scenario.funded 100 Scenario.ticker
              (Scenario.fresh Example.flat) f' E) as [H _].
  apply H. right. cbn. split; discriminate.
Defined.

Lemma Drift_Subscribe_covers_lookback_witness :
  (driftLookback Scenario.halfHour
   < fst (DriftRun.Subscribe true Scenario.halfHour)
   <= driftLookback Scenario.halfHour + 1000)%Z
  /\ (fst (DriftRun.Subscribe true Scenario.halfHour) mod 1000 = 0)%Z.
Proof.
  apply (Drift_Subscribe_covers_lookback true Scenario.halfHour);
    vm_compute; congruence.
Defined.

Lemma Elliottwave_Subscribe_limit_witness :
  (fst (ElliottwaveRun.Subscribe true 30 100) = 30 * 100 / 1000 + 1001)%Z
  /\ (30 * 100 <= fst (ElliottwaveRun.Subscribe true 30 100)
      <-> 30 * 100 <= 1002)%Z.
Proof.
  apply (Elliottwave_Subscribe_limit true 30 100); vm_compute; congruence.
Defined.



Lemma Drift_entry_orders_witness :
  exists s' new,
    Drift.klineHandler 1 Example.view Example.bullishWide Example.bar
      Example.resting = Some (tt, s')
    /\ trace (executor s') = new ++ trace (executor Example.resting)
    /\ Forall (entryEvent (entryOK Example.view (market (cfg Example.resting))))
         new.
Proof.
  assert (E : exists s',
            Drift.klineHandler 1 Example.view Example.bullishWide Example.bar
              Example.resting = Some (tt, s'))
    by (eexists; vm_compute; reflexivity).
  destruct E as (s' & E). exists s'.
  destruct (Drift_entry_orders 1 Example.view Example.bullishWide Example.bar
              Example.resting s' E) as (new & Htr & Hev).
  exists new. split; [exact E |]. split; [exact Htr | exact Hev].
Defined.

Lemma Elliottwave_entry_orders_witness :
  exists s' new,
    Elliottwave.klineHandler 1 Example.view Example.bullishWide Example.bar
      Example.resting = Some (tt, s')
    /\ trace (executor s') = new ++ trace (executor Example.resting)
    /\ Forall (entryEvent (entryOK Example.view (market (cfg Example.resting))))
         new.
Proof.
  assert (E : exists s',
            Elliottwave.klineHandler 1 Example.view Example.bullishWide
              Example.bar Example.resting = Some (tt, s'))
    by (eexists; vm_compute; reflexivity).
  destruct E as (s' & E). exists s'.
  destruct (Elliottwave_entry_orders 1 Example.view Example.bullishWide
              Example.bar Example.resting s' E) as (new & Htr & Hev).
  exists new. split; [exact E |]. split; [exact Htr | exact Hev].
Defined.

Lemma supported_resting :
  Forall supported (activeMakerOrders (executor Example.resting)).
Proof. repeat constructor. discriminate. Qed.


Lemma Elliottwave_callbacks_return_witness :
  exists s',
    Elliottwave.klineHandler
      (S (closeFuel (market (cfg Example.resting)) Elliottwave.Delta
            Example.view))
      Example.view Example.bullish Example.bar Example.resting = Some (tt, s').
Proof.
  destruct (Elliottwave_callbacks_return
              (S (closeFuel (market (cfg Example.resting)) Elliottwave.Delta
                    Example.view))
              Example.view Example.bullish Example.resting) as (H & _).
  - cbn. lia.
  - reflexivity.
  - reflexivity.
  - exact supported_resting.
  - lia.
  - apply H.
Defined.

Lemma Drift_smartCancel_decision_witness :
  Drift.smartCancel Example.falling 100 1 Example.stale
  = Some ((1%Z, None), Example.stale).
Proof.
  destruct (Drift_smartCancel_decision Example.stale Example.falling 100 1
              2 1 []) as (H & _).
  - reflexivity.
  - repeat constructor. discriminate.
  - apply H. vm_compute. reflexivity.
Defined.

Lemma Elliottwave_smartCancel_reports_witness :
  exists s',
    Elliottwave.smartCancel Example.bullishWide 100 Example.resting
    = Some (1%Z, s').
Proof.
  destruct (Elliottwave_smartCancel_reports Example.resting Example.bullishWide
              100) as (s' & H).
  - exact supported_resting.
  - repeat constructor. intros [].
  - exists s'. rewrite H. vm_compute. reflexivity.
Defined.
